(** * JARVIS: the ReAct planner, its tool dispatch and the terminal skill

    A shallow embedding of
      - [skills/base_skill.py]   ([SkillResult], [create_tool_schema]),
      - [config.py]              ([SecurityConfig]),
      - [skills/terminal.py]     ([TerminalSkill]),
      - [cognitive/planner.py]   ([ReActPlanner]),
      - [cognitive/llm_brain.py] ([LLMBrain.chat]),
      - [skills/web_browser.py]  ([WebBrowserSkill._search]),
      - [main.py]                ([Jarvis._handle_confirmation],
                                  [Jarvis._handle_command]),
    followed by the properties of the orchestration loop.

    Conventions.
      - A Python [str] is a [string] holding its UTF-8 encoding.  Case
        mapping and white space follow Python on the ASCII range; bytes
        above 127 are left alone by [lower] and are never white space.
      - JSON numbers are integers ([Z]); floats do not occur.
      - A [dict] is an association list in insertion order: the order of
        the registry is the order of the tool descriptors, and the order of
        the keys is the one [json.dumps] writes.
      - An awaited call returns a value or raises an [Exception]; the
        outcome is explicit.  Effects (reasoning calls, confirmation
        prompts, subprocesses, the conversation memory) are recorded in a
        trace of events; what the outside world answers is given by oracles
        that read the trace.  Logging is left out. *)

From Stdlib Require Import String Ascii List ZArith Bool Arith Lia DecimalString.
From Stdlib Require QArith.
Import ListNotations.
Set Warnings "-register-all".
Open Scope list_scope.
Open Scope string_scope.

(** ** Python strings *)

Module PyStr.

(** [c.isspace()] on the ASCII range: TAB, LF, VT, FF, CR, FS, GS, RS, US
    and the blank. *)
Definition isspace (c : ascii) : bool :=
  let n := nat_of_ascii c in
  (((9 <=? n) && (n <=? 13)) || ((28 <=? n) && (n <=? 32)))%nat.

Definition lower_char (c : ascii) : ascii :=
  let n := nat_of_ascii c in
  if ((65 <=? n) && (n <=? 90))%nat then ascii_of_nat (n + 32) else c.

(** [s.lower()] *)
Fixpoint lower (s : string) : string :=
  match s with
  | EmptyString => EmptyString
  | String c s' => String (lower_char c) (lower s')
  end.

(** [s.lstrip()] *)
Fixpoint lstrip (s : string) : string :=
  match s with
  | EmptyString => EmptyString
  | String c s' => if isspace c then lstrip s' else s
  end.

(** [s.rstrip()] *)
Fixpoint rstrip (s : string) : string :=
  match s with
  | EmptyString => EmptyString
  | String c s' =>
      match rstrip s' with
      | EmptyString => if isspace c then EmptyString else String c EmptyString
      | r => String c r
      end
  end.

(** [s.strip()] *)
Definition strip (s : string) : string := rstrip (lstrip s).

(** [s.startswith(p)] *)
Fixpoint startswith (s p : string) {struct p} : bool :=
  match p, s with
  | EmptyString, _ => true
  | String _ _, EmptyString => false
  | String a p', String b s' => Ascii.eqb a b && startswith s' p'
  end.

(** [p in s] *)
Fixpoint contains (s p : string) : bool :=
  startswith s p ||
  match s with
  | EmptyString => false
  | String _ s' => contains s' p
  end.

(** [s.split()]: the maximal runs of characters that are not white space.
    [word] is the run being read, in reverse. *)
Fixpoint split_aux (s : string) (word : list ascii) : list string :=
  let flush tl :=
    match word with
    | [] => tl
    | _ => string_of_list_ascii (rev word) :: tl
    end in
  match s with
  | EmptyString => flush []
  | String c s' =>
      if isspace c then flush (split_aux s' []) else split_aux s' (c :: word)
  end.

Definition split (s : string) : list string := split_aux s [].

(** [len(s)] counts code points: every byte but the UTF-8 continuation
    bytes [10xxxxxx]. *)
Definition is_continuation (c : ascii) : bool :=
  let n := nat_of_ascii c in ((128 <=? n) && (n <=? 191))%nat.

Fixpoint len (s : string) : nat :=
  match s with
  | EmptyString => 0
  | String c s' => (if is_continuation c then 0 else 1) + len s'
  end.

(** [s[:n]] by code points. *)
Fixpoint take (n : nat) (s : string) : string :=
  match s with
  | EmptyString => EmptyString
  | String c s' =>
      if is_continuation c then String c (take n s')
      else match n with
           | 0 => EmptyString
           | S n' => String c (take n' s')
           end
  end.

(** [str(z)] for an [int]. *)
Definition of_Z (z : Z) : string := NilZero.string_of_int (Z.to_int z).

End PyStr.

(** ** Python values *)

(** What [json.loads] yields, and what a schema literal is made of. *)
Inductive json : Type :=
| JNull
| JBool (b : bool)
| JInt (z : Z)
| JStr (s : string)
| JList (l : list json)
| JDict (d : list (string * json)).

(** A [dict] with [str] keys, in insertion order, keys distinct. *)
Definition dict (A : Type) : Type := list (string * A).

Fixpoint dict_get {A : Type} (k : string) (d : dict A) : option A :=
  match d with
  | [] => None
  | (k', v) :: d' => if String.eqb k k' then Some v else dict_get k d'
  end.

Definition dict_has {A : Type} (k : string) (d : dict A) : bool :=
  match dict_get k d with Some _ => true | None => false end.

Definition dict_remove {A : Type} (k : string) (d : dict A) : dict A :=
  filter (fun kv => negb (String.eqb k (fst kv))) d.

(** [d[k] = v]: an existing key keeps its place, a new one goes last. *)
Fixpoint dict_set {A : Type} (k : string) (v : A) (d : dict A) : dict A :=
  match d with
  | [] => [(k, v)]
  | (k', v') :: d' =>
      if String.eqb k k' then (k, v) :: d' else (k', v') :: dict_set k v d'
  end.

(** Keyword arguments of a tool call: [tc["arguments"]]. *)
Definition kwargs : Type := dict json.

(** Values at run time: JSON-like data and the instances of the two
    [SkillResult] dataclasses, the one of [skills/base_skill.py] and the one
    that [cognitive/planner.py] declares for itself. *)
Inductive pyval : Type :=
| PyNone
| PyBool (b : bool)
| PyInt (z : Z)
| PyStr (s : string)
| PyList (l : list pyval)
| PyDict (d : list (string * pyval))
| BaseSkillResult (success : bool) (output : pyval) (error : option string)
| PlannerSkillResult (success : bool) (output : pyval) (error : option string)
    (needs_confirmation : bool) (confirmation_message : option string).

(** An instance of [Exception]; [exn_str] is [str(e)]. *)
Inductive exn : Type := Exception (type_name message : string).

Definition exn_str (e : exn) : string :=
  match e with Exception _ m => m end.

Inductive outcome (A : Type) : Type :=
| Ret (a : A)
| Raise (e : exn).
Arguments Ret {A} a.
Arguments Raise {A} e.

Definition optional_str (o : option string) : pyval :=
  match o with Some s => PyStr s | None => PyNone end.

(** [type(v).__name__] *)
Definition type_name_of (v : json) : string :=
  match v with
  | JNull => "NoneType"
  | JBool _ => "bool"
  | JInt _ => "int"
  | JStr _ => "str"
  | JList _ => "list"
  | JDict _ => "dict"
  end.

(** ** [json.dumps(v, ensure_ascii=False)] *)

Module Json.

Definition char (n : nat) : string := String (ascii_of_nat n) EmptyString.
Definition dquote : string := char 34.
Definition backslash : string := char 92.

Definition hex_digit (n : nat) : string :=
  match get n "0123456789abcdef" with
  | Some c => String c EmptyString
  | None => EmptyString
  end.

(** One character of a string literal: the quote, the backslash and the
    control characters are escaped, everything else is copied. *)
Definition escape_char (c : ascii) : string :=
  let n := nat_of_ascii c in
  if (n =? 34)%nat then backslash ++ dquote
  else if (n =? 92)%nat then backslash ++ backslash
  else if (n =? 10)%nat then backslash ++ "n"
  else if (n =? 13)%nat then backslash ++ "r"
  else if (n =? 9)%nat then backslash ++ "t"
  else if (n =? 8)%nat then backslash ++ "b"
  else if (n =? 12)%nat then backslash ++ "f"
  else if (n <? 32)%nat
       then backslash ++ "u00" ++ hex_digit (n / 16) ++ hex_digit (n mod 16)
  else String c EmptyString.

Fixpoint escape (s : string) : string :=
  match s with
  | EmptyString => EmptyString
  | String c s' => escape_char c ++ escape s'
  end.

Definition quote (s : string) : string := dquote ++ escape s ++ dquote.

Fixpoint join (sep : string) (parts : list string) : string :=
  match parts with
  | [] => EmptyString
  | [x] => x
  | x :: rest => x ++ sep ++ join sep rest
  end.

Fixpoint encode (j : json) : string :=
  match j with
  | JNull => "null"
  | JBool true => "true"
  | JBool false => "false"
  | JInt z => PyStr.of_Z z
  | JStr s => quote s
  | JList l => "[" ++ join ", " (map encode l) ++ "]"
  | JDict d =>
      "{" ++ join ", "
               (map (fun kv : string * json =>
                       (quote (fst kv) ++ ": " ++ encode (snd kv))%string) d)
          ++ "}"
  end.

Definition not_serializable (cls : string) : exn :=
  Exception "TypeError" ("Object of type " ++ cls ++ " is not JSON serializable").

(** The data of a run-time value, when all of it is JSON data; an instance
    of a dataclass is not, and the encoder raises on it. *)
Fixpoint to_json (v : pyval) : outcome json :=
  match v with
  | PyNone => Ret JNull
  | PyBool b => Ret (JBool b)
  | PyInt z => Ret (JInt z)
  | PyStr s => Ret (JStr s)
  | PyList l =>
      let fix items (l : list pyval) : outcome (list json) :=
        match l with
        | [] => Ret []
        | x :: r =>
            match to_json x with
            | Raise e => Raise e
            | Ret j => match items r with
                       | Raise e => Raise e
                       | Ret js => Ret (j :: js)
                       end
            end
        end in
      match items l with Raise e => Raise e | Ret js => Ret (JList js) end
  | PyDict d =>
      let fix items (d : list (string * pyval)) : outcome (list (string * json)) :=
        match d with
        | [] => Ret []
        | (k, x) :: r =>
            match to_json x with
            | Raise e => Raise e
            | Ret j => match items r with
                       | Raise e => Raise e
                       | Ret js => Ret ((k, j) :: js)
                       end
            end
        end in
      match items d with Raise e => Raise e | Ret js => Ret (JDict js) end
  | BaseSkillResult _ _ _ => Raise (not_serializable "SkillResult")
  | PlannerSkillResult _ _ _ _ _ => Raise (not_serializable "SkillResult")
  end.

Definition dumps (v : pyval) : outcome string :=
  match to_json v with
  | Ret j => Ret (encode j)
  | Raise e => Raise e
  end.

End Json.

(** Whether [json.dumps] accepts a value. *)
Definition dumpable (v : pyval) : bool :=
  match Json.dumps v with Ret _ => true | Raise _ => false end.

(** ** [repr] and [str] of JSON data, as f-strings render them *)

Module PyRepr.

Definition has_char (n : nat) (s : string) : bool :=
  PyStr.contains s (Json.char n).

(** The quote that [repr] puts round a string: the single one, unless the
    string holds a single quote and no double one. *)
Definition quote_of (s : string) : nat :=
  if has_char 39 s && negb (has_char 34 s) then 34 else 39.

Definition repr_char (q : nat) (c : ascii) : string :=
  let n := nat_of_ascii c in
  if ((n =? q) || (n =? 92))%nat then Json.backslash ++ String c EmptyString
  else if (n =? 10)%nat then Json.backslash ++ "n"
  else if (n =? 13)%nat then Json.backslash ++ "r"
  else if (n =? 9)%nat then Json.backslash ++ "t"
  else if ((n <? 32) || (n =? 127))%nat
       then Json.backslash ++ "x" ++ Json.hex_digit (n / 16) ++ Json.hex_digit (n mod 16)
  else String c EmptyString.

Fixpoint repr_chars (q : nat) (s : string) : string :=
  match s with
  | EmptyString => EmptyString
  | String c s' => repr_char q c ++ repr_chars q s'
  end.

Definition repr_str (s : string) : string :=
  let q := quote_of s in Json.char q ++ repr_chars q s ++ Json.char q.

Fixpoint repr (v : json) : string :=
  match v with
  | JNull => "None"
  | JBool true => "True"
  | JBool false => "False"
  | JInt z => PyStr.of_Z z
  | JStr s => repr_str s
  | JList l => "[" ++ Json.join ", " (map repr l) ++ "]"
  | JDict d =>
      "{" ++ Json.join ", "
               (map (fun kv : string * json =>
                       (repr_str (fst kv) ++ ": " ++ repr (snd kv))%string) d)
          ++ "}"
  end.

(** [str(v)], which is what [{v}] inserts in an f-string. *)
Definition str (v : json) : string :=
  match v with
  | JStr s => s
  | _ => repr v
  end.

End PyRepr.

(** ** skills/base_skill.py *)

Module BaseSkill.

Inductive PermissionLevel : Type := READ_ONLY | SAFE_WRITE | CRITICAL.

(** [SkillResult(success, output, error)] *)
Definition SkillResult (success : bool) (output : pyval) (error : option string)
  : pyval := BaseSkillResult success output error.

(** [SkillResult.to_dict] *)
Definition to_dict (r : pyval) : option pyval :=
  match r with
  | BaseSkillResult success output error =>
      Some (PyDict [("success", PyBool success); ("output", output);
                    ("error", optional_str error)])
  | _ => None
  end.

Definition permission_eqb (a b : PermissionLevel) : bool :=
  match a, b with
  | READ_ONLY, READ_ONLY | SAFE_WRITE, SAFE_WRITE | CRITICAL, CRITICAL => true
  | _, _ => false
  end.

(** [BaseSkill.needs_confirmation] *)
Definition needs_confirmation (permission_level : PermissionLevel)
    (params : kwargs) : bool :=
  permission_eqb permission_level CRITICAL.

Definition strings (l : list string) : json := JList (map JStr l).

(** [required or []] *)
Definition or_empty (required : option (list string)) : list string :=
  match required with
  | None => []
  | Some [] => []
  | Some l => l
  end.

Definition create_tool_schema (name description : string)
    (parameters : dict json) (required : option (list string)) : json :=
  JDict [
    ("type", JStr "function");
    ("function", JDict [
       ("name", JStr name);
       ("description", JStr description);
       ("parameters", JDict [
          ("type", JStr "object");
          ("properties", JDict parameters);
          ("required", strings (or_empty required))])])].

End BaseSkill.

(** ** config.py *)

Module Config.

(** [SecurityConfig], without its two lists of directories, which depend on
    the home directory and are not read by the terminal skill. *)
Record SecurityConfig : Type := {
  safe_commands : list string;
  forbidden_commands : list string;
  require_confirmation : bool;
  confirmation_timeout : Z }.

(** The field defaults of the dataclass; [get_config().security] is this
    value. *)
Definition security : SecurityConfig := {|
  safe_commands :=
    ["dir"; "ls"; "cat"; "type"; "echo"; "pwd"; "cd";
     "whoami"; "date"; "time"; "hostname";
     "python --version"; "pip list"; "node --version"];
  forbidden_commands :=
    ["rm -rf"; "del /f"; "format"; "mkfs";
     "shutdown"; "reboot"; "halt";
     "DROP"; "DELETE FROM"; "TRUNCATE"];
  require_confirmation := true;
  confirmation_timeout := 30 |}.

End Config.

(** ** Messages, tool calls and the trace of effects *)

(** An entry of [response["tool_calls"]] as [LLMBrain.chat] builds it. *)
Record ToolCall : Type := {
  tc_id : string;
  tc_name : string;
  tc_arguments : kwargs }.

(** The same call as the assistant message carries it:
    [{"id", "type": "function", "function": {"name", "arguments"}}]. *)
Record WireToolCall : Type := {
  wire_id : string;
  wire_type : string;
  wire_name : string;
  wire_arguments : string }.

(** A chat message; [msg_tool_calls] and [msg_tool_call_id] are the keys
    that only assistant and tool messages have. *)
Record Message : Type := {
  msg_role : string;
  msg_content : string;
  msg_tool_calls : option (list WireToolCall);
  msg_tool_call_id : option string }.

(** What [LLMBrain.chat] returns. *)
Record Response : Type := {
  resp_content : string;
  resp_tool_calls : option (list ToolCall);
  resp_finish_reason : string }.

(** What a skill does to the outside world.  [Spawn] is a call of
    [asyncio.create_subprocess_shell], [Kill] one of [process.kill]. *)
Inductive SkillEffect : Type :=
| Spawn (command : string) (cwd : json) (executable : option string)
| Kill
| OtherEffect (label : string).

Inductive Event : Type :=
| EvMemory (role content : string)
| EvChat (messages : list Message) (tools : option (list json))
| EvConfirm (prompt : string)
| EvSkill (effect : SkillEffect).

(** The events so far, oldest first. *)
Definition trace : Type := list Event.

Definition is_chat (e : Event) : bool :=
  match e with EvChat _ _ => true | _ => false end.
Definition is_confirm (e : Event) : bool :=
  match e with EvConfirm _ => true | _ => false end.
Definition is_spawn (e : Event) : bool :=
  match e with EvSkill (Spawn _ _ _) => true | _ => false end.

Definition count (f : Event -> bool) (w : trace) : nat := length (filter f w).

(** ** skills/terminal.py *)

Module Terminal.

(** What the operating system answers to one [_run_command]:
    [create_subprocess_shell] raises, or the process ends in time, or
    [wait_for] times out (and [process.kill] may raise in turn), or
    [wait_for(process.communicate(), timeout)] raises something else.  The
    streams of [Exited] are already decoded. *)
Inductive ProcRun : Type :=
| SpawnFails (e : exn)
| Exited (returncode : Z) (stdout stderr : string)
| TimedOut (kill_error : option exn)
| CommunicateFails (e : exn).

Record TerminalSkill : Type := {
  security_config : Config.SecurityConfig;
  is_windows : bool;
  subprocess : trace -> string -> json -> json -> ProcRun }.

(** [TerminalSkill()]: the security settings come from [get_config()]; the
    platform and the operating system are given. *)
Definition init (is_windows : bool)
    (subprocess : trace -> string -> json -> json -> ProcRun) : TerminalSkill :=
  {| security_config := Config.security;
     is_windows := is_windows;
     subprocess := subprocess |}.

Definition name : string := "terminal".
Definition description : string := "执行终端命令（受安全限制）".
Definition permission_level : BaseSkill.PermissionLevel := BaseSkill.CRITICAL.

Fixpoint any_forbidden (command_lower : string) (forbidden_commands : list string)
  : bool :=
  match forbidden_commands with
  | [] => false
  | forbidden :: rest =>
      if PyStr.contains command_lower (PyStr.lower forbidden) then true
      else any_forbidden command_lower rest
  end.

Definition _is_command_safe (self : TerminalSkill) (command : string) : bool :=
  let command_lower := PyStr.strip (PyStr.lower command) in
  negb (any_forbidden command_lower
          (Config.forbidden_commands (security_config self))).

Definition index_error : exn := Exception "IndexError" "list index out of range".

Fixpoint any_safe (command_lower first_word : string) (safe_commands : list string)
  : outcome bool :=
  match safe_commands with
  | [] => Ret false
  | safe_cmd :: rest =>
      if PyStr.startswith command_lower (PyStr.lower safe_cmd) then Ret true
      else match PyStr.split (PyStr.lower safe_cmd) with
           | [] => Raise index_error
           | w :: _ =>
               if String.eqb first_word w then Ret true
               else any_safe command_lower first_word rest
           end
  end.

Definition _is_command_readonly (self : TerminalSkill) (command : string)
  : outcome bool :=
  let command_lower := PyStr.strip (PyStr.lower command) in
  let first_word :=
    match PyStr.split command_lower with
    | w :: _ => w
    | [] => EmptyString
    end in
  any_safe command_lower first_word (Config.safe_commands (security_config self)).

(** [command.lower()] on a value that is not a [str]. *)
Definition no_lower (v : json) : exn :=
  Exception "AttributeError"
    ("'" ++ type_name_of v ++ "' object has no attribute 'lower'").

Definition needs_confirmation (self : TerminalSkill) (params : kwargs)
  : outcome bool :=
  let command :=
    match dict_get "command" params with Some v => v | None => JStr "" end in
  match command with
  | JStr command =>
      match _is_command_readonly self command with
      | Raise e => Raise e
      | Ret true => Ret false
      | Ret false => Ret true
      end
  | v => Raise (no_lower v)
  end.

Definition rejected : pyval :=
  BaseSkill.SkillResult false PyNone (Some "命令被拒绝：包含禁止的操作").

Definition failed (e : exn) : pyval :=
  BaseSkill.SkillResult false PyNone (Some (exn_str e)).

Definition newline : string := Json.char 10.

Definition _run_command (self : TerminalSkill)
    (command : json) (cwd : json) (timeout : json) (w : trace)
  : outcome pyval * list SkillEffect :=
  match command with
  | JStr command =>
      if negb (_is_command_safe self command) then (Ret rejected, [])
      else
        let spawn :=
          Spawn command cwd (if is_windows self then None else Some "/bin/bash") in
        match subprocess self w command cwd timeout with
        | SpawnFails e => (Ret (failed e), [spawn])
        | TimedOut None =>
            (Ret (BaseSkill.SkillResult false PyNone
                    (Some ("命令执行超时（" ++ PyRepr.str timeout ++ "秒）"))),
             [spawn; Kill])
        | TimedOut (Some e) => (Ret (failed e), [spawn; Kill])
        | CommunicateFails e => (Ret (failed e), [spawn])
        | Exited returncode stdout stderr =>
            let stdout_str := PyStr.strip stdout in
            let stderr_str := PyStr.strip stderr in
            let stdout_str :=
              if (5000 <? PyStr.len stdout_str)%nat
              then PyStr.take 5000 stdout_str ++ newline ++ "...(输出已截断)"
              else stdout_str in
            let output :=
              PyDict [("returncode", PyInt returncode);
                      ("stdout", PyStr stdout_str);
                      ("stderr", PyStr stderr_str)] in
            if (returncode =? 0)%Z
            then (Ret (BaseSkill.SkillResult true output None), [spawn])
            else (Ret (BaseSkill.SkillResult false output
                         (Some ("命令返回非零状态码: " ++ PyStr.of_Z returncode))),
                  [spawn])
        end
  | v => (Raise (no_lower v), [])
  end.

Definition _run_safe_command (self : TerminalSkill)
    (command : json) (cwd : json) (timeout : json) (w : trace)
  : outcome pyval * list SkillEffect :=
  match command with
  | JStr c =>
      match _is_command_readonly self c with
      | Raise e => (Raise e, [])
      | Ret false =>
          (Ret (BaseSkill.SkillResult false PyNone
                  (Some ("命令不在安全列表中: " ++ c))), [])
      | Ret true => _run_command self command cwd timeout w
      end
  | v => (Raise (no_lower v), [])
  end.

(** Binding the keyword arguments to [(command, cwd=None, timeout=30)]. *)
Fixpoint unexpected_keyword (params : kwargs) : option string :=
  match params with
  | [] => None
  | (k, _) :: rest =>
      if String.eqb k "command" || String.eqb k "cwd" || String.eqb k "timeout"
      then unexpected_keyword rest
      else Some k
  end.

Definition bind_params (fname : string) (params : kwargs)
  : outcome (json * json * json) :=
  match unexpected_keyword params with
  | Some k =>
      Raise (Exception "TypeError"
        ("TerminalSkill." ++ fname ++ "() got an unexpected keyword argument '"
           ++ k ++ "'"))
  | None =>
      match dict_get "command" params with
      | None =>
          Raise (Exception "TypeError"
            ("TerminalSkill." ++ fname
               ++ "() missing 1 required positional argument: 'command'"))
      | Some command =>
          Ret (command,
               match dict_get "cwd" params with Some v => v | None => JNull end,
               match dict_get "timeout" params with Some v => v | None => JInt 30 end)
      end
  end.

(** The call of [actions[action]] on the keyword arguments [params], inside
    the [try] of [execute]. *)
Definition call_action (fname : string)
    (f : json -> json -> json -> trace -> outcome pyval * list SkillEffect)
    (params : kwargs) (w : trace) : outcome pyval * list SkillEffect :=
  match bind_params fname params with
  | Raise e => (Ret (failed e), [])
  | Ret (command, cwd, timeout) =>
      match f command cwd timeout w with
      | (Raise e, effects) => (Ret (failed e), effects)
      | (Ret result, effects) => (Ret result, effects)
      end
  end.

(** [execute(self, action, **params)], called by the planner with the
    tool call's arguments as keyword arguments. *)
Definition execute (self : TerminalSkill) (arguments : kwargs) (w : trace)
  : outcome pyval * list SkillEffect :=
  if dict_has "self" arguments
  then (Raise (Exception "TypeError"
                 "TerminalSkill.execute() got multiple values for argument 'self'"), [])
  else
    match dict_get "action" arguments with
    | None =>
        (Raise (Exception "TypeError"
                  "TerminalSkill.execute() missing 1 required positional argument: 'action'"),
         [])
    | Some action =>
        let params := dict_remove "action" arguments in
        match action with
        | JList _ | JDict _ =>
            (Raise (Exception "TypeError"
                      ("unhashable type: '" ++ type_name_of action ++ "'")), [])
        | JStr a =>
            if String.eqb a "run_command"
            then call_action "_run_command" (_run_command self) params w
            else if String.eqb a "run_safe_command"
            then call_action "_run_safe_command" (_run_safe_command self) params w
            else (Ret (BaseSkill.SkillResult false PyNone
                         (Some ("未知的操作: " ++ PyRepr.str action))), [])
        | _ =>
            (Ret (BaseSkill.SkillResult false PyNone
                    (Some ("未知的操作: " ++ PyRepr.str action))), [])
        end
    end.

Definition get_schema : json :=
  BaseSkill.create_tool_schema
    "terminal"
    "执行终端命令。危险命令会被拒绝，需要用户确认才能执行"
    [("action", JDict [
        ("type", JStr "string");
        ("enum", JList [JStr "run_command"; JStr "run_safe_command"]);
        ("description",
         JStr "操作类型：run_command 需要确认，run_safe_command 仅执行只读命令")]);
     ("command", JDict [
        ("type", JStr "string");
        ("description", JStr "要执行的命令")]);
     ("cwd", JDict [
        ("type", JStr "string");
        ("description", JStr "工作目录（可选）")]);
     ("timeout", JDict [
        ("type", JStr "integer");
        ("description", JStr "超时时间（秒）")])]
    (Some ["action"; "command"]).

End Terminal.

(** ** cognitive/planner.py *)

Module Planner.

(** The [SkillResult] dataclass that the planner module declares. *)
Definition SkillResult (success : bool) (output : pyval) (error : option string)
    (needs_confirmation : bool) (confirmation_message : option string) : pyval :=
  PlannerSkillResult success output error needs_confirmation confirmation_message.

(** [isinstance(result, SkillResult)], with the name resolved in the planner
    module. *)
Definition isinstance_SkillResult (result : pyval) : bool :=
  match result with
  | PlannerSkillResult _ _ _ _ _ => true
  | _ => false
  end.

Definition MAX_ITERATIONS : nat := 10.

(** A registered skill, duck-typed: [description], [get_schema] and
    [needs_confirmation] are looked up with [hasattr].  A skill reads the
    trace and reports its effects. *)
Record Skill : Type := {
  description : option string;
  get_schema : option json;
  needs_confirmation : option (trace -> kwargs -> outcome bool);
  execute : kwargs -> trace -> outcome pyval * list SkillEffect }.

(** The reasoning client ([LLMBrain]): [chat] returns a response or raises. *)
Record Brain : Type := {
  chat : trace -> list Message -> option (list json) -> outcome Response;
  get_system_prompt : string }.

(** Modelled from the spec: [cognitive/memory.py] is not among the sources;
    the store takes [add_message(role, content)] and hands back the recent
    messages with [get_recent_context()]. *)
Record MemoryManager : Type := {
  get_recent_context : trace -> list Message }.

(** Modelled from the spec: [cognitive/context_manager.py] is not among the
    sources; [get_context_summary()] returns a text. *)
Record ContextManager : Type := {
  get_context_summary : trace -> string }.

Record ReActPlanner : Type := {
  brain : Brain;
  memory : MemoryManager;
  context : ContextManager;
  skills : dict Skill;
  _confirmation_callback : option (trace -> string -> outcome bool) }.

Definition register_skill (self : ReActPlanner) (name : string) (skill : Skill)
  : ReActPlanner :=
  {| brain := brain self; memory := memory self; context := context self;
     skills := dict_set name skill (skills self);
     _confirmation_callback := _confirmation_callback self |}.

Definition set_confirmation_callback (self : ReActPlanner)
    (callback : trace -> string -> outcome bool) : ReActPlanner :=
  {| brain := brain self; memory := memory self; context := context self;
     skills := skills self;
     _confirmation_callback := Some callback |}.

(** The terminal skill as the planner sees it. *)
Definition terminal_skill (t : Terminal.TerminalSkill) : Skill := {|
  description := Some Terminal.description;
  get_schema := Some Terminal.get_schema;
  needs_confirmation := Some (fun _ params => Terminal.needs_confirmation t params);
  execute := Terminal.execute t |}.

(** [if schema:] *)
Definition truthy (v : json) : bool :=
  match v with
  | JNull => false
  | JBool b => b
  | JInt z => negb (z =? 0)%Z
  | JStr s => negb (String.eqb s "")
  | JList l => match l with [] => false | _ => true end
  | JDict d => match d with [] => false | _ => true end
  end.

Fixpoint tools_of (items : dict Skill) : list json :=
  match items with
  | [] => []
  | (name, skill) :: rest =>
      match get_schema skill with
      | Some schema =>
          if truthy schema then schema :: tools_of rest else tools_of rest
      | None => tools_of rest
      end
  end.

Definition _get_tools_schema (self : ReActPlanner) : list json :=
  tools_of (skills self).

Fixpoint skill_lines (items : dict Skill) : list string :=
  match items with
  | [] => []
  | (name, skill) :: rest =>
      match description skill with
      | Some d => ("- " ++ name ++ ": " ++ d) :: skill_lines rest
      | None => skill_lines rest
      end
  end.

Definition _build_system_prompt (self : ReActPlanner) (w : trace) : string :=
  let base_prompt := get_system_prompt (brain self) in
  let context_summary := get_context_summary (context self) w in
  let skill_list := skill_lines (skills self) in
  let skills_text :=
    match skill_list with
    | [] => "暂无可用技能"
    | _ => Json.join Terminal.newline skill_list
    end in
  base_prompt ++ "

当前上下文信息：
" ++ context_summary ++ "

可用技能列表：
" ++ skills_text ++ "

重要提示：
1. 如果需要执行操作，请调用相应的工具函数
2. 如果任务需要多个步骤，请逐步执行并观察结果
3. 对于危险操作，系统会自动请求用户确认
4. 如果无法完成任务，请如实告知原因".

(** Computations of the planner: they read and extend the trace, and
    return or raise. *)
Definition M (A : Type) : Type := trace -> outcome A * trace.

Definition unknown_skill (name : string) : pyval :=
  PyDict [("success", PyBool false); ("error", PyStr ("未知的技能: " ++ name))].

Definition user_denied : pyval :=
  PyDict [("success", PyBool false); ("error", PyStr "用户拒绝执行此操作")].

Definition execution_failed (e : exn) : pyval :=
  PyDict [("success", PyBool false); ("error", PyStr (exn_str e))].

(** The dictionary recorded for what [skill.execute] returned. *)
Definition result_dict (result : pyval) : pyval :=
  match result with
  | PlannerSkillResult success output error _ _ =>
      PyDict [("success", PyBool success); ("output", output);
              ("error", optional_str error)]
  | _ => PyDict [("success", PyBool true); ("output", result)]
  end.

Definition confirmation_prompt (name : string) (arguments : kwargs) : string :=
  "是否允许执行 '" ++ name ++ "' 操作？" ++ Terminal.newline ++ "参数: "
    ++ PyRepr.str (JDict arguments).

(** [result = await skill.execute(...)] and the [append] that follows it. *)
Definition run_skill (skill : Skill) (arguments : kwargs) (results : list pyval)
  : M (list pyval) :=
  fun w =>
    let (r, effects) := execute skill arguments w in
    let w' := (w ++ map EvSkill effects)%list in
    match r with
    | Raise e => (Raise e, w')
    | Ret result => (Ret (results ++ [result_dict result])%list, w')
    end.

(** The confirmation block that precedes [execute]: [Ret false] when the
    user refuses and the turn ends with [continue], [Ret true] when control
    reaches [execute].  The callback is awaited only if the skill has a
    [needs_confirmation] that answers true and a callback is installed. *)
Definition confirmation_gate (self : ReActPlanner) (name : string) (skill : Skill)
    (arguments : kwargs) : M bool :=
  fun w =>
    let needs :=
      match needs_confirmation skill with
      | None => Ret false
      | Some f => f w arguments
      end in
    match needs with
    | Raise e => (Raise e, w)
    | Ret false => (Ret true, w)
    | Ret true =>
        match _confirmation_callback self with
        | None => (Ret true, w)
        | Some callback =>
            let prompt := confirmation_prompt name arguments in
            let w' := (w ++ [EvConfirm prompt])%list in
            match callback w prompt with
            | Raise e => (Raise e, w')
            | Ret confirmed => (Ret confirmed, w')
            end
        end
    end.

(** The body of the [try] in [_execute_tool_calls]. *)
Definition try_tool_call (self : ReActPlanner) (name : string) (skill : Skill)
    (arguments : kwargs) (results : list pyval) : M (list pyval) :=
  fun w =>
    match confirmation_gate self name skill arguments w with
    | (Raise e, w') => (Raise e, w')
    | (Ret false, w') => (Ret (results ++ [user_denied])%list, w')
    | (Ret true, w') => run_skill skill arguments results w'
    end.

(** One turn of the [for tc in tool_calls] loop, on the list [results]. *)
Definition tool_call_step (self : ReActPlanner) (tc : ToolCall)
    (results : list pyval) : M (list pyval) :=
  fun w =>
    let name := tc_name tc in
    let arguments := tc_arguments tc in
    match dict_get name (skills self) with
    | None => (Ret (results ++ [unknown_skill name])%list, w)
    | Some skill =>
        match try_tool_call self name skill arguments results w with
        | (Ret results', w') => (Ret results', w')
        | (Raise e, w') => (Ret (results ++ [execution_failed e])%list, w')
        end
    end.

Fixpoint for_tool_calls (self : ReActPlanner) (tool_calls : list ToolCall)
    (results : list pyval) : M (list pyval) :=
  fun w =>
    match tool_calls with
    | [] => (Ret results, w)
    | tc :: rest =>
        match tool_call_step self tc results w with
        | (Ret results', w') => for_tool_calls self rest results' w'
        | (Raise e, w') => (Raise e, w')
        end
    end.

Definition _execute_tool_calls (self : ReActPlanner) (tool_calls : list ToolCall)
  : M (list pyval) :=
  for_tool_calls self tool_calls [].

(** The state of the ReAct loop. *)
Record LoopState : Type := {
  iteration : nat;
  messages : list Message;
  final_response : string }.

Inductive Control : Type := Continue | Break.

Definition wire (tc : ToolCall) : WireToolCall := {|
  wire_id := tc_id tc;
  wire_type := "function";
  wire_name := tc_name tc;
  wire_arguments := Json.encode (JDict (tc_arguments tc)) |}.

Definition assistant_message (response : Response) (tool_calls : list ToolCall)
  : Message := {|
  msg_role := "assistant";
  msg_content := resp_content response;
  msg_tool_calls := Some (map wire tool_calls);
  msg_tool_call_id := None |}.

Definition tool_message (tc : ToolCall) (content : string) : Message := {|
  msg_role := "tool";
  msg_content := content;
  msg_tool_calls := None;
  msg_tool_call_id := Some (tc_id tc) |}.

(** [for tc, result in zip(...): messages.append(...)]; [json.dumps] may
    raise, and what was appended before stays appended. *)
Fixpoint append_tool_messages (pairs : list (ToolCall * pyval))
    (messages : list Message) : option exn * list Message :=
  match pairs with
  | [] => (None, messages)
  | (tc, result) :: rest =>
      match Json.dumps result with
      | Raise e => (Some e, messages)
      | Ret content =>
          append_tool_messages rest (messages ++ [tool_message tc content])%list
      end
  end.

Definition apology (e : exn) : string :=
  "抱歉，处理请求时出现错误: " ++ exn_str e.

Definition too_complex : string := "抱歉，任务过于复杂，无法在限定步骤内完成。".

Definition set_final (st : LoopState) (text : string) : LoopState :=
  {| iteration := iteration st; messages := messages st; final_response := text |}.

Definition set_messages (st : LoopState) (ms : list Message) : LoopState :=
  {| iteration := iteration st; messages := ms;
     final_response := final_response st |}.

(** [tools if tools else None] *)
Definition tools_argument (tools : list json) : option (list json) :=
  match tools with [] => None | _ => Some tools end.

(** One turn of the [while] loop: the counter goes up, then the [try]. *)
Definition react_iteration (self : ReActPlanner) (tools : list json)
    (st : LoopState) (w : trace) : Control * LoopState * trace :=
  let st := {| iteration := iteration st + 1; messages := messages st;
               final_response := final_response st |} in
  let tools_arg := tools_argument tools in
  let w1 := (w ++ [EvChat (messages st) tools_arg])%list in
  match chat (brain self) w (messages st) tools_arg with
  | Raise e => (Break, set_final st (apology e), w1)
  | Ret response =>
      match resp_tool_calls response with
      | Some (tc :: tcs) =>
          let tool_calls := tc :: tcs in
          match _execute_tool_calls self tool_calls w1 with
          | (Raise e, w2) => (Break, set_final st (apology e), w2)
          | (Ret tool_results, w2) =>
              let messages1 :=
                (messages st ++ [assistant_message response tool_calls])%list in
              match append_tool_messages (combine tool_calls tool_results)
                      messages1 with
              | (Some e, messages2) =>
                  (Break, set_final (set_messages st messages2) (apology e), w2)
              | (None, messages2) => (Continue, set_messages st messages2, w2)
              end
          end
      | _ => (Break, set_final st (resp_content response), w1)
      end
  end.

(** [while iteration < self.MAX_ITERATIONS: ...], run for at most [fuel]
    turns. *)
Fixpoint react_loop (fuel : nat) (self : ReActPlanner) (tools : list json)
    (st : LoopState) (w : trace) : option (LoopState * trace) :=
  if (iteration st <? MAX_ITERATIONS)%nat then
    match fuel with
    | 0 => None
    | S fuel' =>
        match react_iteration self tools st w with
        | (Continue, st', w') => react_loop fuel' self tools st' w'
        | (Break, st', w') => Some (st', w')
        end
    end
  else Some (st, w).

Definition system_message (content : string) : Message := {|
  msg_role := "system";
  msg_content := content;
  msg_tool_calls := None;
  msg_tool_call_id := None |}.

(** The state in which [plan_and_execute] enters the loop, and the trace
    then. *)
Definition initial (self : ReActPlanner) (user_input : string) (w : trace)
  : LoopState * trace :=
  let w0 := (w ++ [EvMemory "user" user_input])%list in
  ({| iteration := 0;
      messages :=
        (system_message (_build_system_prompt self w0)
           :: get_recent_context (memory self) w0)%list;
      final_response := "" |}, w0).

(** The final text, from the state in which the loop was left. *)
Definition conclude (st : LoopState) : string :=
  if (MAX_ITERATIONS <=? iteration st)%nat then too_complex
  else final_response st.

Definition plan_and_execute (fuel : nat) (self : ReActPlanner)
    (user_input : string) (w : trace) : option (string * trace) :=
  let (st0, w0) := initial self user_input w in
  match react_loop fuel self (_get_tools_schema self) st0 w0 with
  | None => None
  | Some (st, w') =>
      let final_response := conclude st in
      Some (final_response, (w' ++ [EvMemory "assistant" final_response])%list)
  end.

End Planner.

(** ** Concrete skills, reasoning clients and planners *)

Module Scenario.

Definition no_memory : Planner.MemoryManager :=
  {| Planner.get_recent_context := fun _ => [] |}.

Definition no_context : Planner.ContextManager :=
  {| Planner.get_context_summary := fun _ => "" |}.

(** An operating system on which every command prints [hi] and exits with
    status 0. *)
Definition quiet_os (w : trace) (command : string) (cwd timeout : json)
  : Terminal.ProcRun := Terminal.Exited 0 "hi" "".

Definition terminal : Terminal.TerminalSkill := Terminal.init false quiet_os.

(** A skill whose [execute] always raises. *)
Definition broken_skill : Planner.Skill := {|
  Planner.description := Some "always fails";
  Planner.get_schema := None;
  Planner.needs_confirmation := None;
  Planner.execute := fun _ _ => (Raise (Exception "RuntimeError" "disk on fire"), []) |}.

(** A skill that asks for confirmation and returns a plain string. *)
Definition critical_skill : Planner.Skill := {|
  Planner.description := Some "needs a confirmation";
  Planner.get_schema := None;
  Planner.needs_confirmation := Some (fun _ _ => Ret true);
  Planner.execute := fun _ _ => (Ret (PyStr "done"), [OtherEffect "write"]) |}.

Definition registry : dict Planner.Skill :=
  [("terminal", Planner.terminal_skill terminal);
   ("broken", broken_skill);
   ("critical", critical_skill)].

Definition call (id name : string) (arguments : kwargs) : ToolCall :=
  {| tc_id := id; tc_name := name; tc_arguments := arguments |}.

Definition format_call : ToolCall :=
  call "call_1" "terminal"
    [("action", JStr "run_command"); ("command", JStr "format C:")].

Definition rm_call : ToolCall :=
  call "call_0" "terminal"
    [("action", JStr "run_command"); ("command", JStr "rm -rf /tmp/x")].

Definition echo_call : ToolCall :=
  call "call_2" "terminal"
    [("action", JStr "run_command"); ("command", JStr "echo hi")].

Definition unknown_call : ToolCall := call "call_3" "teleport" [].

Definition broken_call : ToolCall := call "call_4" "broken" [].

Definition critical_call : ToolCall := call "call_5" "critical" [].

Definition wants (tool_calls : list ToolCall) : Response :=
  {| resp_content := ""; resp_tool_calls := Some tool_calls;
     resp_finish_reason := "tool_calls" |}.

Definition says (content : string) : Response :=
  {| resp_content := content; resp_tool_calls := None;
     resp_finish_reason := "stop" |}.

(** A reasoning client that answers its [n]-th call (from 0) with
    [script n]. *)
Definition scripted (script : nat -> outcome Response) : Planner.Brain :=
  {| Planner.chat := fun w _ _ => script (count is_chat w);
     Planner.get_system_prompt := "You are JARVIS." |}.

Definition planner (script : nat -> outcome Response)
    (callback : option (trace -> string -> outcome bool)) : Planner.ReActPlanner :=
  {| Planner.brain := scripted script;
     Planner.memory := no_memory;
     Planner.context := no_context;
     Planner.skills := registry;
     Planner._confirmation_callback := callback |}.

Definition approve (w : trace) (prompt : string) : outcome bool := Ret true.

(** Tool calls on the first nine reasoning calls, a plain answer on the
    tenth. *)
Definition late_answer (n : nat) : outcome Response :=
  if (n <? 9)%nat then Ret (wants [unknown_call]) else Ret (says "done").

(** Tool calls on the first nine reasoning calls, a failure on the tenth. *)
Definition late_failure (n : nat) : outcome Response :=
  if (n <? 9)%nat then Ret (wants [unknown_call])
  else Raise (Exception "APIConnectionError" "timeout").

(** A terminal skill configured with a deny-list of its own, whose only
    entry ends with a blank. *)
Definition padded_terminal : Terminal.TerminalSkill :=
  {| Terminal.security_config :=
       {| Config.safe_commands := [];
          Config.forbidden_commands := ["mkfs "];
          Config.require_confirmation := true;
          Config.confirmation_timeout := 30 |};
     Terminal.is_windows := false;
     Terminal.subprocess := quiet_os |}.

(** The reasoning client is down. *)
Definition down (message : string) (n : nat) : outcome Response :=
  Raise (Exception "APIConnectionError" message).

(** A reasoning client that asks for a batch of tool calls on its first
    call and gives the plain answer [done] on every call after it. *)
Definition then_done (tool_calls : list ToolCall) (n : nat) : outcome Response :=
  if (n =? 0)%nat then Ret (wants tool_calls) else Ret (says "done").

End Scenario.

(** What an action of the skill hands back: a [SkillResult], or an
    exception. *)
Definition result_or_raise (o : outcome pyval) : Prop :=
  match o with
  | Ret (BaseSkillResult _ _ _) => True
  | Ret _ => False
  | Raise _ => True
  end.

(** The events that the dispatch of a tool call can add to the trace. *)
Definition is_dispatch_event (e : Event) : bool :=
  match e with
  | EvConfirm _ | EvSkill _ => true
  | _ => false
  end.

Definition is_memory (e : Event) : bool :=
  match e with EvMemory _ _ => true | _ => false end.

(** A skill that keeps the [needs_confirmation] of [BaseSkill], which looks
    at the permission level only. *)
Definition inherited_skill (permission_level : BaseSkill.PermissionLevel)
    (description : string) (schema : json)
    (execute : kwargs -> trace -> outcome pyval * list SkillEffect)
  : Planner.Skill :=
  {| Planner.description := Some description;
     Planner.get_schema := Some schema;
     Planner.needs_confirmation :=
       Some (fun _ params =>
               Ret (BaseSkill.needs_confirmation permission_level params));
     Planner.execute := execute |}.

(** What a run of [plan_and_execute] may add to the trace between its two
    writes to the memory: reasoning calls on messages that extend [opening],
    all with the same tools, and events of the dispatch. *)
Definition run_event (opening : list Message) (tools : list json) (e : Event)
  : Prop :=
  match e with
  | EvChat messages tools_arg =>
      (exists rest, messages = (opening ++ rest)%list) /\
      tools_arg = Planner.tools_argument tools
  | EvMemory _ _ => False
  | EvConfirm _ | EvSkill _ => True
  end.

(** [ReActPlanner.simple_respond]: the answer without tools.
    [get_context_with_memory] is the method of the memory manager that
    [simple_respond] reads; [cognitive/memory.py] is not among the sources,
    so it is given. *)
Definition simple_respond (self : Planner.ReActPlanner)
    (get_context_with_memory : trace -> string -> list Message)
    (user_input : string) : Planner.M string :=
  fun w =>
    let w0 := (w ++ [EvMemory "user" user_input])%list in
    let messages :=
      Planner.system_message (Planner.get_system_prompt (Planner.brain self))
        :: get_context_with_memory w0 user_input in
    let w1 := (w0 ++ [EvChat messages None])%list in
    match Planner.chat (Planner.brain self) w0 messages None with
    | Raise e => (Raise e, w1)
    | Ret response =>
        let reply := resp_content response in
        (Ret reply, (w1 ++ [EvMemory "assistant" reply])%list)
    end.

(** ** cognitive/llm_brain.py *)

Module LLM.

(** What the chat completion API answers: the choices, each with a message
    that may carry tool calls whose arguments are a JSON text. *)
Record ApiToolCall : Type := {
  api_id : string;
  api_name : string;
  api_arguments : string }.

Record ApiMessage : Type := {
  api_content : option string;
  api_tool_calls : option (list ApiToolCall) }.

Record ApiChoice : Type := {
  choice_message : ApiMessage;
  choice_finish_reason : string }.

(** The keyword arguments of [chat.completions.create]; [req_tools] and
    [req_tool_choice] are the keys that are set only with tools.  A float is
    the rational it denotes. *)
Record Request : Type := {
  req_model : string;
  req_messages : list Message;
  req_temperature : QArith_base.Q;
  req_max_tokens : Z;
  req_tools : option (list json);
  req_tool_choice : option string }.

(** The fields of [LLMConfig] that [chat] reads. *)
Record LLMConfig : Type := {
  temperature : QArith_base.Q;
  max_tokens : Z }.

(** An [LLMBrain]: its configuration, the model chosen by [_init_client],
    the client, and [json.loads] on the arguments of a tool call, which
    gives the object that the text denotes or raises. *)
Record LLMBrain : Type := {
  config : LLMConfig;
  _model : string;
  create : trace -> Request -> outcome (list ApiChoice);
  loads : string -> outcome kwargs }.

(** [temperature or self.config.temperature] *)
Definition temperature_or (temperature : option QArith_base.Q)
    (default : QArith_base.Q) : QArith_base.Q :=
  match temperature with
  | Some t => if QArith_base.Qeq_bool t (QArith_base.Qmake 0 1) then default else t
  | None => default
  end.

(** [max_tokens or self.config.max_tokens] *)
Definition max_tokens_or (max_tokens : option Z) (default : Z) : Z :=
  match max_tokens with
  | Some n => if (n =? 0)%Z then default else n
  | None => default
  end.

Definition request (self : LLMBrain) (messages : list Message)
    (tools : option (list json)) (temperature : option QArith_base.Q)
    (max_tokens : option Z) : Request :=
  {| req_model := _model self;
     req_messages := messages;
     req_temperature := temperature_or temperature (LLM.temperature (config self));
     req_max_tokens := max_tokens_or max_tokens (LLM.max_tokens (config self));
     req_tools :=
       match tools with
       | Some (t :: ts) => Some (t :: ts)
       | _ => None
       end;
     req_tool_choice :=
       match tools with
       | Some (_ :: _) => Some "auto"
       | _ => None
       end |}.

(** The list comprehension over [message.tool_calls]. *)
Fixpoint convert (loads : string -> outcome kwargs) (calls : list ApiToolCall)
  : outcome (list ToolCall) :=
  match calls with
  | [] => Ret []
  | tc :: rest =>
      match loads (api_arguments tc) with
      | Raise e => Raise e
      | Ret arguments =>
          match convert loads rest with
          | Raise e => Raise e
          | Ret converted =>
              Ret ({| tc_id := api_id tc; tc_name := api_name tc;
                      tc_arguments := arguments |} :: converted)
          end
      end
  end.

(** [message.content or ""] *)
Definition content_or_empty (content : option string) : string :=
  match content with Some text => text | None => "" end.

(** [LLMBrain.chat]; an exception is logged and raised again. *)
Definition chat (self : LLMBrain) (messages : list Message)
    (tools : option (list json)) (temperature : option QArith_base.Q)
    (max_tokens : option Z) (w : trace) : outcome Response :=
  match create self w (request self messages tools temperature max_tokens) with
  | Raise e => Raise e
  | Ret [] => Raise (Exception "IndexError" "list index out of range")
  | Ret (choice :: _) =>
      let message := choice_message choice in
      match api_tool_calls message with
      | Some (tc :: tcs) =>
          match convert (loads self) (tc :: tcs) with
          | Raise e => Raise e
          | Ret tool_calls =>
              Ret {| resp_content := content_or_empty (api_content message);
                     resp_tool_calls := Some tool_calls;
                     resp_finish_reason := choice_finish_reason choice |}
          end
      | _ =>
          Ret {| resp_content := content_or_empty (api_content message);
                 resp_tool_calls := None;
                 resp_finish_reason := choice_finish_reason choice |}
      end
  end.

(** [LLMBrain.get_system_prompt] *)
Definition get_system_prompt : string :=
"你是 JARVIS，一个智能 AI 助手，由用户创建来帮助管理日常任务和操作电脑。

你的核心特征：
1. 专业、高效、简洁的回答风格
2. 像钢铁侠里的JARVIS一样，礼貌但不啰嗦
3. 能够理解和执行用户的各种指令
4. 对于危险操作会主动提醒并请求确认

你可以使用的能力：
- 系统控制：打开应用、调节音量、执行命令
- 文件管理：读取、创建、移动、删除文件
- 网页浏览：搜索信息、打开网页
- 智能家居：控制 IoT 设备（如已配置）

当用户发出指令时，你需要分析意图并调用相应的工具来完成任务。
如果不确定用户的意图，请主动询问确认。
对于危险操作（如删除文件、执行系统命令），请务必在执行前确认。".

(** The brain as the planner calls it: [chat(messages, tools=...)]. *)
Definition brain (self : LLMBrain) : Planner.Brain :=
  {| Planner.chat := fun w messages tools => chat self messages tools None None w;
     Planner.get_system_prompt := get_system_prompt |}.

End LLM.

(** ** skills/web_browser.py: the search *)

(** A JSON datum as a run-time value. *)
Fixpoint of_json (j : json) : pyval :=
  match j with
  | JNull => PyNone
  | JBool b => PyBool b
  | JInt z => PyInt z
  | JStr s => PyStr s
  | JList l => PyList (map of_json l)
  | JDict d => PyDict (map (fun kv : string * json => (fst kv, of_json (snd kv))) d)
  end.

Module WebBrowser.

(** The skill with what it depends on: whether [duckduckgo_search] could be
    imported, and what [DDGS().text(query, max_results=...)] answers, a list
    of dictionaries or an exception. *)
Record WebBrowserSkill : Type := {
  DDGS_AVAILABLE : bool;
  ddgs_text : trace -> json -> json -> outcome (list (dict json)) }.

Definition name : string := "web_browser".
Definition description : string := "网页浏览：搜索信息、读取网页内容、打开URL".
Definition permission_level : BaseSkill.PermissionLevel := BaseSkill.READ_ONLY.

(** [r.get(key, "")] *)
Definition get_or_empty (key : string) (r : dict json) : pyval :=
  match dict_get key r with
  | Some v => of_json v
  | None => PyStr ""
  end.

Definition formatted (r : dict json) : pyval :=
  PyDict [("title", get_or_empty "title" r);
          ("url", get_or_empty "href" r);
          ("snippet", get_or_empty "body" r)].

Definition _search (self : WebBrowserSkill) (query max_results : json) (w : trace)
  : outcome pyval :=
  if negb (DDGS_AVAILABLE self)
  then Ret (BaseSkill.SkillResult false PyNone
              (Some "搜索功能需要安装 duckduckgo-search 库"))
  else
    match ddgs_text self w query max_results with
    | Raise e =>
        Ret (BaseSkill.SkillResult false PyNone (Some ("搜索失败: " ++ exn_str e)))
    | Ret [] =>
        Ret (BaseSkill.SkillResult true
               (PyDict [("message", PyStr "未找到相关结果"); ("results", PyList [])])
               None)
    | Ret results =>
        let formatted_results := map formatted results in
        Ret (BaseSkill.SkillResult true
               (PyDict [("query", of_json query);
                        ("count", PyInt (Z.of_nat (length formatted_results)));
                        ("results", PyList formatted_results)])
               None)
    end.

End WebBrowser.

(** ** main.py: the answers at the prompt *)

Module Main.

(** [s[n:]], by code points: the bytes of [n] characters are dropped, each
    with the continuation bytes that follow it. *)
Fixpoint skip_continuation (s : string) : string :=
  match s with
  | EmptyString => EmptyString
  | String c s' => if PyStr.is_continuation c then skip_continuation s' else s
  end.

Fixpoint drop (n : nat) (s : string) : string :=
  match n with
  | 0 => s
  | S n' =>
      match s with
      | EmptyString => EmptyString
      | String _ s' => drop n' (skip_continuation s')
      end
  end.

(** [user_input.strip().lower() in ['y', 'yes', '是', '确认']] *)
Definition confirms (user_input : string) : bool :=
  existsb (String.eqb (PyStr.lower (PyStr.strip user_input)))
    ["y"; "yes"; "是"; "确认"].

(** [Jarvis._handle_confirmation]: the message is shown and a line is read;
    [input] is what the user types, or the exception of the read. *)
Definition _handle_confirmation (input : trace -> outcome string)
  : trace -> string -> outcome bool :=
  fun w message =>
    match input w with
    | Raise e => Raise e
    | Ret user_input => Ret (confirms user_input)
    end.

(** What [Jarvis._handle_command] does with a line that begins with a
    slash. *)
Inductive CommandAction : Type :=
| PrintHelp
| ClearShortTerm
| PrintStatus
| PrintSkills
| SetVoice (voice_name : string)
| UnknownCommand (command : string).

Definition _handle_command (command : string) : CommandAction :=
  let cmd := PyStr.lower (PyStr.strip (drop 1 command)) in
  if String.eqb cmd "help" then PrintHelp
  else if String.eqb cmd "clear" then ClearShortTerm
  else if String.eqb cmd "status" then PrintStatus
  else if String.eqb cmd "skills" then PrintSkills
  else if PyStr.startswith cmd "voice " then SetVoice (PyStr.strip (drop 6 cmd))
  else UnknownCommand command.

End Main.

(** ** A concrete reasoning client and search engine *)

Module ClientScenario.

(** A reader of arguments that knows the empty object only. *)
Definition loads_empty (text : string) : outcome kwargs :=
  if String.eqb text "{}" then Ret []
  else Raise (Exception "JSONDecodeError" "Expecting value: line 1 column 1 (char 0)").

(** A client that always answers with the given choices. *)
Definition answering (choices : list LLM.ApiChoice) : LLM.LLMBrain :=
  {| LLM.config := {| LLM.temperature := QArith_base.Qmake 7 10;
                      LLM.max_tokens := 4096 |};
     LLM._model := "deepseek-chat";
     LLM.create := fun _ _ => Ret choices;
     LLM.loads := loads_empty |}.

Definition api_call (id name arguments : string) : LLM.ApiToolCall :=
  {| LLM.api_id := id; LLM.api_name := name; LLM.api_arguments := arguments |}.

Definition choice_with (calls : list LLM.ApiToolCall) : LLM.ApiChoice :=
  {| LLM.choice_message :=
       {| LLM.api_content := None; LLM.api_tool_calls := Some calls |};
     LLM.choice_finish_reason := "tool_calls" |}.

Definition planner_with (self : LLM.LLMBrain) : Planner.ReActPlanner :=
  {| Planner.brain := LLM.brain self;
     Planner.memory := Scenario.no_memory;
     Planner.context := Scenario.no_context;
     Planner.skills := Scenario.registry;
     Planner._confirmation_callback := None |}.

(** A search engine with two results, the second without a body. *)
Definition engine : WebBrowser.WebBrowserSkill :=
  {| WebBrowser.DDGS_AVAILABLE := true;
     WebBrowser.ddgs_text := fun _ _ _ =>
       Ret [[("title", JStr "Rocq"); ("href", JStr "https://rocq-prover.org");
             ("body", JStr "The Rocq Prover")];
            [("title", JStr "News"); ("href", JStr "https://example.org")]] |}.

End ClientScenario.

(** * Properties *)

(** ** Strings *)

Example lower_ex : PyStr.lower "  RM -Rf /TMP/x " = "  rm -rf /tmp/x ".
Proof. reflexivity. Qed.
Example strip_ex : PyStr.strip "  rm -rf  /tmp/x  " = "rm -rf  /tmp/x".
Proof. reflexivity. Qed.
Example split_ex : PyStr.split "  pip   list -v " = ["pip"; "list"; "-v"].
Proof. reflexivity. Qed.
Example contains_ex : PyStr.contains "sudo rm -rf /" "rm -rf" = true.
Proof. reflexivity. Qed.
Example take_ex : PyStr.take 2 "abc" = "ab" /\ PyStr.of_Z (-30) = "-30" /\ PyStr.of_Z 0 = "0".
Proof. repeat split; reflexivity. Qed.

Section StringFacts.

Import PyStr.

Lemma append_nil_r (s : string) : s ++ "" = s.
Proof. induction s; simpl; congruence. Qed.


Lemma lower_append (a b : string) : lower (a ++ b) = lower a ++ lower b.
Proof. induction a; simpl; congruence. Qed.

(** [startswith] is the prefix test. *)
Lemma startswith_iff (s p : string) :
  startswith s p = true <-> exists b, s = p ++ b.
Proof.
  revert s; induction p as [|c p IH]; intros s; simpl.
  - split; [intros _; now exists s | reflexivity].
  - destruct s as [|d s].
    + split; [discriminate | intros [b Hb]; discriminate].
    + rewrite andb_true_iff, Ascii.eqb_eq, IH. split.
      * intros [-> [b ->]]. now exists b.
      * intros [b Hb]. injection Hb as -> ->. split; [reflexivity | now exists b].
Qed.

(** [contains] is the substring test. *)
Lemma contains_iff (s p : string) :
  contains s p = true <-> exists a b, s = a ++ p ++ b.
Proof.
  induction s as [|c s IH].
  - simpl. rewrite orb_false_r, startswith_iff. split.
    + intros [b Hb]. now exists "", b.
    + intros [a [b Hab]]. destruct a; [now exists b | discriminate].
  - cbn [contains]. rewrite orb_true_iff, startswith_iff, IH. split.
    + intros [[b Hb] | [a [b Hab]]].
      * now exists "", b.
      * exists (String c a), b. simpl. now rewrite Hab.
    + intros [a [b Hab]]. destruct a as [|d a]; simpl in Hab.
      * left. now exists b.
      * right. injection Hab as _ ->. now exists a, b.
Qed.

Lemma lstrip_length (s : string) : String.length (lstrip s) <= String.length s.
Proof.
  induction s as [|c s IH]; simpl; [lia|].
  destruct (isspace c); simpl; lia.
Qed.

(** A pattern without leading white space that occurs in [s] occurs in
    [lstrip s]. *)
Lemma contains_lstrip (s p : string) :
  lstrip p = p -> contains s p = true -> contains (lstrip s) p = true.
Proof.
  intros Hp. induction s as [|c s IH]; [trivial|].
  cbn [lstrip]. destruct (isspace c) eqn:Hc; [|trivial].
  cbn [contains]. rewrite orb_true_iff. intros [H | H]; [|auto].
  destruct p as [|d p]; [destruct (lstrip s); reflexivity|].
  simpl in H. apply andb_true_iff in H as [Hd _].
  apply Ascii.eqb_eq in Hd. subst d.
  simpl in Hp. rewrite Hc in Hp.
  pose proof (lstrip_length p) as Hl. rewrite Hp in Hl. simpl in Hl. lia.
Qed.

Lemma rstrip_append (x y : string) :
  rstrip (x ++ y) =
  match rstrip y with
  | EmptyString => rstrip x
  | r => x ++ r
  end.
Proof.
  induction x as [|c x IH]; simpl.
  - now destruct (rstrip y).
  - rewrite IH. destruct (rstrip y) as [|d r]; [reflexivity|].
    now destruct x.
Qed.

(** A pattern without trailing white space that occurs in [s] occurs in
    [rstrip s]. *)
Lemma contains_rstrip (s p : string) :
  rstrip p = p -> contains s p = true -> contains (rstrip s) p = true.
Proof.
  intros Hp H. apply contains_iff in H as [a [b ->]].
  destruct p as [|c p].
  { destruct (rstrip (a ++ "" ++ b)); reflexivity. }
  assert (Hpb : exists b', rstrip (String c p ++ b) = String c p ++ b').
  { rewrite rstrip_append, Hp. destruct (rstrip b) as [|d r].
    - exists "". now rewrite append_nil_r.
    - now exists (String d r). }
  destruct Hpb as [b' Hb']. rewrite rstrip_append, Hb'.
  apply contains_iff. now exists a, b'.
Qed.

Lemma contains_strip (s p : string) :
  strip p = p -> contains s p = true -> contains (strip s) p = true.
Proof.
  intros Hp H. unfold strip in *.
  assert (Hl : lstrip p = p).
  { destruct p as [|c p]; [reflexivity|].
    simpl in *. destruct (isspace c) eqn:Hc; [|reflexivity].
    exfalso.
    assert (Hr : forall q, String.length (rstrip q) <= String.length q).
    { induction q as [|d q IHq]; simpl; [lia|].
      destruct (rstrip q); [destruct (isspace d)|]; simpl in *; lia. }
    pose proof (Hr (lstrip p)) as H1. pose proof (lstrip_length p) as H2.
    rewrite Hp in H1. simpl in H1. lia. }
  rewrite Hl in Hp.
  apply contains_rstrip; [assumption|].
  now apply contains_lstrip.
Qed.

End StringFacts.

(** ** The terminal skill and the deny-list *)

Section TerminalFacts.

Import Terminal.

Lemma any_forbidden_true (command_lower forbidden : string) (l : list string) :
  In forbidden l ->
  PyStr.contains command_lower (PyStr.lower forbidden) = true ->
  any_forbidden command_lower l = true.
Proof.
  induction l as [|f l IH]; simpl; [tauto|].
  intros [-> | Hin] Hc.
  - now rewrite Hc.
  - destruct (PyStr.contains command_lower (PyStr.lower f)); auto.
Qed.

(** With any deny-list whose entries neither start nor end with white space,
    a command that contains an entry, whatever the case, is unsafe. *)
Lemma deny_list_match_is_unsafe (self : TerminalSkill) (command forbidden : string) :
  In forbidden (Config.forbidden_commands (security_config self)) ->
  PyStr.strip (PyStr.lower forbidden) = PyStr.lower forbidden ->
  PyStr.contains (PyStr.lower command) (PyStr.lower forbidden) = true ->
  _is_command_safe self command = false.
Proof.
  intros Hin Hclean Hc. unfold _is_command_safe.
  apply negb_false_iff.
  apply any_forbidden_true with (forbidden := forbidden); [assumption|].
  now apply contains_strip.
Qed.

(** No entry of the configured deny-list starts or ends with white space. *)
Lemma configured_deny_list_clean :
  Forall (fun f => PyStr.strip (PyStr.lower f) = PyStr.lower f)
    (Config.forbidden_commands Config.security).
Proof. repeat constructor. Qed.

Lemma any_safe_returns (command_lower first_word : string) (l : list string) :
  Forall (fun c => PyStr.split (PyStr.lower c) <> []) l ->
  exists b, any_safe command_lower first_word l = Ret b.
Proof.
  induction 1 as [|c l Hc _ IH]; simpl; [now exists false|].
  destruct (PyStr.startswith command_lower (PyStr.lower c)); [now exists true|].
  destruct (PyStr.split (PyStr.lower c)) as [|w ws]; [contradiction|].
  destruct (String.eqb first_word w); [now exists true | exact IH].
Qed.

(** With the configured allow-list, the read-only test never raises. *)
Lemma configured_readonly_returns (is_windows : bool) subprocess (command : string) :
  exists b, _is_command_readonly (init is_windows subprocess) command = Ret b.
Proof.
  unfold _is_command_readonly. apply any_safe_returns.
  simpl. repeat constructor; discriminate.
Qed.

(** With the configured deny-list, a command that contains an entry,
    whatever the case, is unsafe. *)
Lemma configured_match_is_unsafe (is_windows : bool) subprocess
    (command forbidden : string) :
  In forbidden (Config.forbidden_commands Config.security) ->
  PyStr.contains (PyStr.lower command) (PyStr.lower forbidden) = true ->
  _is_command_safe (init is_windows subprocess) command = false.
Proof.
  intros Hin Hc.
  apply deny_list_match_is_unsafe with (forbidden := forbidden);
    [exact Hin | | exact Hc].
  pose proof configured_deny_list_clean as Hall.
  rewrite Forall_forall in Hall. now apply Hall.
Qed.

(** The command is stripped before the test and the entries are not: an
    entry that ends with a blank is missed at the end of a command. *)
Example padded_entry_is_missed :
  PyStr.contains (PyStr.lower "mkfs ") (PyStr.lower "mkfs ") = true /\
  _is_command_safe Scenario.padded_terminal "mkfs " = true.
Proof. split; reflexivity. Qed.

End TerminalFacts.

(** ** Dispatch of tool calls *)

Lemma count_app (f : Event -> bool) (a b : trace) :
  count f (a ++ b)%list = count f a + count f b.
Proof. unfold count. now rewrite filter_app, length_app. Qed.

Lemma count_skill_events (f : Event -> bool) (effects : list SkillEffect) :
  (forall e, f (EvSkill e) = false) -> count f (map EvSkill effects) = 0.
Proof.
  intros Hf. unfold count.
  induction effects as [|e l IH]; simpl; [reflexivity|].
  now rewrite Hf.
Qed.

(** Counting the events of a trace put together from pieces. *)
Ltac count_events :=
  cbn [fst snd map];
  rewrite ?app_nil_r;
  repeat rewrite count_app;
  repeat (rewrite count_skill_events by reflexivity);
  unfold count; simpl; try lia.

Section DispatchFacts.

Import Planner.

(** The confirmation block makes no reasoning call and asks at most once. *)
Lemma confirmation_gate_trace (self : ReActPlanner) (name : string) (skill : Skill)
    (arguments : kwargs) (w : trace) :
  let w' := snd (confirmation_gate self name skill arguments w) in
  w' = w \/ w' = (w ++ [EvConfirm (confirmation_prompt name arguments)])%list.
Proof.
  unfold confirmation_gate.
  destruct (needs_confirmation skill) as [f|]; [|now left].
  destruct (f w arguments) as [[|]|e]; simpl; try now left.
  destruct (_confirmation_callback self) as [cb|]; [|now left].
  destruct (cb w _) as [b|e]; now right.
Qed.

(** Every turn of the [for] loop appends exactly one result, the same one
    whatever the results so far, and raises nothing. *)
Lemma tool_call_step_appends (self : ReActPlanner) (tc : ToolCall) (w : trace) :
  exists r w',
    (forall results,
       tool_call_step self tc results w = (Ret (results ++ [r])%list, w')) /\
    count is_chat w' = count is_chat w.
Proof.
  unfold tool_call_step.
  destruct (dict_get (tc_name tc) (skills self)) as [skill|];
    [|now exists (unknown_skill (tc_name tc)), w].
  unfold try_tool_call.
  pose proof (confirmation_gate_trace self (tc_name tc) skill (tc_arguments tc) w)
    as Hw.
  destruct (confirmation_gate self (tc_name tc) skill (tc_arguments tc) w)
    as [[[|]|e] w1]; simpl in Hw.
  - unfold run_skill.
    destruct (execute skill (tc_arguments tc) w1) as [[result|e] effects].
    + exists (result_dict result), (w1 ++ map EvSkill effects)%list.
      split; [reflexivity|].
      destruct Hw as [-> | ->]; count_events.
    + exists (execution_failed e), (w1 ++ map EvSkill effects)%list.
      split; [reflexivity|].
      destruct Hw as [-> | ->]; count_events.
  - exists user_denied, w1. split; [reflexivity|].
    destruct Hw as [-> | ->]; count_events.
  - exists (execution_failed e), w1. split; [reflexivity|].
    destruct Hw as [-> | ->]; count_events.
Qed.

Lemma for_tool_calls_appends (self : ReActPlanner) (tool_calls : list ToolCall)
    (w : trace) :
  exists rs w',
    (forall results,
       for_tool_calls self tool_calls results w = (Ret (results ++ rs)%list, w')) /\
    length rs = length tool_calls /\
    count is_chat w' = count is_chat w.
Proof.
  revert w. induction tool_calls as [|tc rest IH]; intros w.
  - exists [], w. repeat split. intros results. simpl. now rewrite app_nil_r.
  - destruct (tool_call_step_appends self tc w) as [r [w1 [Hstep Hc1]]].
    destruct (IH w1) as [rs [w' [Hrest [Hlen Hc]]]].
    exists (r :: rs), w'. repeat split.
    + intros results. simpl. rewrite Hstep, Hrest.
      now rewrite <- app_assoc.
    + simpl. now rewrite Hlen.
    + lia.
Qed.

(** [_execute_tool_calls] always returns, with one result for each call,
    and makes no reasoning call. *)
Lemma execute_tool_calls_returns (self : ReActPlanner) (tool_calls : list ToolCall)
    (w : trace) :
  exists rs w',
    _execute_tool_calls self tool_calls w = (Ret rs, w') /\
    length rs = length tool_calls /\
    count is_chat w' = count is_chat w.
Proof.
  destruct (for_tool_calls_appends self tool_calls w) as [rs [w' [H [Hlen Hc]]]].
  exists rs, w'. repeat split; try assumption.
  unfold _execute_tool_calls. now rewrite H.
Qed.

(** The results of a batch are those of its first calls, then the one of the
    next call, then those of the calls after it, each dispatched on the trace
    that the calls before it have left. *)
Lemma execute_tool_calls_split (self : ReActPlanner)
    (pre post : list ToolCall) (tc : ToolCall)
    (w0 w w1 w' : trace) (rs_pre rs_post : list pyval) (r : pyval) :
  _execute_tool_calls self pre w0 = (Ret rs_pre, w) ->
  (forall results,
     tool_call_step self tc results w = (Ret (results ++ [r])%list, w1)) ->
  _execute_tool_calls self post w1 = (Ret rs_post, w') ->
  _execute_tool_calls self (pre ++ tc :: post) w0
    = (Ret (rs_pre ++ r :: rs_post)%list, w').
Proof.
  unfold _execute_tool_calls. intros Hpre Hstep Hpost.
  assert (Happ : forall a b results v,
             for_tool_calls self (a ++ b) results v =
             match for_tool_calls self a results v with
             | (Ret r1, v1) => for_tool_calls self b r1 v1
             | (Raise e, v1) => (Raise e, v1)
             end).
  { induction a as [|x a IHa]; intros b results v; simpl; [reflexivity|].
    destruct (tool_call_step self x results v) as [[r1|e] v1]; [|reflexivity].
    apply IHa. }
  rewrite Happ, Hpre. simpl. rewrite Hstep.
  destruct (for_tool_calls_appends self post w1) as [rs [w2 [H _]]].
  rewrite H in Hpost. simpl in Hpost. injection Hpost as <- <-.
  rewrite H. now rewrite <- app_assoc.
Qed.

(** When every result of a batch can be serialized, one tool message is
    appended for each call, in the order of the calls, with the call's id. *)
Lemma append_tool_messages_all (tcs : list ToolCall) (rs : list pyval)
    (ms : list Message) :
  length rs = length tcs ->
  forallb dumpable rs = true ->
  exists tool_msgs,
    append_tool_messages (combine tcs rs) ms = (None, (ms ++ tool_msgs)%list) /\
    length tool_msgs = length tcs /\
    map msg_tool_call_id tool_msgs = map (fun tc => Some (tc_id tc)) tcs /\
    map msg_role tool_msgs = map (fun _ => "tool") tcs /\
    map (fun m => Ret (msg_content m)) tool_msgs = map Json.dumps rs.
Proof.
  revert rs ms. induction tcs as [|tc tcs IH]; intros rs ms Hlen Hd.
  - destruct rs; [|discriminate]. exists []. simpl. now rewrite app_nil_r.
  - destruct rs as [|r rs]; [discriminate|].
    simpl in Hlen, Hd. apply andb_true_iff in Hd as [Hr Hrs].
    unfold dumpable in Hr. simpl.
    destruct (Json.dumps r) as [content|e] eqn:Hdump; [|discriminate].
    destruct (IH rs (ms ++ [tool_message tc content])%list) as [tm [H1 [H2 [H3 [H4 H5]]]]];
      [lia | assumption |].
    exists (tool_message tc content :: tm). rewrite H1, <- app_assoc. simpl.
    repeat split; congruence.
Qed.

(** A turn of the loop whose reasoning response carries tool calls, all with
    results that can be serialized, ends with [continue]: the assistant
    message and the tool messages are appended, and the loop goes on. *)
Lemma iteration_continues (self : ReActPlanner) (tools : list json)
    (st : LoopState) (w w' : trace) (response : Response)
    (tcs : list ToolCall) (rs : list pyval) :
  chat (brain self) w (messages st) (tools_argument tools) = Ret response ->
  resp_tool_calls response = Some tcs ->
  tcs <> [] ->
  _execute_tool_calls self tcs
    (w ++ [EvChat (messages st) (tools_argument tools)])%list = (Ret rs, w') ->
  forallb dumpable rs = true ->
  exists tool_msgs,
    react_iteration self tools st w =
      (Continue,
       {| iteration := iteration st + 1;
          messages := (messages st ++ assistant_message response tcs :: tool_msgs)%list;
          final_response := final_response st |},
       w') /\
    length tool_msgs = length tcs /\
    map msg_tool_call_id tool_msgs = map (fun tc => Some (tc_id tc)) tcs /\
    map msg_role tool_msgs = map (fun _ => "tool") tcs.
Proof.
  intros Hchat Htcs Hne Hexec Hd.
  destruct (execute_tool_calls_returns self tcs
              (w ++ [EvChat (messages st) (tools_argument tools)])%list)
    as [rs0 [w0 [H0 [Hlen _]]]].
  rewrite Hexec in H0. injection H0 as <- <-.
  destruct (append_tool_messages_all tcs rs
              (messages st ++ [assistant_message response tcs])%list Hlen Hd)
    as [tm [H1 [H2 [H3 [H4 _]]]]].
  exists tm. repeat split; try assumption.
  unfold react_iteration. cbn [messages iteration final_response].
  rewrite Hchat, Htcs.
  destruct tcs as [|tc tcs]; [contradiction|].
  rewrite Hexec, H1. unfold set_messages. cbn [messages iteration final_response].
  now rewrite <- app_assoc.
Qed.

Lemma react_loop_continue (fuel : nat) (self : ReActPlanner) (tools : list json)
    (st st' : LoopState) (w w' : trace) :
  iteration st < MAX_ITERATIONS ->
  react_iteration self tools st w = (Continue, st', w') ->
  react_loop (S fuel) self tools st w = react_loop fuel self tools st' w'.
Proof.
  intros Hlt Hit. cbn [react_loop].
  apply Nat.ltb_lt in Hlt. now rewrite Hlt, Hit.
Qed.

Lemma forallb_insert (f : pyval -> bool) (a b : list pyval) (r : pyval) :
  f r = true -> forallb f (a ++ b) = true -> forallb f (a ++ r :: b) = true.
Proof.
  intros Hr. rewrite !forallb_app. simpl. rewrite Hr.
  now intros [-> ->]%andb_true_iff.
Qed.

(** An unknown name, in general.  A tool call whose name is not in the
    registry is answered by the dictionary
    [{success: False, error: 未知的技能: <name>}]: the turn raises nothing and
    leaves the trace as it is, the calls after it are dispatched as usual, so
    that the batch returns one result for each call, and the recorded failure
    can be serialized.  When the other results of the batch can be too, the
    turn of the ReAct loop ends with [continue] and the loop goes on to its
    next turn. *)
Theorem unknown_skill_is_reported (self : ReActPlanner)
    (pre post : list ToolCall) (tc : ToolCall) (w0 w : trace)
    (rs_pre : list pyval) :
  dict_get (tc_name tc) (skills self) = None ->
  _execute_tool_calls self pre w0 = (Ret rs_pre, w) ->
  exists rs_post w',
    (forall results,
       tool_call_step self tc results w
         = (Ret (results ++ [unknown_skill (tc_name tc)])%list, w)) /\
    _execute_tool_calls self post w = (Ret rs_post, w') /\
    length rs_post = length post /\
    _execute_tool_calls self (pre ++ tc :: post) w0
      = (Ret (rs_pre ++ unknown_skill (tc_name tc) :: rs_post)%list, w') /\
    unknown_skill (tc_name tc)
      = PyDict [("success", PyBool false);
                ("error", PyStr ("未知的技能: " ++ tc_name tc))] /\
    dumpable (unknown_skill (tc_name tc)) = true /\
    forall tools st wc response fuel,
      chat (brain self) wc (messages st) (tools_argument tools) = Ret response ->
      resp_tool_calls response = Some (pre ++ tc :: post)%list ->
      w0 = (wc ++ [EvChat (messages st) (tools_argument tools)])%list ->
      forallb dumpable (rs_pre ++ rs_post) = true ->
      iteration st < MAX_ITERATIONS ->
      exists st',
        react_iteration self tools st wc = (Continue, st', w') /\
        react_loop (S fuel) self tools st wc = react_loop fuel self tools st' w'.
Proof.
  intros Hnone Hpre.
  destruct (execute_tool_calls_returns self post w) as [rs_post [w' [Hpost [Hlen _]]]].
  assert (Hstep : forall results,
             tool_call_step self tc results w
               = (Ret (results ++ [unknown_skill (tc_name tc)])%list, w)).
  { intros results. unfold tool_call_step. now rewrite Hnone. }
  pose proof (execute_tool_calls_split self pre post tc w0 w w w' rs_pre rs_post
                _ Hpre Hstep Hpost) as Hall.
  exists rs_post, w'. repeat split; try assumption.
  intros tools st wc response fuel Hchat Htcs -> Hd Hlt.
  destruct (iteration_continues self tools st wc w' response
              (pre ++ tc :: post)%list
              (rs_pre ++ unknown_skill (tc_name tc) :: rs_post)%list)
    as [tm [Hit _]]; try assumption.
  - now destruct pre.
  - now apply forallb_insert.
  - eexists. split; [exact Hit|]. now apply react_loop_continue.
Qed.

Lemma unknown_skill_is_reported_witness :
  exists rs_post w',
    (forall results,
       tool_call_step (Scenario.planner Scenario.late_answer None)
         Scenario.unknown_call results []
         = (Ret (results ++ [unknown_skill "teleport"])%list, [])) /\
    _execute_tool_calls (Scenario.planner Scenario.late_answer None)
      [Scenario.critical_call] [] = (Ret rs_post, w') /\
    length rs_post = 1 /\
    _execute_tool_calls (Scenario.planner Scenario.late_answer None)
      [Scenario.broken_call; Scenario.unknown_call; Scenario.critical_call] []
      = (Ret ([execution_failed (Exception "RuntimeError" "disk on fire")]
                ++ unknown_skill "teleport" :: rs_post)%list, w').
Proof.
  destruct (unknown_skill_is_reported (Scenario.planner Scenario.late_answer None)
              [Scenario.broken_call] [Scenario.critical_call]
              Scenario.unknown_call [] []
              [execution_failed (Exception "RuntimeError" "disk on fire")]
              eq_refl eq_refl)
    as [rs_post [w' [H1 [H2 [H3 [H4 _]]]]]].
  exists rs_post, w'. repeat split; assumption.
Defined.

(** C8, at the failing input: the reasoning response carries a call of the
    unknown skill [teleport] and, after it, a call of the terminal skill,
    [echo hi].  The unknown name is recorded as
    [{success: False, error: 未知的技能: teleport}] and the terminal call is
    dispatched, but the loop does not continue: the result recorded for the
    terminal call holds the [SkillResult] of [skills/base_skill.py] itself,
    [json.dumps] raises on it, and the run ends after its first reasoning
    call with the apology, although the client would have answered [done] on
    the second.  With the unknown call alone the loop does continue. *)
Theorem unknown_call_beside_terminal_call_ends_loop :
  let batch := [Scenario.unknown_call; Scenario.echo_call] in
  let self := Scenario.planner (Scenario.then_done batch) None in
  let alone := Scenario.planner (Scenario.then_done [Scenario.unknown_call]) None in
  _execute_tool_calls self batch []
  = (Ret [PyDict [("success", PyBool false);
                  ("error", PyStr "未知的技能: teleport")];
          PyDict [("success", PyBool true);
                  ("output",
                   BaseSkill.SkillResult true
                     (PyDict [("returncode", PyInt 0); ("stdout", PyStr "hi");
                              ("stderr", PyStr "")]) None)]],
     [EvSkill (Spawn "echo hi" JNull (Some "/bin/bash"))]) /\
  Scenario.then_done batch 1 = Ret (Scenario.says "done") /\
  option_map fst (plan_and_execute MAX_ITERATIONS self "hi" [])
  = Some "抱歉，处理请求时出现错误: Object of type SkillResult is not JSON serializable" /\
  option_map (fun r => count is_chat (snd r))
    (plan_and_execute MAX_ITERATIONS self "hi" [])
  = Some 1 /\
  option_map fst (plan_and_execute MAX_ITERATIONS alone "hi" []) = Some "done" /\
  option_map (fun r => count is_chat (snd r))
    (plan_and_execute MAX_ITERATIONS alone "hi" [])
  = Some 2.
Proof. repeat split; vm_compute; reflexivity. Qed.

(** A raising [execute], in general.  When control reaches [execute] and
    [execute] raises, the exception is caught in the turn: the recorded result is
    [{success: False, error: str(e)}], the turn itself raises nothing, the
    calls after it are dispatched as usual, and the batch returns one result
    for each call.  The recorded failure can be serialized; when the other
    results of the batch can be too, the turn of the ReAct loop ends with
    [continue] and the loop goes on to its next turn. *)
Theorem execute_exception_is_caught (self : ReActPlanner)
    (pre post : list ToolCall) (tc : ToolCall) (skill : Skill) (e : exn)
    (effects : list SkillEffect) (w0 w w1 : trace) (rs_pre : list pyval) :
  dict_get (tc_name tc) (skills self) = Some skill ->
  _execute_tool_calls self pre w0 = (Ret rs_pre, w) ->
  confirmation_gate self (tc_name tc) skill (tc_arguments tc) w = (Ret true, w1) ->
  execute skill (tc_arguments tc) w1 = (Raise e, effects) ->
  exists rs_post w',
    (forall results,
       tool_call_step self tc results w
         = (Ret (results ++ [execution_failed e])%list,
            (w1 ++ map EvSkill effects)%list)) /\
    _execute_tool_calls self post (w1 ++ map EvSkill effects)%list
      = (Ret rs_post, w') /\
    length rs_post = length post /\
    _execute_tool_calls self (pre ++ tc :: post) w0
      = (Ret (rs_pre ++ execution_failed e :: rs_post)%list, w') /\
    execution_failed e
      = PyDict [("success", PyBool false); ("error", PyStr (exn_str e))] /\
    dumpable (execution_failed e) = true /\
    forall tools st wc response fuel,
      chat (brain self) wc (messages st) (tools_argument tools) = Ret response ->
      resp_tool_calls response = Some (pre ++ tc :: post)%list ->
      w0 = (wc ++ [EvChat (messages st) (tools_argument tools)])%list ->
      forallb dumpable (rs_pre ++ rs_post) = true ->
      iteration st < MAX_ITERATIONS ->
      exists st',
        react_iteration self tools st wc = (Continue, st', w') /\
        react_loop (S fuel) self tools st wc = react_loop fuel self tools st' w'.
Proof.
  intros Hskill Hpre Hgate Hexec.
  destruct (execute_tool_calls_returns self post (w1 ++ map EvSkill effects)%list)
    as [rs_post [w' [Hpost [Hlen _]]]].
  assert (Hstep : forall results,
             tool_call_step self tc results w
               = (Ret (results ++ [execution_failed e])%list,
                  (w1 ++ map EvSkill effects)%list)).
  { intros results. unfold tool_call_step, try_tool_call, run_skill.
    now rewrite Hskill, Hgate, Hexec. }
  pose proof (execute_tool_calls_split self pre post tc w0 w _ w' rs_pre rs_post
                _ Hpre Hstep Hpost) as Hall.
  exists rs_post, w'. repeat split; try assumption.
  intros tools st wc response fuel Hchat Htcs -> Hd Hlt.
  destruct (iteration_continues self tools st wc w' response
              (pre ++ tc :: post)%list
              (rs_pre ++ execution_failed e :: rs_post)%list)
    as [tm [Hit _]]; try assumption.
  - now destruct pre.
  - now apply forallb_insert.
  - eexists. split; [exact Hit|]. now apply react_loop_continue.
Qed.

Lemma execute_exception_is_caught_witness :
  exists rs_post w',
    _execute_tool_calls (Scenario.planner Scenario.late_answer None)
      [Scenario.critical_call] [] = (Ret rs_post, w') /\
    _execute_tool_calls (Scenario.planner Scenario.late_answer None)
      [Scenario.unknown_call; Scenario.broken_call; Scenario.critical_call] []
      = (Ret ([unknown_skill "teleport"]
                ++ execution_failed (Exception "RuntimeError" "disk on fire")
                :: rs_post)%list, w').
Proof.
  destruct (execute_exception_is_caught (Scenario.planner Scenario.late_answer None)
              [Scenario.unknown_call] [Scenario.critical_call]
              Scenario.broken_call Scenario.broken_skill
              (Exception "RuntimeError" "disk on fire") [] [] [] []
              [unknown_skill "teleport"]
              eq_refl eq_refl eq_refl eq_refl)
    as [rs_post [w' [_ [H2 [_ [H4 _]]]]]].
  exists rs_post, w'. split; assumption.
Defined.

(** C6, at the failing input: the reasoning response carries a call of a
    skill whose [execute] raises [RuntimeError: disk on fire] and, after it,
    a call of the terminal skill, [echo hi].  The exception is caught and
    recorded as [{success: False, error: disk on fire}], and the terminal
    call is dispatched, but the loop does not continue to its next reasoning
    call: the result recorded for the terminal call holds the [SkillResult]
    of [skills/base_skill.py] itself, [json.dumps] raises on it, and the run
    ends after its first reasoning call with the apology, although the
    client would have answered [done] on the second.  With the raising call
    alone the loop does continue. *)
Theorem raising_call_beside_terminal_call_ends_loop :
  let batch := [Scenario.broken_call; Scenario.echo_call] in
  let self := Scenario.planner (Scenario.then_done batch) None in
  let alone := Scenario.planner (Scenario.then_done [Scenario.broken_call]) None in
  _execute_tool_calls self batch []
  = (Ret [PyDict [("success", PyBool false); ("error", PyStr "disk on fire")];
          PyDict [("success", PyBool true);
                  ("output",
                   BaseSkill.SkillResult true
                     (PyDict [("returncode", PyInt 0); ("stdout", PyStr "hi");
                              ("stderr", PyStr "")]) None)]],
     [EvSkill (Spawn "echo hi" JNull (Some "/bin/bash"))]) /\
  Scenario.then_done batch 1 = Ret (Scenario.says "done") /\
  option_map fst (plan_and_execute MAX_ITERATIONS self "hi" [])
  = Some "抱歉，处理请求时出现错误: Object of type SkillResult is not JSON serializable" /\
  option_map (fun r => count is_chat (snd r))
    (plan_and_execute MAX_ITERATIONS self "hi" [])
  = Some 1 /\
  option_map fst (plan_and_execute MAX_ITERATIONS alone "hi" []) = Some "done" /\
  option_map (fun r => count is_chat (snd r))
    (plan_and_execute MAX_ITERATIONS alone "hi" [])
  = Some 2.
Proof. repeat split; vm_compute; reflexivity. Qed.

(** C10.  With no confirmation callback installed, a call whose skill
    answers [needs_confirmation(arguments) = True] goes straight to
    [execute], on the trace as it was: what is recorded is what [execute]
    returned (or the failure for what it raised), never the refusal of the
    user, and the only events of the turn are the effects of the skill, so
    that no confirmation is requested. *)
Theorem no_callback_no_confirmation (self : ReActPlanner) (tc : ToolCall)
    (skill : Skill) (f : trace -> kwargs -> outcome bool)
    (results : list pyval) (w : trace) :
  _confirmation_callback self = None ->
  dict_get (tc_name tc) (skills self) = Some skill ->
  needs_confirmation skill = Some f ->
  f w (tc_arguments tc) = Ret true ->
  exists r,
    tool_call_step self tc results w
      = (Ret (results ++ [r])%list,
         (w ++ map EvSkill (snd (execute skill (tc_arguments tc) w)))%list) /\
    match fst (execute skill (tc_arguments tc) w) with
    | Ret result => r = result_dict result
    | Raise e => r = execution_failed e
    end /\
    count is_confirm
      (w ++ map EvSkill (snd (execute skill (tc_arguments tc) w)))%list
      = count is_confirm w.
Proof.
  intros Hcb Hskill Hneeds Hf.
  unfold tool_call_step, try_tool_call, confirmation_gate, run_skill.
  rewrite Hskill, Hneeds, Hf, Hcb.
  destruct (execute skill (tc_arguments tc) w) as [[result|e] effects];
    eexists; (split; [reflexivity|]); (split; [reflexivity|]); count_events.
Qed.

Lemma no_callback_no_confirmation_witness :
  exists r,
    tool_call_step (Scenario.planner Scenario.late_answer None)
      Scenario.critical_call [] []
      = (Ret [r], [EvSkill (OtherEffect "write")]) /\
    r = PyDict [("success", PyBool true); ("output", PyStr "done")].
Proof.
  destruct (no_callback_no_confirmation (Scenario.planner Scenario.late_answer None)
              Scenario.critical_call Scenario.critical_skill
              (fun _ _ => Ret true) [] [] eq_refl eq_refl eq_refl eq_refl)
    as [r [H1 [H2 _]]].
  exists r. split; [exact H1 | exact H2].
Defined.

End DispatchFacts.

(** ** The ReAct loop *)

Section LoopFacts.

Import Planner.

(** Every turn of the loop adds one to the counter and makes exactly one
    reasoning call. *)
Lemma react_iteration_counts (self : ReActPlanner) (tools : list json)
    (st : LoopState) (w : trace) :
  let '(_, st', w') := react_iteration self tools st w in
  iteration st' = iteration st + 1 /\
  count is_chat w' = count is_chat w + 1.
Proof.
  unfold react_iteration. cbn [messages iteration final_response].
  destruct (chat (brain self) w (messages st) (tools_argument tools))
    as [response|e]; [|split; [reflexivity | count_events]].
  destruct (resp_tool_calls response) as [[|tc tcs]|];
    try (split; [reflexivity | count_events]).
  destruct (execute_tool_calls_returns self (tc :: tcs)
              (w ++ [EvChat (messages st) (tools_argument tools)])%list)
    as [rs [w2 [Hexec [_ Hc]]]].
  rewrite Hexec.
  destruct (append_tool_messages _ _) as [[e|] ms];
    (split; [reflexivity | rewrite Hc; count_events]).
Qed.

(** The loop ends within [MAX_ITERATIONS - iteration] turns, and makes at
    most that many reasoning calls. *)
Lemma react_loop_terminates (self : ReActPlanner) (tools : list json)
    (fuel : nat) (st : LoopState) (w : trace) :
  MAX_ITERATIONS - iteration st <= fuel ->
  exists st' w',
    react_loop fuel self tools st w = Some (st', w') /\
    iteration st <= iteration st' /\
    count is_chat w' <= count is_chat w + (MAX_ITERATIONS - iteration st).
Proof.
  revert st w. induction fuel as [|fuel IH]; intros st w Hfuel.
  - exists st, w. cbn [react_loop].
    destruct (iteration st <? MAX_ITERATIONS)%nat eqn:Hlt.
    + apply Nat.ltb_lt in Hlt. lia.
    + repeat split; lia.
  - cbn [react_loop].
    destruct (iteration st <? MAX_ITERATIONS)%nat eqn:Hlt;
      [|exists st, w; repeat split; lia].
    apply Nat.ltb_lt in Hlt.
    pose proof (react_iteration_counts self tools st w) as Hit.
    destruct (react_iteration self tools st w) as [[[|] st1] w1];
      destruct Hit as [Hi Hc].
    + destruct (IH st1 w1) as [st' [w' [Hloop [Hi' Hc']]]]; [lia|].
      exists st', w'. repeat split; [assumption | lia | lia].
    + exists st1, w1. repeat split; lia.
Qed.

(** C5.  With fuel for [MAX_ITERATIONS] turns or more, [plan_and_execute]
    returns a final text on every planner, request and trace, and the run
    makes at most [MAX_ITERATIONS], that is ten, reasoning calls. *)
Theorem plan_and_execute_terminates (fuel : nat) (self : ReActPlanner)
    (user_input : string) (w : trace) :
  MAX_ITERATIONS <= fuel ->
  exists final w',
    plan_and_execute fuel self user_input w = Some (final, w') /\
    count is_chat w' <= count is_chat w + MAX_ITERATIONS /\
    MAX_ITERATIONS = 10.
Proof.
  intros Hfuel. unfold plan_and_execute, initial.
  destruct (react_loop_terminates self (_get_tools_schema self) fuel
              {| iteration := 0;
                 messages :=
                   system_message
                     (_build_system_prompt self (w ++ [EvMemory "user" user_input])%list)
                   :: get_recent_context (memory self)
                        (w ++ [EvMemory "user" user_input])%list;
                 final_response := "" |}
              (w ++ [EvMemory "user" user_input])%list)
    as [st' [w' [Hloop [_ Hc]]]]; [cbn [iteration]; lia|].
  rewrite Hloop. eexists. eexists. split; [reflexivity|].
  split; [|reflexivity].
  cbn [iteration] in Hc. revert Hc. count_events.
  unfold MAX_ITERATIONS. lia.
Qed.

Lemma plan_and_execute_terminates_witness :
  exists final w',
    plan_and_execute 10 (Scenario.planner Scenario.late_answer None) "hi" []
      = Some (final, w') /\
    count is_chat w' <= 0 + MAX_ITERATIONS /\
    MAX_ITERATIONS = 10.
Proof.
  apply (plan_and_execute_terminates 10
           (Scenario.planner Scenario.late_answer None) "hi" []).
  unfold MAX_ITERATIONS. lia.
Defined.

(** A response without tool calls ends the loop with its content as the
    final response; the text that [plan_and_execute] then returns is that
    content only if the turn was not the last one allowed. *)
Lemma plain_answer_conclusion (fuel : nat) (self : ReActPlanner)
    (tools : list json) (st : LoopState) (w : trace) (response : Response) :
  iteration st < MAX_ITERATIONS ->
  chat (brain self) w (messages st) (tools_argument tools) = Ret response ->
  resp_tool_calls response = None \/ resp_tool_calls response = Some [] ->
  exists st',
    react_loop (S fuel) self tools st w
      = Some (st', (w ++ [EvChat (messages st) (tools_argument tools)])%list) /\
    final_response st' = resp_content response /\
    conclude st' =
      if (MAX_ITERATIONS <=? iteration st + 1)%nat then too_complex
      else resp_content response.
Proof.
  intros Hlt Hchat Hplain. cbn [react_loop].
  apply Nat.ltb_lt in Hlt. rewrite Hlt.
  unfold react_iteration. cbn [messages iteration final_response].
  rewrite Hchat.
  destruct Hplain as [-> | ->]; eexists; (split; [reflexivity|]);
    split; reflexivity.
Qed.

(** C2, at the failing input: the reasoning client asks for a tool on its
    first nine calls and gives the plain answer [done] on the tenth, which is
    call number [MAX_ITERATIONS]; the text returned is the one of the cap and
    not the answer. *)
Theorem plain_answer_at_cap_is_replaced :
  Scenario.late_answer 9 = Ret (Scenario.says "done") /\
  option_map fst
    (plan_and_execute MAX_ITERATIONS
       (Scenario.planner Scenario.late_answer None) "hi" [])
    = Some "抱歉，任务过于复杂，无法在限定步骤内完成。" /\
  option_map (fun r => count is_chat (snd r))
    (plan_and_execute MAX_ITERATIONS
       (Scenario.planner Scenario.late_answer None) "hi" [])
    = Some 10.
Proof. repeat split; vm_compute; reflexivity. Qed.

(** A failure of the reasoning client on call number [MAX_ITERATIONS] is
    reported with the text of the cap as well. *)
Example reasoning_failure_at_cap :
  option_map fst
    (plan_and_execute MAX_ITERATIONS
       (Scenario.planner Scenario.late_failure None) "hi" [])
    = Some "抱歉，任务过于复杂，无法在限定步骤内完成。".
Proof. vm_compute. reflexivity. Qed.

(** C7, as stated, fails: the final text after a failure of the reasoning
    client is not one fixed text, it carries the text of the exception. *)
Lemma reasoning_failure_text_not_fixed :
  ~ exists text : string,
      forall message : string,
        option_map fst
          (plan_and_execute MAX_ITERATIONS
             (Scenario.planner (Scenario.down message) None) "hi" [])
        = Some text.
Proof.
  intros [text H].
  pose proof (H "timeout") as H1. pose proof (H "refused") as H2.
  vm_compute in H1, H2. congruence.
Qed.

(** C7, amended.  When the reasoning call of a turn raises, the loop ends
    with that turn: the failed call is the only event, so that no tool is
    dispatched and no further reasoning call is made, the messages are
    untouched, and the final response is the apology followed by the text of
    the exception; [plan_and_execute] returns it when the turn was not the
    last one allowed. *)
Theorem reasoning_failure_ends_loop (fuel : nat) (self : ReActPlanner)
    (tools : list json) (st : LoopState) (w : trace) (e : exn) :
  iteration st < MAX_ITERATIONS ->
  chat (brain self) w (messages st) (tools_argument tools) = Raise e ->
  exists st',
    react_loop (S fuel) self tools st w
      = Some (st', (w ++ [EvChat (messages st) (tools_argument tools)])%list) /\
    iteration st' = iteration st + 1 /\
    messages st' = messages st /\
    final_response st' = "抱歉，处理请求时出现错误: " ++ exn_str e /\
    (iteration st + 1 < MAX_ITERATIONS ->
     conclude st' = "抱歉，处理请求时出现错误: " ++ exn_str e).
Proof.
  intros Hlt Hchat. cbn [react_loop].
  apply Nat.ltb_lt in Hlt. rewrite Hlt.
  unfold react_iteration. cbn [messages iteration final_response].
  rewrite Hchat. eexists. split; [reflexivity|].
  repeat split. intros Hnext. unfold conclude. cbn [set_final iteration final_response].
  destruct (MAX_ITERATIONS <=? iteration st + 1)%nat eqn:Hle; [|reflexivity].
  apply Nat.leb_le in Hle. lia.
Qed.

Lemma reasoning_failure_ends_loop_witness :
  exists st',
    react_loop 1 (Scenario.planner (Scenario.down "timeout") None) []
      {| iteration := 0; messages := []; final_response := "" |} []
      = Some (st', [EvChat [] None]) /\
    conclude st' = "抱歉，处理请求时出现错误: timeout".
Proof.
  destruct (reasoning_failure_ends_loop 0
              (Scenario.planner (Scenario.down "timeout") None) []
              {| iteration := 0; messages := []; final_response := "" |} []
              (Exception "APIConnectionError" "timeout"))
    as [st' [H1 [_ [_ [_ H5]]]]].
  - unfold MAX_ITERATIONS. simpl. lia.
  - reflexivity.
  - exists st'. split; [exact H1|]. apply H5. unfold MAX_ITERATIONS. simpl. lia.
Defined.

(** C4, at the failing input: the reasoning response carries one call of the
    terminal skill, [echo hi].  The skill returns the [SkillResult] of
    [skills/base_skill.py], which the planner does not recognise as its own
    [SkillResult]; the recorded result holds the object itself, [json.dumps]
    raises on it, and the turn ends the loop with the assistant message
    appended and no tool message for the call. *)
Theorem skill_result_breaks_tool_messages :
  let self := Scenario.planner (fun _ => Ret (Scenario.wants [Scenario.echo_call])) None in
  let response := Scenario.wants [Scenario.echo_call] in
  react_iteration self []
    {| iteration := 0; messages := []; final_response := "" |} []
  = (Break,
     {| iteration := 1;
        messages := [assistant_message response [Scenario.echo_call]];
        final_response :=
          "抱歉，处理请求时出现错误: Object of type SkillResult is not JSON serializable" |},
     [EvChat [] None; EvSkill (Spawn "echo hi" JNull (Some "/bin/bash"))]) /\
  _execute_tool_calls self [Scenario.echo_call] []
  = (Ret [PyDict [("success", PyBool true);
                  ("output",
                   BaseSkill.SkillResult true
                     (PyDict [("returncode", PyInt 0); ("stdout", PyStr "hi");
                              ("stderr", PyStr "")]) None)]],
     [EvSkill (Spawn "echo hi" JNull (Some "/bin/bash"))]) /\
  option_map fst (plan_and_execute MAX_ITERATIONS self "hi" [])
  = Some "抱歉，处理请求时出现错误: Object of type SkillResult is not JSON serializable".
Proof. repeat split; vm_compute; reflexivity. Qed.

End LoopFacts.

(** ** The terminal skill behind the planner *)

Section ForbiddenDispatch.

Import Planner.

Lemma dict_get_remove {A : Type} (k k' : string) (d : dict A) :
  k <> k' -> dict_get k (dict_remove k' d) = dict_get k d.
Proof.
  intros Hne. induction d as [|[k0 v] d IH]; [reflexivity|].
  unfold dict_remove in *. simpl.
  destruct (String.eqb_spec k' k0) as [<-|Hk0]; simpl.
  - rewrite IH. destruct (String.eqb_spec k k'); [contradiction | reflexivity].
  - now rewrite IH.
Qed.

(** Keyword arguments that [_run_command] accepts hold no [self]. *)
Lemma accepted_keywords_no_self (d : kwargs) :
  Terminal.unexpected_keyword (dict_remove "action" d) = None ->
  dict_has "self" d = false.
Proof.
  unfold dict_has, dict_remove.
  induction d as [|[k v] d IH]; [reflexivity|].
  cbn [filter fst dict_get].
  destruct (String.eqb_spec "action" k) as [<-|Hk]; cbn [negb].
  - change (String.eqb "self" "action") with false. exact IH.
  - cbn [Terminal.unexpected_keyword].
    destruct (String.eqb_spec "self" k) as [<-|Hs].
    + intros H. vm_compute in H. discriminate.
    + destruct (String.eqb k "command" || String.eqb k "cwd" || String.eqb k "timeout");
        [exact IH | discriminate].
Qed.

(** The terminal skill refuses a [run_command] call on a forbidden command
    without any effect, for all well-formed keyword arguments. *)
Lemma execute_refuses_forbidden (is_windows : bool) subprocess
    (arguments : kwargs) (command forbidden : string) (w : trace) :
  dict_get "action" arguments = Some (JStr "run_command") ->
  dict_get "command" arguments = Some (JStr command) ->
  Terminal.unexpected_keyword (dict_remove "action" arguments) = None ->
  In forbidden (Config.forbidden_commands Config.security) ->
  PyStr.contains (PyStr.lower command) (PyStr.lower forbidden) = true ->
  Terminal.execute (Terminal.init is_windows subprocess) arguments w
    = (Ret Terminal.rejected, []).
Proof.
  intros Haction Hcommand Hkeys Hin Hc.
  unfold Terminal.execute.
  rewrite (accepted_keywords_no_self arguments Hkeys), Haction.
  cbn [String.eqb Ascii.eqb Bool.eqb andb].
  unfold Terminal.call_action, Terminal.bind_params.
  rewrite Hkeys, dict_get_remove, Hcommand by discriminate.
  unfold Terminal._run_command.
  now rewrite (configured_match_is_unsafe is_windows subprocess command forbidden).
Qed.

(** Whatever its keyword arguments, a call of the terminal skill that
    carries a forbidden command has no effect. *)
Lemma terminal_execute_no_effect (is_windows : bool) subprocess
    (arguments : kwargs) (command forbidden : string) (w : trace) :
  dict_get "command" arguments = Some (JStr command) ->
  In forbidden (Config.forbidden_commands Config.security) ->
  PyStr.contains (PyStr.lower command) (PyStr.lower forbidden) = true ->
  snd (Terminal.execute (Terminal.init is_windows subprocess) arguments w) = [].
Proof.
  intros Hcommand Hin Hc.
  pose proof (configured_match_is_unsafe is_windows subprocess command forbidden
                Hin Hc) as Hunsafe.
  unfold Terminal.execute.
  destruct (dict_has "self" arguments); [reflexivity|].
  destruct (dict_get "action" arguments) as [action|]; [|reflexivity].
  destruct action as [| | |a| |]; try reflexivity.
  unfold Terminal.call_action, Terminal.bind_params.
  destruct (String.eqb a "run_command").
  - destruct (Terminal.unexpected_keyword _); [reflexivity|].
    rewrite dict_get_remove, Hcommand by discriminate.
    unfold Terminal._run_command. now rewrite Hunsafe.
  - destruct (String.eqb a "run_safe_command"); [|reflexivity].
    destruct (Terminal.unexpected_keyword _); [reflexivity|].
    rewrite dict_get_remove, Hcommand by discriminate.
    unfold Terminal._run_safe_command, Terminal._run_command.
    rewrite Hunsafe.
    now destruct (Terminal._is_command_readonly _ command) as [[|]|e].
Qed.

(** The dispatch of such a call spawns nothing, whether a confirmation
    callback is installed or not and whatever it answers. *)
Lemma forbidden_dispatch_spawns_nothing (self : ReActPlanner) (is_windows : bool)
    subprocess (tc : ToolCall) (command forbidden : string)
    (results : list pyval) (w : trace) :
  dict_get (tc_name tc) (skills self)
    = Some (terminal_skill (Terminal.init is_windows subprocess)) ->
  dict_get "command" (tc_arguments tc) = Some (JStr command) ->
  In forbidden (Config.forbidden_commands Config.security) ->
  PyStr.contains (PyStr.lower command) (PyStr.lower forbidden) = true ->
  count is_spawn (snd (tool_call_step self tc results w)) = count is_spawn w.
Proof.
  intros Hskill Hcommand Hin Hc.
  unfold tool_call_step, try_tool_call. rewrite Hskill.
  pose proof (confirmation_gate_trace self (tc_name tc)
                (terminal_skill (Terminal.init is_windows subprocess))
                (tc_arguments tc) w) as Hw.
  destruct (confirmation_gate _ _ _ _ w) as [[[|]|e] w1]; simpl in Hw.
  - unfold run_skill. cbn [execute terminal_skill].
    pose proof (terminal_execute_no_effect is_windows subprocess (tc_arguments tc)
                  command forbidden w1 Hcommand Hin Hc) as Heff.
    destruct (Terminal.execute _ (tc_arguments tc) w1) as [[r|e] effects];
      simpl in Heff; subst effects; destruct Hw as [-> | ->]; count_events.
  - destruct Hw as [-> | ->]; count_events.
  - destruct Hw as [-> | ->]; count_events.
Qed.

(** C1.  A command that contains, in any case, an entry of the configured
    deny-list is refused by [_run_command]: the result is
    [SkillResult(success=False)] with the rejection message, and
    [create_subprocess_shell] is not called (the call has no effect at all),
    whatever the working directory, the timeout, the platform, the operating
    system and the events so far.  [_run_safe_command] refuses it as well, by
    itself when the command is not on the allow-list and through
    [_run_command] otherwise.  Behind the planner, the dispatch of a terminal
    call that carries the command spawns nothing, whatever confirmation
    callback is installed and whatever it answers. *)
Theorem forbidden_command_never_runs
    (is_windows : bool) subprocess (command forbidden : string) :
  In forbidden (Config.forbidden_commands Config.security) ->
  PyStr.contains (PyStr.lower command) (PyStr.lower forbidden) = true ->
  let t := Terminal.init is_windows subprocess in
  (forall cwd timeout w,
     Terminal._run_command t (JStr command) cwd timeout w
       = (Ret (BaseSkill.SkillResult false PyNone
                 (Some "命令被拒绝：包含禁止的操作")), [])) /\
  (forall cwd timeout w,
     Terminal._run_safe_command t (JStr command) cwd timeout w
       = (Ret (BaseSkill.SkillResult false PyNone
                 (Some "命令被拒绝：包含禁止的操作")), []) \/
     Terminal._run_safe_command t (JStr command) cwd timeout w
       = (Ret (BaseSkill.SkillResult false PyNone
                 (Some ("命令不在安全列表中: " ++ command))), [])) /\
  (forall (self : ReActPlanner) (tc : ToolCall) (results : list pyval) (w : trace),
     dict_get (tc_name tc) (skills self) = Some (terminal_skill t) ->
     dict_get "command" (tc_arguments tc) = Some (JStr command) ->
     count is_spawn (snd (tool_call_step self tc results w)) = count is_spawn w).
Proof.
  intros Hin Hc t. subst t.
  assert (Hrun : forall cwd timeout w,
             Terminal._run_command (Terminal.init is_windows subprocess)
               (JStr command) cwd timeout w = (Ret Terminal.rejected, [])).
  { intros cwd timeout w. unfold Terminal._run_command.
    now rewrite (configured_match_is_unsafe is_windows subprocess command forbidden). }
  split; [exact Hrun|]. split.
  - intros cwd timeout w. unfold Terminal._run_safe_command.
    destruct (configured_readonly_returns is_windows subprocess command) as [b Hb].
    rewrite Hb. destruct b; [left; apply Hrun | now right].
  - intros self tc results w Hskill Hcommand.
    now apply forbidden_dispatch_spawns_nothing
      with is_windows subprocess command forbidden.
Qed.

Lemma forbidden_command_never_runs_witness :
  Terminal._run_command Scenario.terminal (JStr "rm -rf /tmp/x") JNull (JInt 30) []
    = (Ret (BaseSkill.SkillResult false PyNone (Some "命令被拒绝：包含禁止的操作")), []) /\
  count is_spawn
    (snd (tool_call_step
            (Scenario.planner Scenario.late_answer (Some Scenario.approve))
            Scenario.rm_call [] []))
    = 0.
Proof.
  destruct (forbidden_command_never_runs false Scenario.quiet_os
              "rm -rf /tmp/x" "rm -rf") as [H1 [_ H3]].
  - simpl. tauto.
  - reflexivity.
  - split; [apply H1|]. now apply H3.
Defined.

(** C3, as stated, fails: with a confirmation callback installed, the
    dispatch of the terminal call [format C:] asks for a confirmation. *)
Lemma forbidden_command_is_prompted :
  count is_confirm
    (snd (_execute_tool_calls
            (Scenario.planner Scenario.late_answer (Some Scenario.approve))
            [Scenario.format_call] []))
  <> 0.
Proof. vm_compute. discriminate. Qed.

(** Whatever its keyword arguments, a call of the terminal skill that
    carries a forbidden command does not report a success: [execute] raises
    or returns [SkillResult(success=False, output=None)] with an error. *)
Lemma terminal_execute_no_success (is_windows : bool) subprocess
    (arguments : kwargs) (command forbidden : string) (w : trace) :
  dict_get "command" arguments = Some (JStr command) ->
  In forbidden (Config.forbidden_commands Config.security) ->
  PyStr.contains (PyStr.lower command) (PyStr.lower forbidden) = true ->
  match fst (Terminal.execute (Terminal.init is_windows subprocess) arguments w) with
  | Ret result =>
      exists error, result = BaseSkill.SkillResult false PyNone (Some error)
  | Raise _ => True
  end.
Proof.
  intros Hcommand Hin Hc.
  pose proof (configured_match_is_unsafe is_windows subprocess command forbidden
                Hin Hc) as Hunsafe.
  unfold Terminal.execute.
  destruct (dict_has "self" arguments); [exact I|].
  destruct (dict_get "action" arguments) as [action|]; [|exact I].
  assert (Hother : exists error,
             BaseSkill.SkillResult false PyNone
               (Some ("未知的操作: " ++ PyRepr.str action))
             = BaseSkill.SkillResult false PyNone (Some error))
    by now eexists.
  destruct action as [| | |a| |]; try exact I; try exact Hother.
  unfold Terminal.call_action, Terminal.bind_params, Terminal.failed.
  destruct (String.eqb a "run_command").
  - destruct (Terminal.unexpected_keyword _); [now eexists|].
    rewrite dict_get_remove, Hcommand by discriminate.
    unfold Terminal._run_command, Terminal.rejected. rewrite Hunsafe.
    now eexists.
  - destruct (String.eqb a "run_safe_command"); [|exact Hother].
    destruct (Terminal.unexpected_keyword _); [now eexists|].
    rewrite dict_get_remove, Hcommand by discriminate.
    unfold Terminal._run_safe_command, Terminal._run_command, Terminal.rejected.
    rewrite Hunsafe.
    destruct (Terminal._is_command_readonly _ command) as [[|]|e]; now eexists.
Qed.

(** With keyword arguments that fit, [run_safe_command] on a forbidden
    command that is read-only is refused by [_run_command] as well. *)
Lemma execute_safe_refuses_forbidden (is_windows : bool) subprocess
    (arguments : kwargs) (command forbidden : string) (w : trace) :
  dict_get "action" arguments = Some (JStr "run_safe_command") ->
  dict_get "command" arguments = Some (JStr command) ->
  Terminal.unexpected_keyword (dict_remove "action" arguments) = None ->
  Terminal._is_command_readonly (Terminal.init is_windows subprocess) command
    = Ret true ->
  In forbidden (Config.forbidden_commands Config.security) ->
  PyStr.contains (PyStr.lower command) (PyStr.lower forbidden) = true ->
  Terminal.execute (Terminal.init is_windows subprocess) arguments w
    = (Ret Terminal.rejected, []).
Proof.
  intros Haction Hcommand Hkeys Hro Hin Hc.
  unfold Terminal.execute.
  rewrite (accepted_keywords_no_self arguments Hkeys), Haction.
  change (String.eqb "run_safe_command" "run_command") with false.
  change (String.eqb "run_safe_command" "run_safe_command") with true.
  cbv iota.
  unfold Terminal.call_action, Terminal.bind_params.
  rewrite Hkeys, dict_get_remove, Hcommand by discriminate.
  unfold Terminal._run_safe_command. rewrite Hro.
  unfold Terminal._run_command.
  now rewrite (configured_match_is_unsafe is_windows subprocess command forbidden).
Qed.

(** C3, amended.  For a terminal call that carries a command matching the
    configured deny-list, whatever its action and its other arguments: the
    turn of the dispatch records one result and spawns no subprocess, and the
    skill, on any trace, has no effect and reports no success: [execute]
    raises or returns [SkillResult(success=False, output=None)] with an
    error.  The error is the rejection message when the action is
    [run_command], or [run_safe_command] on a read-only command, and the
    call has no argument besides [action], [command], [cwd] and [timeout].
    The deny-list is not consulted by [needs_confirmation]: one
    confirmation is requested when a callback is installed and the command
    is not read-only, and none otherwise. *)
Theorem forbidden_terminal_call (self : ReActPlanner) (is_windows : bool)
    subprocess (tc : ToolCall) (command forbidden : string)
    (results : list pyval) (w : trace) :
  let t := Terminal.init is_windows subprocess in
  dict_get (tc_name tc) (skills self) = Some (terminal_skill t) ->
  dict_get "command" (tc_arguments tc) = Some (JStr command) ->
  In forbidden (Config.forbidden_commands Config.security) ->
  PyStr.contains (PyStr.lower command) (PyStr.lower forbidden) = true ->
  exists readonly r w',
    Terminal._is_command_readonly t command = Ret readonly /\
    (forall w1,
       snd (Terminal.execute t (tc_arguments tc) w1) = [] /\
       match fst (Terminal.execute t (tc_arguments tc) w1) with
       | Ret result =>
           exists error, result = BaseSkill.SkillResult false PyNone (Some error)
       | Raise _ => True
       end) /\
    (Terminal.unexpected_keyword (dict_remove "action" (tc_arguments tc)) = None ->
     dict_get "action" (tc_arguments tc) = Some (JStr "run_command") \/
     dict_get "action" (tc_arguments tc) = Some (JStr "run_safe_command") /\
     readonly = true ->
     forall w1,
       Terminal.execute t (tc_arguments tc) w1
         = (Ret (BaseSkill.SkillResult false PyNone
                   (Some "命令被拒绝：包含禁止的操作")), [])) /\
    tool_call_step self tc results w = (Ret (results ++ [r])%list, w') /\
    count is_spawn w' = count is_spawn w /\
    count is_confirm w' =
      count is_confirm w +
      match _confirmation_callback self with
      | Some _ => if readonly then 0 else 1
      | None => 0
      end.
Proof.
  intros t Hskill Hcommand Hin Hc.
  destruct (configured_readonly_returns is_windows subprocess command)
    as [readonly Hro].
  fold t in Hro.
  assert (Heff : forall w1, snd (Terminal.execute t (tc_arguments tc) w1) = []).
  { intros w1. now apply terminal_execute_no_effect with command forbidden. }
  assert (Hrun : forall rs w1,
             exists r,
               run_skill (terminal_skill t) (tc_arguments tc) rs w1
                 = (Ret (rs ++ [r])%list, w1) \/
               exists e,
                 run_skill (terminal_skill t) (tc_arguments tc) rs w1
                   = (Raise e, w1)).
  { intros rs w1. unfold run_skill. cbn [execute terminal_skill].
    specialize (Heff w1).
    destruct (Terminal.execute t (tc_arguments tc) w1) as [[result|e] effects];
      simpl in Heff; subst effects; cbn [map]; rewrite app_nil_r.
    - eexists. left. reflexivity.
    - exists PyNone. right. now exists e. }
  assert (Hstep : exists r w',
             tool_call_step self tc results w = (Ret (results ++ [r])%list, w') /\
             count is_spawn w' = count is_spawn w /\
             count is_confirm w' =
               count is_confirm w +
               match _confirmation_callback self with
               | Some _ => if readonly then 0 else 1
               | None => 0
               end).
  { unfold tool_call_step, try_tool_call, confirmation_gate.
    rewrite Hskill. cbn [needs_confirmation terminal_skill].
    unfold Terminal.needs_confirmation. rewrite Hcommand, Hro.
    destruct readonly.
    - destruct (Hrun results w) as [r [-> | [e ->]]];
        eexists; eexists;
        (split; [reflexivity|]); (split; [count_events|]);
        destruct (_confirmation_callback self); count_events.
    - destruct (_confirmation_callback self) as [callback|].
      + destruct (callback w _) as [[|]|e].
        * destruct (Hrun results
                      (w ++ [EvConfirm (confirmation_prompt (tc_name tc)
                                          (tc_arguments tc))])%list)
            as [r [-> | [e ->]]];
            eexists; eexists; (split; [reflexivity|]); split; count_events.
        * eexists; eexists; (split; [reflexivity|]); split; count_events.
        * eexists; eexists; (split; [reflexivity|]); split; count_events.
      + destruct (Hrun results w) as [r [-> | [e ->]]];
          eexists; eexists; (split; [reflexivity|]); split; count_events. }
  destruct Hstep as [r [w' [H1 [H2 H3]]]].
  exists readonly, r, w'.
  split; [exact Hro|]. split.
  { intros w1. split; [apply Heff|].
    now apply terminal_execute_no_success with command forbidden. }
  split.
  { intros Hkeys [Haction | [Haction ->]] w1.
    - now apply execute_refuses_forbidden with command forbidden.
    - now apply execute_safe_refuses_forbidden with command forbidden. }
  repeat split; assumption.
Qed.

Lemma forbidden_terminal_call_witness :
  exists readonly r w',
    Terminal._is_command_readonly Scenario.terminal "format C:" = Ret readonly /\
    Terminal.execute Scenario.terminal (tc_arguments Scenario.format_call) []
      = (Ret (BaseSkill.SkillResult false PyNone
                (Some "命令被拒绝：包含禁止的操作")), []) /\
    tool_call_step (Scenario.planner Scenario.late_answer (Some Scenario.approve))
      Scenario.format_call [] [] = (Ret [r], w') /\
    count is_spawn w' = 0 /\
    count is_confirm w' = if readonly then 0 else 1.
Proof.
  destruct (forbidden_terminal_call
              (Scenario.planner Scenario.late_answer (Some Scenario.approve))
              false Scenario.quiet_os Scenario.format_call
              "format C:" "format" [] [])
    as [readonly [r [w' [H1 [_ [H2 [H3 [H4 H5]]]]]]]];
    try reflexivity.
  - simpl. tauto.
  - exists readonly, r, w'.
    split; [exact H1|].
    split; [apply H2; [reflexivity | now left]|].
    split; [exact H3|]. split; [exact H4 | exact H5].
Defined.

End ForbiddenDispatch.

(** ** The tool descriptor *)

(** C9.  [create_tool_schema] returns the descriptor
    [{type: function, function: {name, description, parameters:
    {type: object, properties, required}}}] with the given name, description
    and parameter mapping, and with the given list of required names, or the
    empty list when none is given. *)
Theorem create_tool_schema_shape (name description : string)
    (parameters : dict json) (required : option (list string)) :
  BaseSkill.create_tool_schema name description parameters required =
  JDict [
    ("type", JStr "function");
    ("function", JDict [
       ("name", JStr name);
       ("description", JStr description);
       ("parameters", JDict [
          ("type", JStr "object");
          ("properties", JDict parameters);
          ("required",
           JList (map JStr match required with Some l => l | None => [] end))])])].
Proof. destruct required as [[|r l]|]; reflexivity. Qed.

(** The descriptor of the terminal skill names its two required
    parameters. *)
Example terminal_schema_required :
  exists properties,
    Terminal.get_schema =
    JDict [
      ("type", JStr "function");
      ("function", JDict [
         ("name", JStr "terminal");
         ("description", JStr "执行终端命令。危险命令会被拒绝，需要用户确认才能执行");
         ("parameters", JDict [
            ("type", JStr "object");
            ("properties", JDict properties);
            ("required", JList [JStr "action"; JStr "command"])])])].
Proof. eexists. reflexivity. Qed.

(** * Further properties *)

(** ** The terminal skill: read-only verdict *)

Section ReadOnlyFacts.

Import Terminal.

Lemma lstrip_fixed_append (x y : string) :
  x <> "" -> PyStr.lstrip x = x -> PyStr.lstrip (x ++ y) = x ++ y.
Proof.
  destruct x as [|c x]; [congruence|]. intros _ H. simpl in *.
  destruct (PyStr.isspace c); [|reflexivity].
  exfalso. pose proof (lstrip_length x) as Hl.
  rewrite H in Hl. simpl in Hl. lia.
Qed.

Lemma rstrip_length (s : string) :
  String.length (PyStr.rstrip s) <= String.length s.
Proof.
  induction s as [|c s IH]; simpl; [lia|].
  destruct (PyStr.rstrip s); [destruct (PyStr.isspace c)|]; simpl in *; lia.
Qed.

(** A text that [strip] leaves alone is left alone by both halves of it. *)
Lemma strip_fixed (s : string) :
  PyStr.strip s = s -> PyStr.lstrip s = s /\ PyStr.rstrip s = s.
Proof.
  unfold PyStr.strip. intros H.
  assert (Hl : PyStr.lstrip s = s).
  { destruct s as [|c s]; [reflexivity|].
    simpl in *. destruct (PyStr.isspace c); [|reflexivity].
    exfalso. pose proof (rstrip_length (PyStr.lstrip s)) as H1.
    pose proof (lstrip_length s) as H2. rewrite H in H1. simpl in H1. lia. }
  split; [exact Hl | now rewrite Hl in H].
Qed.

(** Stripping keeps a prefix that has no white space at its ends. *)
Lemma strip_keeps_prefix (x y : string) :
  x <> "" -> PyStr.strip x = x ->
  PyStr.startswith (PyStr.strip (x ++ y)) x = true.
Proof.
  intros Hne Hx. destruct (strip_fixed x Hx) as [Hl Hr].
  unfold PyStr.strip. rewrite (lstrip_fixed_append x y Hne Hl), rstrip_append.
  apply startswith_iff. destruct (PyStr.rstrip y) as [|d r].
  - exists "". now rewrite Hr, append_nil_r.
  - now exists (String d r).
Qed.

Lemma any_safe_prefix (command_lower first_word safe : string) (l : list string) :
  Forall (fun c => PyStr.split (PyStr.lower c) <> []) l ->
  In safe l ->
  PyStr.startswith command_lower (PyStr.lower safe) = true ->
  any_safe command_lower first_word l = Ret true.
Proof.
  induction 1 as [|c l Hc _ IH]; simpl; [tauto|].
  intros [-> | Hin] Hs.
  - now rewrite Hs.
  - destruct (PyStr.startswith command_lower (PyStr.lower c)); [reflexivity|].
    destruct (PyStr.split (PyStr.lower c)) as [|w ws]; [contradiction|].
    destruct (String.eqb first_word w); [reflexivity | auto].
Qed.

Lemma configured_allow_list_clean :
  Forall (fun c => PyStr.lower c <> "" /\
                   PyStr.strip (PyStr.lower c) = PyStr.lower c /\
                   PyStr.split (PyStr.lower c) <> [])
    (Config.safe_commands Config.security).
Proof. repeat constructor; discriminate. Qed.

(** X1.  The read-only test looks at the beginning of the command only, and
    not at word boundaries: with the configured allow-list, every command
    whose text begins, in any case, with an entry of the list is read-only,
    whatever follows the entry; the planner is told that no confirmation is
    needed for it. *)
Theorem safe_prefix_is_readonly (is_windows : bool) subprocess
    (safe command : string) (params : kwargs) :
  In safe (Config.safe_commands Config.security) ->
  PyStr.startswith (PyStr.lower command) (PyStr.lower safe) = true ->
  dict_get "command" params = Some (JStr command) ->
  _is_command_readonly (init is_windows subprocess) command = Ret true /\
  needs_confirmation (init is_windows subprocess) params = Ret false.
Proof.
  intros Hin Hs Hcommand.
  pose proof configured_allow_list_clean as Hall.
  rewrite Forall_forall in Hall.
  destruct (Hall safe Hin) as [Hne [Hclean _]].
  assert (Hro : _is_command_readonly (init is_windows subprocess) command = Ret true).
  { unfold _is_command_readonly.
    apply any_safe_prefix with (safe := safe); [|exact Hin|].
    - apply Forall_forall. intros c Hc. now apply Hall.
    - apply startswith_iff in Hs as [tail Htail]. rewrite Htail.
      now apply strip_keeps_prefix. }
  split; [exact Hro|].
  unfold needs_confirmation. now rewrite Hcommand, Hro.
Qed.

Lemma safe_prefix_is_readonly_witness :
  Terminal._is_command_readonly Scenario.terminal "Echo hi > /etc/hosts" = Ret true /\
  Terminal.needs_confirmation Scenario.terminal
    [("action", JStr "run_command"); ("command", JStr "Echo hi > /etc/hosts")]
    = Ret false.
Proof.
  apply (safe_prefix_is_readonly false Scenario.quiet_os "echo"
           "Echo hi > /etc/hosts").
  - simpl. tauto.
  - reflexivity.
  - reflexivity.
Defined.

End ReadOnlyFacts.

(** ** The terminal skill: results and effects *)

Section RunCommandFacts.

Import Terminal.

(** X2.  [_run_command] on a string never raises and returns a
    [SkillResult]; it reports success exactly when the command is safe and
    the process exits with status 0, a success carries no error text and a
    failure always carries one. *)
Theorem run_command_outcome (self : TerminalSkill) (command : string)
    (cwd timeout : json) (w : trace) :
  exists success output error effects,
    _run_command self (JStr command) cwd timeout w
      = (Ret (BaseSkillResult success output error), effects) /\
    (success = true <->
       _is_command_safe self command = true /\
       exists out err, subprocess self w command cwd timeout = Exited 0 out err) /\
    (success = true -> error = None) /\
    (success = false -> error <> None).
Proof.
  unfold _run_command, rejected, failed, BaseSkill.SkillResult.
  destruct (_is_command_safe self command); simpl.
  2:{ do 4 eexists. split; [reflexivity|].
      repeat split; try discriminate; intros [H _]; discriminate. }
  destruct (subprocess self w command cwd timeout)
    as [e|returncode stdout stderr|[e|]|e] eqn:Hos;
    try (do 4 eexists; split; [reflexivity|];
         repeat split; try discriminate; intros [_ [out [err H]]]; discriminate).
  destruct (returncode =? 0)%Z eqn:Hrc.
  - apply Z.eqb_eq in Hrc. subst returncode.
    do 4 eexists. split; [reflexivity|].
    repeat split; try discriminate. now exists stdout, stderr.
  - apply Z.eqb_neq in Hrc.
    do 4 eexists. split; [reflexivity|].
    repeat split; try discriminate.
    intros [_ [out [err H]]]. injection H as H _ _. contradiction.
Qed.

(** X3.  [_run_command] calls [create_subprocess_shell] exactly once when
    the command is safe, with the command as given (not lower-cased or
    stripped) and [/bin/bash] unless the platform is Windows, and not at all
    otherwise; it kills the process exactly when the wait times out. *)
Theorem run_command_effects (self : TerminalSkill) (command : string)
    (cwd timeout : json) (w : trace) :
  snd (_run_command self (JStr command) cwd timeout w) =
  if _is_command_safe self command
  then (Spawn command cwd (if is_windows self then None else Some "/bin/bash")
        :: match subprocess self w command cwd timeout with
           | TimedOut _ => [Kill]
           | _ => []
           end)%list
  else [].
Proof.
  unfold _run_command.
  destruct (_is_command_safe self command); simpl; [|reflexivity].
  destruct (subprocess self w command cwd timeout)
    as [e|returncode stdout stderr|[e|]|e]; try reflexivity.
  now destruct (returncode =? 0)%Z.
Qed.

Lemma len_append (a b : string) :
  PyStr.len (a ++ b) = PyStr.len a + PyStr.len b.
Proof. induction a as [|c a IH]; simpl; [reflexivity|]. rewrite IH. lia. Qed.

Lemma len_take (n : nat) (s : string) : PyStr.len (PyStr.take n s) <= n.
Proof.
  revert n. induction s as [|c s IH]; intros n; simpl; [lia|].
  destruct (PyStr.is_continuation c) eqn:Hc.
  - simpl. rewrite Hc. apply IH.
  - destruct n as [|n]; simpl; [lia|]. rewrite Hc. specialize (IH n). lia.
Qed.

(** X4.  The standard output that a result records is the output of the
    process, stripped, when that has at most 5000 characters, and never has
    more than 5000 characters and the 11 of the truncation mark; the
    standard error is recorded stripped and whole. *)
Theorem recorded_streams (self : TerminalSkill) (command : string)
    (cwd timeout : json) (w : trace) (success : bool)
    (d : list (string * pyval)) (error : option string)
    (effects : list SkillEffect) :
  _run_command self (JStr command) cwd timeout w
    = (Ret (BaseSkillResult success (PyDict d) error), effects) ->
  exists returncode stdout stderr recorded,
    subprocess self w command cwd timeout = Exited returncode stdout stderr /\
    dict_get "returncode" d = Some (PyInt returncode) /\
    dict_get "stdout" d = Some (PyStr recorded) /\
    dict_get "stderr" d = Some (PyStr (PyStr.strip stderr)) /\
    PyStr.len recorded <= 5000 + 11 /\
    (PyStr.len (PyStr.strip stdout) <= 5000 -> recorded = PyStr.strip stdout).
Proof.
  intros H.
  assert (Hrec : forall s : string,
             let r := if (5000 <? PyStr.len s)%nat
                      then PyStr.take 5000 s ++ newline ++ "...(输出已截断)"
                      else s in
             PyStr.len r <= 5000 + 11 /\ (PyStr.len s <= 5000 -> r = s)).
  { intros s0. cbv zeta.
    destruct (5000 <? PyStr.len s0)%nat eqn:Hlen.
    - apply Nat.ltb_lt in Hlen. split.
      + rewrite len_append.
        apply Nat.add_le_mono; [apply len_take | vm_compute; apply le_n].
      + intros Hle. exfalso. apply (Nat.lt_irrefl 5000).
        eapply Nat.lt_le_trans; eassumption.
    - apply Nat.ltb_ge in Hlen. split; [|reflexivity].
      eapply Nat.le_trans; [exact Hlen | apply Nat.le_add_r]. }
  unfold _run_command in H.
  destruct (_is_command_safe self command); cbn [negb] in H;
    [|unfold rejected, BaseSkill.SkillResult in H; discriminate H].
  destruct (subprocess self w command cwd timeout)
    as [e|returncode stdout stderr|[e|]|e];
    try (unfold failed, BaseSkill.SkillResult in H; discriminate H).
  cbv zeta in H. unfold BaseSkill.SkillResult in H.
  exists returncode, stdout, stderr.
  exists (if (5000 <? PyStr.len (PyStr.strip stdout))%nat
          then PyStr.take 5000 (PyStr.strip stdout) ++ newline ++ "...(输出已截断)"
          else PyStr.strip stdout).
  split; [reflexivity|].
  assert (Hd : d = [("returncode", PyInt returncode);
                    ("stdout",
                     PyStr (if (5000 <? PyStr.len (PyStr.strip stdout))%nat
                            then PyStr.take 5000 (PyStr.strip stdout)
                                 ++ newline ++ "...(输出已截断)"
                            else PyStr.strip stdout));
                    ("stderr", PyStr (PyStr.strip stderr))]).
  { destruct (returncode =? 0)%Z; now injection H as _ <- _ _. }
  subst d.
  split; [reflexivity|]. split; [reflexivity|]. split; [reflexivity|].
  apply Hrec.
Qed.

Lemma recorded_streams_witness :
  exists returncode stdout stderr recorded,
    Scenario.quiet_os [] "echo hi" JNull (JInt 30)
      = Exited returncode stdout stderr /\
    recorded = "hi".
Proof.
  destruct (recorded_streams Scenario.terminal "echo hi" JNull (JInt 30) []
              true
              [("returncode", PyInt 0); ("stdout", PyStr "hi"); ("stderr", PyStr "")]
              None [Spawn "echo hi" JNull (Some "/bin/bash")] eq_refl)
    as [returncode [stdout [stderr [recorded [H1 [_ [H3 _]]]]]]].
  exists returncode, stdout, stderr, recorded. split; [exact H1|].
  simpl in H3. now injection H3 as <-.
Defined.

Lemma run_command_result_or_raise (self : TerminalSkill)
    (command cwd timeout : json) (w : trace) :
  result_or_raise (fst (_run_command self command cwd timeout w)).
Proof.
  destruct command as [| | |c| |]; try exact I.
  destruct (run_command_outcome self c cwd timeout w)
    as [success [output [error [effects [H _]]]]].
  now rewrite H.
Qed.

Lemma run_safe_command_result_or_raise (self : TerminalSkill)
    (command cwd timeout : json) (w : trace) :
  result_or_raise (fst (_run_safe_command self command cwd timeout w)).
Proof.
  destruct command as [| | |c| |]; try exact I.
  unfold _run_safe_command.
  destruct (_is_command_readonly self c) as [[|]|e]; try exact I.
  apply run_command_result_or_raise.
Qed.

Lemma call_action_returns (fname : string)
    (f : json -> json -> json -> trace -> outcome pyval * list SkillEffect)
    (params : kwargs) (w : trace) :
  (forall command cwd timeout, result_or_raise (fst (f command cwd timeout w))) ->
  exists success output error,
    fst (call_action fname f params w) = Ret (BaseSkillResult success output error).
Proof.
  intros Hf. unfold call_action, failed, BaseSkill.SkillResult.
  destruct (bind_params fname params) as [[[command cwd] timeout]|e];
    [|now do 3 eexists].
  specialize (Hf command cwd timeout).
  destruct (f command cwd timeout w) as [[r|e] effects]; simpl in *.
  - destruct r; try contradiction. now do 3 eexists.
  - now do 3 eexists.
Qed.

(** X5.  Called with a string for [action] (and no argument named [self]),
    [execute] never raises: it returns a [SkillResult], also when the
    keyword arguments do not fit the action, when the command is not a
    string or when the read-only test fails; an action other than
    [run_command] and [run_safe_command] is refused by name, with no
    effect. *)
Theorem execute_returns_result (self : TerminalSkill) (arguments : kwargs)
    (a : string) (w : trace) :
  dict_has "self" arguments = false ->
  dict_get "action" arguments = Some (JStr a) ->
  (exists success output error,
     fst (execute self arguments w) = Ret (BaseSkillResult success output error)) /\
  (a <> "run_command" -> a <> "run_safe_command" ->
   execute self arguments w
     = (Ret (BaseSkillResult false PyNone (Some ("未知的操作: " ++ a))), [])).
Proof.
  intros Hself Haction. unfold execute. rewrite Hself, Haction.
  destruct (String.eqb_spec a "run_command") as [->|H1].
  - split; [|congruence].
    apply call_action_returns. intros. apply run_command_result_or_raise.
  - destruct (String.eqb_spec a "run_safe_command") as [->|H2].
    + split; [|congruence].
      apply call_action_returns. intros. apply run_safe_command_result_or_raise.
    + split; [now do 3 eexists | reflexivity].
Qed.

Lemma execute_returns_result_witness :
  Terminal.execute Scenario.terminal
    [("action", JStr "run_command"); ("cmd", JStr "ls")] []
  = (Ret (BaseSkillResult false PyNone
            (Some "TerminalSkill._run_command() got an unexpected keyword argument 'cmd'")),
     []) /\
  Terminal.execute Scenario.terminal [("action", JStr "reboot_now")] []
  = (Ret (BaseSkillResult false PyNone (Some "未知的操作: reboot_now")), []).
Proof.
  split; [reflexivity|].
  apply (execute_returns_result Scenario.terminal
           [("action", JStr "reboot_now")] "reboot_now" []);
    [reflexivity | reflexivity | discriminate | discriminate].
Defined.

Lemma run_command_spawn (self : TerminalSkill) (command cwd timeout : json)
    (w : trace) (c : string) (cwd' : json) (exe : option string) :
  In (Spawn c cwd' exe) (snd (_run_command self command cwd timeout w)) ->
  command = JStr c /\ _is_command_safe self c = true.
Proof.
  destruct command as [| | |c0| |]; try (simpl; tauto).
  rewrite run_command_effects.
  destruct (_is_command_safe self c0) eqn:Hsafe; [|simpl; tauto].
  intros [H | H].
  - injection H as -> _ _. now split.
  - destruct (subprocess self w c0 cwd timeout); simpl in H;
      try tauto; destruct H as [H | H]; try discriminate; tauto.
Qed.

(** X6.  Whatever the arguments and the configured lists, [execute] spawns
    a process only for the command it was given, only if that command passed
    [_is_command_safe], and under [run_safe_command] only if the command is
    read-only as well. *)
Theorem spawn_only_if_safe (self : TerminalSkill) (arguments : kwargs)
    (w : trace) (c : string) (cwd : json) (exe : option string) :
  In (Spawn c cwd exe) (snd (execute self arguments w)) ->
  dict_get "command" arguments = Some (JStr c) /\
  _is_command_safe self c = true /\
  (dict_get "action" arguments = Some (JStr "run_command") \/
   dict_get "action" arguments = Some (JStr "run_safe_command") /\
   _is_command_readonly self c = Ret true).
Proof.
  unfold execute.
  destruct (dict_has "self" arguments); [simpl; tauto|].
  destruct (dict_get "action" arguments) as [[| | |a| |]|] eqn:Haction;
    try (simpl; tauto).
  assert (Hbind : forall fname command cwd0 timeout,
             bind_params fname (dict_remove "action" arguments)
               = Ret (command, cwd0, timeout) ->
             dict_get "command" arguments = Some command).
  { intros fname command cwd0 timeout. unfold bind_params.
    destruct (unexpected_keyword _); [discriminate|].
    rewrite dict_get_remove by discriminate.
    destruct (dict_get "command" arguments); [|discriminate].
    now intros [= ->]. }
  unfold call_action.
  destruct (String.eqb_spec a "run_command") as [->|H1].
  - destruct (bind_params _ _) as [[[command cwd0] timeout]|e] eqn:Hb;
      [|simpl; tauto].
    apply Hbind in Hb.
    intros Hin.
    assert (Hs : In (Spawn c cwd exe)
                   (snd (_run_command self command cwd0 timeout w))).
    { revert Hin.
      destruct (_run_command self command cwd0 timeout w) as [[r|e] effects];
        simpl; tauto. }
    apply run_command_spawn in Hs as [-> Hsafe]. auto.
  - destruct (String.eqb_spec a "run_safe_command") as [->|H2]; [|simpl; tauto].
    destruct (bind_params _ _) as [[[command cwd0] timeout]|e] eqn:Hb;
      [|simpl; tauto].
    apply Hbind in Hb.
    assert (Hsafe_run : In (Spawn c cwd exe)
                          (snd (_run_safe_command self command cwd0 timeout w)) ->
                        command = JStr c /\ _is_command_safe self c = true /\
                        _is_command_readonly self c = Ret true).
    { unfold _run_safe_command.
      destruct command as [| | |c0| |]; try (simpl; tauto).
      destruct (_is_command_readonly self c0) as [[|]|e] eqn:Hro;
        try (simpl; tauto).
      intros Hs. apply run_command_spawn in Hs as [[= ->] Hsafe]. auto. }
    intros Hin.
    assert (Hs : In (Spawn c cwd exe)
                   (snd (_run_safe_command self command cwd0 timeout w))).
    { revert Hin.
      destruct (_run_safe_command self command cwd0 timeout w) as [[r|e] effects];
        simpl; tauto. }
    apply Hsafe_run in Hs as [-> [Hsafe Hro]]. auto.
Qed.

Lemma spawn_only_if_safe_witness :
  Terminal._is_command_safe Scenario.terminal "echo hi" = true.
Proof.
  apply (spawn_only_if_safe Scenario.terminal
           [("action", JStr "run_command"); ("command", JStr "echo hi")] []
           "echo hi" JNull (Some "/bin/bash")).
  simpl. tauto.
Defined.

End RunCommandFacts.

(** ** The registry and the confirmation block *)

Section RegistryFacts.

Import Planner.

Lemma dict_set_get {A : Type} (k : string) (v : A) (d : dict A) :
  dict_get k (dict_set k v d) = Some v.
Proof.
  induction d as [|[k0 v0] d IH]; simpl.
  - now rewrite String.eqb_refl.
  - destruct (String.eqb_spec k k0) as [->|Hne]; simpl.
    + now rewrite String.eqb_refl.
    + destruct (String.eqb_spec k k0); [contradiction | exact IH].
Qed.

Lemma dict_set_get_other {A : Type} (k k' : string) (v : A) (d : dict A) :
  k' <> k -> dict_get k' (dict_set k v d) = dict_get k' d.
Proof.
  intros Hne. induction d as [|[k0 v0] d IH]; simpl.
  - destruct (String.eqb_spec k' k); [contradiction | reflexivity].
  - destruct (String.eqb_spec k k0) as [->|Hk]; simpl.
    + destruct (String.eqb_spec k' k0); [contradiction | reflexivity].
    + destruct (String.eqb_spec k' k0); [reflexivity | exact IH].
Qed.

Lemma dict_set_keys {A : Type} (k : string) (v : A) (d : dict A) :
  map fst (dict_set k v d) =
  if dict_has k d then map fst d else (map fst d ++ [k])%list.
Proof.
  unfold dict_has. induction d as [|[k0 v0] d IH]; simpl; [reflexivity|].
  destruct (String.eqb_spec k k0) as [->|Hk]; simpl; [reflexivity|].
  rewrite IH. now destruct (dict_get k d).
Qed.

Lemma dict_get_none_keys {A : Type} (k : string) (d : dict A) :
  dict_get k d = None -> ~ In k (map fst d).
Proof.
  induction d as [|[k0 v0] d IH]; simpl; [tauto|].
  destruct (String.eqb_spec k k0) as [->|Hk]; [discriminate|].
  intros H [Heq | Hin]; [congruence | now apply IH].
Qed.

(** X7.  After [register_skill(name, skill)] the registry answers [skill]
    for [name] and what it answered before for every other name; a name
    already registered keeps its place and a new one goes last, so that
    distinct names stay distinct; the rest of the planner is untouched. *)
Theorem register_skill_lookup (self : ReActPlanner) (name : string) (skill : Skill) :
  let self' := register_skill self name skill in
  dict_get name (skills self') = Some skill /\
  (forall other, other <> name ->
     dict_get other (skills self') = dict_get other (skills self)) /\
  map fst (skills self') =
    (if dict_has name (skills self) then map fst (skills self)
     else (map fst (skills self) ++ [name])%list) /\
  (NoDup (map fst (skills self)) -> NoDup (map fst (skills self'))) /\
  brain self' = brain self /\ memory self' = memory self /\
  context self' = context self /\
  _confirmation_callback self' = _confirmation_callback self.
Proof.
  cbn [register_skill skills brain memory context _confirmation_callback].
  split; [apply dict_set_get|].
  split; [intros other Hne; now apply dict_set_get_other|].
  split; [apply dict_set_keys|].
  split; [|repeat split].
  intros Hnd. rewrite dict_set_keys. unfold dict_has.
  destruct (dict_get name (skills self)) eqn:Hget; [exact Hnd|].
  apply NoDup_app; [exact Hnd | repeat constructor; simpl; tauto |].
  intros x Hx [<- | []]. now apply dict_get_none_keys in Hget.
Qed.

End RegistryFacts.

(** ** Refusals, failures of the confirmation and what gets recorded *)

Section ConfirmationFacts.

Import Planner.

(** A call that records a result which can be serialized neither stops the
    batch nor, by itself, the loop. *)
Lemma recorded_result_in_batch (self : ReActPlanner)
    (pre post : list ToolCall) (tc : ToolCall) (r : pyval)
    (w0 w w1 : trace) (rs_pre : list pyval) :
  _execute_tool_calls self pre w0 = (Ret rs_pre, w) ->
  (forall results,
     tool_call_step self tc results w = (Ret (results ++ [r])%list, w1)) ->
  dumpable r = true ->
  exists rs_post w',
    _execute_tool_calls self post w1 = (Ret rs_post, w') /\
    length rs_post = length post /\
    _execute_tool_calls self (pre ++ tc :: post) w0
      = (Ret (rs_pre ++ r :: rs_post)%list, w') /\
    forall tools st wc response fuel,
      chat (brain self) wc (messages st) (tools_argument tools) = Ret response ->
      resp_tool_calls response = Some (pre ++ tc :: post)%list ->
      w0 = (wc ++ [EvChat (messages st) (tools_argument tools)])%list ->
      forallb dumpable (rs_pre ++ rs_post) = true ->
      iteration st < MAX_ITERATIONS ->
      exists st',
        react_iteration self tools st wc = (Continue, st', w') /\
        react_loop (S fuel) self tools st wc = react_loop fuel self tools st' w'.
Proof.
  intros Hpre Hstep Hr.
  destruct (execute_tool_calls_returns self post w1) as [rs_post [w' [Hpost [Hlen _]]]].
  pose proof (execute_tool_calls_split self pre post tc w0 w w1 w' rs_pre rs_post
                r Hpre Hstep Hpost) as Hall.
  exists rs_post, w'. repeat split; try assumption.
  intros tools st wc response fuel Hchat Htcs -> Hd Hlt.
  destruct (iteration_continues self tools st wc w' response
              (pre ++ tc :: post)%list (rs_pre ++ r :: rs_post)%list)
    as [tm [Hit _]]; try assumption.
  - now destruct pre.
  - now apply forallb_insert.
  - eexists. split; [exact Hit|]. now apply react_loop_continue.
Qed.

(** X8.  Once a callback is installed with [set_confirmation_callback], a
    call whose skill asks for a confirmation and whose confirmation the
    callback refuses is not executed: the only event of the turn is the
    request, the recorded result is
    [{success: False, error: 用户拒绝执行此操作}], the calls after it are
    dispatched as usual, and the loop goes on to its next turn when the other
    results of the batch can be serialized. *)
Theorem refusal_is_recorded (self : ReActPlanner)
    (callback : trace -> string -> outcome bool)
    (pre post : list ToolCall) (tc : ToolCall) (skill : Skill)
    (f : trace -> kwargs -> outcome bool) (w0 w : trace) (rs_pre : list pyval) :
  let self' := set_confirmation_callback self callback in
  let prompt := confirmation_prompt (tc_name tc) (tc_arguments tc) in
  let refused :=
    PyDict [("success", PyBool false); ("error", PyStr "用户拒绝执行此操作")] in
  dict_get (tc_name tc) (skills self) = Some skill ->
  needs_confirmation skill = Some f ->
  f w (tc_arguments tc) = Ret true ->
  callback w prompt = Ret false ->
  _execute_tool_calls self' pre w0 = (Ret rs_pre, w) ->
  (forall results,
     tool_call_step self' tc results w
       = (Ret (results ++ [refused])%list, (w ++ [EvConfirm prompt])%list)) /\
  exists rs_post w',
    _execute_tool_calls self' post (w ++ [EvConfirm prompt])%list
      = (Ret rs_post, w') /\
    length rs_post = length post /\
    _execute_tool_calls self' (pre ++ tc :: post) w0
      = (Ret (rs_pre ++ refused :: rs_post)%list, w') /\
    forall tools st wc response fuel,
      chat (brain self') wc (messages st) (tools_argument tools) = Ret response ->
      resp_tool_calls response = Some (pre ++ tc :: post)%list ->
      w0 = (wc ++ [EvChat (messages st) (tools_argument tools)])%list ->
      forallb dumpable (rs_pre ++ rs_post) = true ->
      iteration st < MAX_ITERATIONS ->
      exists st',
        react_iteration self' tools st wc = (Continue, st', w') /\
        react_loop (S fuel) self' tools st wc = react_loop fuel self' tools st' w'.
Proof.
  intros self' prompt refused Hskill Hneeds Hf Hcb Hpre.
  assert (Hstep : forall results,
             tool_call_step self' tc results w
               = (Ret (results ++ [refused])%list, (w ++ [EvConfirm prompt])%list)).
  { intros results. unfold tool_call_step, try_tool_call, confirmation_gate.
    cbn [self' set_confirmation_callback skills _confirmation_callback].
    rewrite Hskill, Hneeds, Hf. fold prompt. now rewrite Hcb. }
  split; [exact Hstep|].
  now apply recorded_result_in_batch with (w := w).
Qed.

Lemma refusal_is_recorded_witness :
  tool_call_step
    (set_confirmation_callback (Scenario.planner Scenario.late_answer None)
       (fun _ _ => Ret false))
    Scenario.critical_call [] []
  = (Ret [PyDict [("success", PyBool false); ("error", PyStr "用户拒绝执行此操作")]],
     [EvConfirm (confirmation_prompt "critical" [])]).
Proof.
  apply (refusal_is_recorded (Scenario.planner Scenario.late_answer None)
           (fun _ _ => Ret false) [] [] Scenario.critical_call
           Scenario.critical_skill (fun _ _ => Ret true) [] [] []
           eq_refl eq_refl eq_refl eq_refl eq_refl).
Defined.

(** X9.  When [needs_confirmation] or the confirmation callback raises, the
    call is not executed: the exception is recorded as
    [{success: False, error: str(e)}] and the trace holds at most the
    request for the confirmation, no effect of the skill. *)
Theorem confirmation_failure_is_recorded (self : ReActPlanner) (tc : ToolCall)
    (skill : Skill) (e : exn) (results : list pyval) (w w1 : trace) :
  dict_get (tc_name tc) (skills self) = Some skill ->
  confirmation_gate self (tc_name tc) skill (tc_arguments tc) w = (Raise e, w1) ->
  tool_call_step self tc results w
    = (Ret (results ++ [PyDict [("success", PyBool false);
                                ("error", PyStr (exn_str e))]])%list, w1) /\
  (w1 = w \/
   w1 = (w ++ [EvConfirm (confirmation_prompt (tc_name tc) (tc_arguments tc))])%list).
Proof.
  intros Hskill Hgate. split.
  - unfold tool_call_step, try_tool_call. now rewrite Hskill, Hgate.
  - pose proof (confirmation_gate_trace self (tc_name tc) skill (tc_arguments tc) w)
      as Hw.
    now rewrite Hgate in Hw.
Qed.

Lemma confirmation_failure_is_recorded_witness :
  tool_call_step (Scenario.planner Scenario.late_answer (Some Scenario.approve))
    (Scenario.call "call_6" "terminal"
       [("action", JStr "run_command"); ("command", JInt 5)]) [] []
  = (Ret [PyDict [("success", PyBool false);
                  ("error", PyStr "'int' object has no attribute 'lower'")]], []).
Proof.
  apply (confirmation_failure_is_recorded
           (Scenario.planner Scenario.late_answer (Some Scenario.approve))
           (Scenario.call "call_6" "terminal"
              [("action", JStr "run_command"); ("command", JInt 5)])
           (terminal_skill Scenario.terminal)
           (Exception "AttributeError" "'int' object has no attribute 'lower'")
           [] [] [] eq_refl eq_refl).
Defined.

(** X10.  For a skill that keeps the [needs_confirmation] of [BaseSkill],
    the dispatch asks for a confirmation exactly when the permission level
    is [CRITICAL] and a callback is installed, and then once; a [READ_ONLY]
    or [SAFE_WRITE] skill is executed without a question, whatever its
    arguments. *)
Theorem inherited_confirmation_rule (self : ReActPlanner) (tc : ToolCall)
    (permission_level : BaseSkill.PermissionLevel) (description : string)
    (schema : json) (exec : kwargs -> trace -> outcome pyval * list SkillEffect)
    (results : list pyval) (w : trace) :
  dict_get (tc_name tc) (skills self)
    = Some (inherited_skill permission_level description schema exec) ->
  count is_confirm (snd (tool_call_step self tc results w))
    = count is_confirm w +
      match permission_level, _confirmation_callback self with
      | BaseSkill.CRITICAL, Some _ => 1
      | _, _ => 0
      end /\
  (permission_level <> BaseSkill.CRITICAL ->
   tool_call_step self tc results w =
     (Ret (results ++ [match fst (exec (tc_arguments tc) w) with
                       | Ret result => result_dict result
                       | Raise e => execution_failed e
                       end])%list,
      (w ++ map EvSkill (snd (exec (tc_arguments tc) w)))%list)).
Proof.
  intros Hskill.
  unfold tool_call_step, try_tool_call, confirmation_gate, run_skill.
  rewrite Hskill.
  cbn [needs_confirmation execute inherited_skill].
  unfold BaseSkill.needs_confirmation.
  destruct permission_level; cbn [BaseSkill.permission_eqb].
  - destruct (exec (tc_arguments tc) w) as [[r|e] eff]; split;
      [count_events | reflexivity | count_events | reflexivity].
  - destruct (exec (tc_arguments tc) w) as [[r|e] eff]; split;
      [count_events | reflexivity | count_events | reflexivity].
  - split; [|congruence].
    destruct (_confirmation_callback self) as [callback|].
    + destruct (callback w _) as [[|]|e];
        [destruct (exec (tc_arguments tc) _) as [[r|e] eff]| |]; count_events.
    + destruct (exec (tc_arguments tc) w) as [[r|e] eff]; count_events.
Qed.

Lemma inherited_confirmation_rule_witness :
  count is_confirm
    (snd (tool_call_step
            {| brain := Scenario.scripted Scenario.late_answer;
               memory := Scenario.no_memory;
               context := Scenario.no_context;
               skills :=
                 [("web_browser",
                   inherited_skill BaseSkill.READ_ONLY "web" JNull
                     (fun _ _ => (Ret (PyStr "opened"), [OtherEffect "browser"])))];
               _confirmation_callback := Some Scenario.approve |}
            (Scenario.call "call_7" "web_browser" [("action", JStr "open_url")])
            [] []))
  = 0.
Proof.
  apply (inherited_confirmation_rule
           {| brain := Scenario.scripted Scenario.late_answer;
              memory := Scenario.no_memory;
              context := Scenario.no_context;
              skills :=
                [("web_browser",
                  inherited_skill BaseSkill.READ_ONLY "web" JNull
                    (fun _ _ => (Ret (PyStr "opened"), [OtherEffect "browser"])))];
              _confirmation_callback := Some Scenario.approve |}
           (Scenario.call "call_7" "web_browser" [("action", JStr "open_url")])
           BaseSkill.READ_ONLY "web" JNull
           (fun _ _ => (Ret (PyStr "opened"), [OtherEffect "browser"]))
           [] [] eq_refl).
Defined.

(** X11.  What the planner records for a call of the terminal skill that
    reaches [execute] with a string for [action]: the skill returns the
    [SkillResult] of [skills/base_skill.py], which is not an instance of the
    planner's own [SkillResult], so the record is
    [{success: True, output: <the object>}] whatever the skill reports, and
    [json.dumps] does not accept it. *)
Theorem terminal_result_record (self : ReActPlanner) (t : Terminal.TerminalSkill)
    (tc : ToolCall) (a : string) (results : list pyval) (w w1 : trace) :
  dict_get (tc_name tc) (skills self) = Some (terminal_skill t) ->
  dict_has "self" (tc_arguments tc) = false ->
  dict_get "action" (tc_arguments tc) = Some (JStr a) ->
  confirmation_gate self (tc_name tc) (terminal_skill t) (tc_arguments tc) w
    = (Ret true, w1) ->
  exists success output error,
    fst (Terminal.execute t (tc_arguments tc) w1)
      = Ret (BaseSkillResult success output error) /\
    tool_call_step self tc results w
      = (Ret (results ++ [PyDict [("success", PyBool true);
                                  ("output", BaseSkillResult success output error)]])%list,
         (w1 ++ map EvSkill (snd (Terminal.execute t (tc_arguments tc) w1)))%list) /\
    dumpable (PyDict [("success", PyBool true);
                      ("output", BaseSkillResult success output error)]) = false.
Proof.
  intros Hskill Hself Haction Hgate.
  destruct (execute_returns_result t (tc_arguments tc) a w1 Hself Haction)
    as [[success [output [error Hexec]]] _].
  exists success, output, error. split; [exact Hexec|]. split; [|reflexivity].
  unfold tool_call_step, try_tool_call, run_skill.
  rewrite Hskill, Hgate. cbn [execute terminal_skill].
  destruct (Terminal.execute t (tc_arguments tc) w1) as [o effects].
  simpl in Hexec. now rewrite Hexec.
Qed.

Lemma terminal_result_record_witness :
  exists success output error,
    tool_call_step (Scenario.planner Scenario.late_answer (Some Scenario.approve))
      Scenario.format_call [] []
    = (Ret [PyDict [("success", PyBool true);
                    ("output", BaseSkillResult success output error)]],
       [EvConfirm (confirmation_prompt "terminal" (tc_arguments Scenario.format_call))])
    /\ success = false.
Proof.
  destruct (terminal_result_record
              (Scenario.planner Scenario.late_answer (Some Scenario.approve))
              Scenario.terminal Scenario.format_call "run_command" [] []
              [EvConfirm (confirmation_prompt "terminal"
                            (tc_arguments Scenario.format_call))]
              eq_refl eq_refl eq_refl eq_refl)
    as [success [output [error [H1 [H2 _]]]]].
  exists success, output, error. split.
  - exact H2.
  - vm_compute in H1. now injection H1 as <- _ _.
Defined.

End ConfirmationFacts.

(** ** The trace of a run *)

Section TraceFacts.

Import Planner.

Lemma tool_call_step_extends (self : ReActPlanner) (tc : ToolCall)
    (results : list pyval) (w : trace) :
  exists new,
    snd (tool_call_step self tc results w) = (w ++ new)%list /\
    forallb is_dispatch_event new = true.
Proof.
  unfold tool_call_step.
  destruct (dict_get (tc_name tc) (skills self)) as [skill|];
    [|exists []; simpl; now rewrite app_nil_r].
  unfold try_tool_call.
  pose proof (confirmation_gate_trace self (tc_name tc) skill (tc_arguments tc) w)
    as Hw.
  assert (Hskill_events : forall effects : list SkillEffect,
             forallb is_dispatch_event (map EvSkill effects) = true).
  { induction effects; simpl; auto. }
  destruct (confirmation_gate self (tc_name tc) skill (tc_arguments tc) w)
    as [[[|]|e] w1]; simpl in Hw.
  - unfold run_skill.
    destruct (execute skill (tc_arguments tc) w1) as [[result|e] effects];
      simpl; destruct Hw as [-> | ->].
    + exists (map EvSkill effects). auto.
    + eexists. rewrite <- app_assoc. split; [reflexivity|]. simpl. auto.
    + exists (map EvSkill effects). auto.
    + eexists. rewrite <- app_assoc. split; [reflexivity|]. simpl. auto.
  - simpl. destruct Hw as [-> | ->];
      [exists []; now rewrite app_nil_r | now eexists].
  - simpl. destruct Hw as [-> | ->];
      [exists []; now rewrite app_nil_r | now eexists].
Qed.

Lemma for_tool_calls_extends (self : ReActPlanner) (tool_calls : list ToolCall)
    (results : list pyval) (w : trace) :
  exists new,
    snd (for_tool_calls self tool_calls results w) = (w ++ new)%list /\
    forallb is_dispatch_event new = true.
Proof.
  revert results w. induction tool_calls as [|tc rest IH]; intros results w.
  - exists []. simpl. now rewrite app_nil_r.
  - simpl.
    destruct (tool_call_step_extends self tc results w) as [n1 [H1 Hn1]].
    destruct (tool_call_step self tc results w) as [[results'|e] w1];
      simpl in H1; subst w1.
    + destruct (IH results' (w ++ n1)%list) as [n2 [H2 Hn2]].
      exists (n1 ++ n2)%list. rewrite H2, <- app_assoc. split; [reflexivity|].
      rewrite forallb_app. now rewrite Hn1, Hn2.
    + now exists n1.
Qed.

Lemma append_tool_messages_extends (pairs : list (ToolCall * pyval))
    (ms : list Message) :
  exists tm, snd (append_tool_messages pairs ms) = (ms ++ tm)%list.
Proof.
  revert ms. induction pairs as [|[tc r] pairs IH]; intros ms; simpl.
  - exists []. now rewrite app_nil_r.
  - destruct (Json.dumps r) as [content|e].
    + destruct (IH (ms ++ [tool_message tc content])%list) as [tm Htm].
      eexists. rewrite Htm, <- app_assoc. reflexivity.
    + exists []. simpl. now rewrite app_nil_r.
Qed.

(** One turn: one reasoning call on the messages so far, then events of the
    dispatch; the messages only grow. *)
Lemma react_iteration_trace (self : ReActPlanner) (tools : list json)
    (st : LoopState) (w : trace) :
  let '(_, st', w') := react_iteration self tools st w in
  exists new suffix,
    w' = (w ++ EvChat (messages st) (tools_argument tools) :: new)%list /\
    forallb is_dispatch_event new = true /\
    messages st' = (messages st ++ suffix)%list.
Proof.
  unfold react_iteration. cbn [messages iteration final_response].
  assert (Hplain : forall text : string,
             exists new suffix,
               (w ++ [EvChat (messages st) (tools_argument tools)])%list
                 = (w ++ EvChat (messages st) (tools_argument tools) :: new)%list /\
               forallb is_dispatch_event new = true /\
               messages st = (messages st ++ suffix)%list).
  { intros _. exists [], []. now rewrite app_nil_r. }
  destruct (chat (brain self) w (messages st) (tools_argument tools))
    as [response|e]; [|apply (Hplain "")].
  destruct (resp_tool_calls response) as [[|tc tcs]|];
    try apply (Hplain "").
  unfold _execute_tool_calls.
  destruct (for_tool_calls_extends self (tc :: tcs) []
              (w ++ [EvChat (messages st) (tools_argument tools)])%list)
    as [new [Hnew Hd]].
  destruct (for_tool_calls self (tc :: tcs) [] _) as [[rs|e] w2];
    simpl in Hnew; subst w2.
  - destruct (append_tool_messages_extends (combine (tc :: tcs) rs)
                (messages st ++ [assistant_message response (tc :: tcs)])%list)
      as [tm Htm].
    destruct (append_tool_messages _ _) as [[e|] ms2]; simpl in Htm; subst ms2;
      exists new; eexists; cbn [set_final set_messages messages];
      rewrite <- !app_assoc; repeat split; assumption.
  - exists new, []. cbn [set_final messages]. rewrite <- app_assoc, app_nil_r.
    repeat split; assumption.
Qed.

Lemma dispatch_events_run (opening : list Message) (tools : list json)
    (new : list Event) :
  forallb is_dispatch_event new = true -> Forall (run_event opening tools) new.
Proof.
  induction new as [|e new IH]; simpl; [constructor|].
  intros [He Hnew]%andb_true_iff. constructor; [|auto].
  destruct e; try discriminate; exact I.
Qed.

Lemma react_loop_trace (opening : list Message) (self : ReActPlanner)
    (tools : list json) (fuel : nat) (st st' : LoopState) (w w' : trace) :
  (exists rest, messages st = (opening ++ rest)%list) ->
  react_loop fuel self tools st w = Some (st', w') ->
  exists run,
    w' = (w ++ run)%list /\ Forall (run_event opening tools) run /\
    count is_chat run = iteration st' - iteration st /\
    iteration st <= iteration st'.
Proof.
  revert st w. induction fuel as [|fuel IH]; intros st w Hopen; cbn [react_loop].
  - destruct (iteration st <? MAX_ITERATIONS)%nat; [discriminate|].
    intros [= <- <-]. exists []. rewrite app_nil_r, Nat.sub_diag.
    repeat split; [constructor | lia].
  - destruct (iteration st <? MAX_ITERATIONS)%nat.
    2:{ intros [= <- <-]. exists []. rewrite app_nil_r, Nat.sub_diag.
        repeat split; [constructor | lia]. }
    pose proof (react_iteration_trace self tools st w) as Ht.
    pose proof (react_iteration_counts self tools st w) as Hc.
    destruct (react_iteration self tools st w) as [[c st1] w1].
    destruct Ht as [new [suffix [-> [Hd Hms]]]]. destruct Hc as [Hi _].
    assert (Hturn : Forall (run_event opening tools)
                      (EvChat (messages st) (tools_argument tools) :: new)).
    { constructor; [split; [exact Hopen | reflexivity]|].
      now apply dispatch_events_run. }
    assert (Hcount : count is_chat
                       (EvChat (messages st) (tools_argument tools) :: new) = 1).
    { unfold count. simpl. f_equal.
      clear - Hd. induction new as [|e new IHn]; [reflexivity|].
      simpl in Hd. apply andb_true_iff in Hd as [He Hn].
      destruct e; try discriminate; simpl; auto. }
    destruct c.
    + intros Hloop.
      assert (Hopen1 : exists rest, messages st1 = (opening ++ rest)%list).
      { destruct Hopen as [rest Hrest]. exists (rest ++ suffix)%list.
        now rewrite Hms, Hrest, <- app_assoc. }
      destruct (IH st1 _ Hopen1 Hloop) as [run [-> [Hrun [Hn Hle]]]].
      eexists. rewrite <- app_assoc. split; [reflexivity|].
      split; [apply Forall_app; split; assumption|].
      rewrite count_app, Hcount, Hn. lia.
    + intros [= <- <-]. eexists. split; [reflexivity|].
      split; [exact Hturn|]. rewrite Hcount. lia.
Qed.

Lemma react_loop_bound (fuel : nat) (self : ReActPlanner) (tools : list json)
    (st st' : LoopState) (w w' : trace) :
  react_loop fuel self tools st w = Some (st', w') ->
  iteration st <= MAX_ITERATIONS -> iteration st' <= MAX_ITERATIONS.
Proof.
  revert st w. induction fuel as [|fuel IH]; intros st w; cbn [react_loop].
  - destruct (iteration st <? MAX_ITERATIONS)%nat; [discriminate|].
    now intros [= <- _].
  - destruct (iteration st <? MAX_ITERATIONS)%nat eqn:Hlt;
      [|now intros [= <- _]].
    apply Nat.ltb_lt in Hlt.
    pose proof (react_iteration_counts self tools st w) as Hc.
    destruct (react_iteration self tools st w) as [[c st1] w1].
    destruct Hc as [Hi _]. destruct c.
    + intros Hloop _. apply (IH st1 w1 Hloop). lia.
    + intros [= <- _] _. lia.
Qed.

(** X12.  When the loop ends, its counter has gone up by exactly the number
    of reasoning calls it made, and it has not passed [MAX_ITERATIONS]. *)
Theorem iterations_are_reasoning_calls (fuel : nat) (self : ReActPlanner)
    (tools : list json) (st st' : LoopState) (w w' : trace) :
  react_loop fuel self tools st w = Some (st', w') ->
  count is_chat w' = count is_chat w + (iteration st' - iteration st) /\
  iteration st <= iteration st' /\
  (iteration st <= MAX_ITERATIONS -> iteration st' <= MAX_ITERATIONS).
Proof.
  intros Hloop.
  split; [|split; [|now apply react_loop_bound with fuel self tools w w']].
  - destruct (react_loop_trace (messages st) self tools fuel st st' w w'
                (ex_intro _ [] (eq_sym (app_nil_r _))) Hloop)
      as [run [-> [_ [Hn _]]]].
    now rewrite count_app, Hn.
  - destruct (react_loop_trace (messages st) self tools fuel st st' w w'
                (ex_intro _ [] (eq_sym (app_nil_r _))) Hloop)
      as [run [_ [_ [_ Hle]]]].
    exact Hle.
Qed.

Lemma iterations_are_reasoning_calls_witness :
  count is_chat [EvChat [] None] = 0 + (1 - 0).
Proof.
  apply (iterations_are_reasoning_calls 1
           (Scenario.planner (Scenario.down "timeout") None) []
           {| iteration := 0; messages := []; final_response := "" |}
           {| iteration := 1; messages := [];
              final_response := "抱歉，处理请求时出现错误: timeout" |}
           [] [EvChat [] None] eq_refl).
Defined.

Lemma plan_and_execute_trace (fuel : nat) (self : ReActPlanner)
    (user_input final : string) (w w' : trace) :
  plan_and_execute fuel self user_input w = Some (final, w') ->
  let w0 := (w ++ [EvMemory "user" user_input])%list in
  let opening :=
    system_message (_build_system_prompt self w0)
      :: get_recent_context (memory self) w0 in
  exists run,
    w' = (w0 ++ run ++ [EvMemory "assistant" final])%list /\
    Forall (run_event opening (_get_tools_schema self)) run.
Proof.
  intros H w0 opening. unfold plan_and_execute, initial in H.
  fold w0 in H. fold opening in H.
  destruct (react_loop fuel self (_get_tools_schema self) _ w0)
    as [[st' w1]|] eqn:Hloop; [|discriminate].
  injection H as <- <-.
  assert (Hopen : exists rest,
             messages {| iteration := 0; messages := opening; final_response := "" |}
               = (opening ++ rest)%list).
  { exists []. cbn [messages]. now rewrite app_nil_r. }
  destruct (react_loop_trace opening self (_get_tools_schema self) fuel _ st' w0 w1
              Hopen Hloop)
    as [run [-> [Hrun _]]].
  exists run. now rewrite <- app_assoc.
Qed.

(** X13.  Every reasoning call of a run is made on messages that begin with
    the system message and the recent context read when the run started, in
    that order, and every call is passed the same tools: the descriptors of
    the registry, or [None] when there is none. *)
Theorem reasoning_calls_share_opening (fuel : nat) (self : ReActPlanner)
    (user_input final : string) (w w' : trace) :
  plan_and_execute fuel self user_input w = Some (final, w') ->
  let w0 := (w ++ [EvMemory "user" user_input])%list in
  let opening :=
    system_message (_build_system_prompt self w0)
      :: get_recent_context (memory self) w0 in
  exists run,
    w' = (w0 ++ run ++ [EvMemory "assistant" final])%list /\
    forall messages tools_arg,
      In (EvChat messages tools_arg) run ->
      (exists rest, messages = (opening ++ rest)%list) /\
      tools_arg = match _get_tools_schema self with
                  | [] => None
                  | tools => Some tools
                  end.
Proof.
  intros H w0 opening.
  destruct (plan_and_execute_trace fuel self user_input final w w' H)
    as [run [Hw Hrun]].
  exists run. split; [exact Hw|].
  intros messages tools_arg Hin.
  rewrite Forall_forall in Hrun. destruct (Hrun _ Hin) as [H1 H2].
  split; [exact H1|]. rewrite H2. unfold tools_argument.
  now destruct (_get_tools_schema self).
Qed.

Lemma reasoning_calls_share_opening_witness :
  exists run,
    [EvMemory "user" "hi";
     EvChat [system_message
               (_build_system_prompt
                  (Scenario.planner (Scenario.down "timeout") None)
                  [EvMemory "user" "hi"])]
       (Some [Terminal.get_schema]);
     EvMemory "assistant" "抱歉，处理请求时出现错误: timeout"]
    = ([EvMemory "user" "hi"] ++ run
         ++ [EvMemory "assistant" "抱歉，处理请求时出现错误: timeout"])%list.
Proof.
  destruct (reasoning_calls_share_opening 10
              (Scenario.planner (Scenario.down "timeout") None) "hi"
              "抱歉，处理请求时出现错误: timeout" []
              [EvMemory "user" "hi";
               EvChat [system_message
                         (_build_system_prompt
                            (Scenario.planner (Scenario.down "timeout") None)
                            [EvMemory "user" "hi"])]
                 (Some [Terminal.get_schema]);
               EvMemory "assistant" "抱歉，处理请求时出现错误: timeout"]
              eq_refl)
    as [run [Hrun _]].
  exists run. exact Hrun.
Defined.

(** X14.  A run writes to the memory exactly twice: the request of the user
    before anything else, and, as its last event, the very text that it
    returns, as the answer of the assistant. *)
Theorem run_writes_memory_twice (fuel : nat) (self : ReActPlanner)
    (user_input final : string) (w w' : trace) :
  plan_and_execute fuel self user_input w = Some (final, w') ->
  exists run,
    w' = (w ++ EvMemory "user" user_input :: run
            ++ [EvMemory "assistant" final])%list /\
    count is_memory run = 0 /\
    count is_memory w' = count is_memory w + 2.
Proof.
  intros H.
  destruct (plan_and_execute_trace fuel self user_input final w w' H)
    as [run [Hw Hrun]].
  assert (Hnone : count is_memory run = 0).
  { clear Hw. unfold count. induction Hrun as [|e run He _ IH]; [reflexivity|].
    simpl. destruct e; simpl; try exact IH. contradiction. }
  exists run. rewrite <- app_assoc in Hw. simpl in Hw.
  split; [exact Hw|]. split; [exact Hnone|].
  rewrite Hw.
  change (EvMemory "user" user_input :: run ++ [EvMemory "assistant" final])%list
    with ([EvMemory "user" user_input] ++ run ++ [EvMemory "assistant" final])%list.
  rewrite !count_app, Hnone. unfold count. simpl. lia.
Qed.

Lemma run_writes_memory_twice_witness :
  exists run,
    [EvMemory "user" "hi";
     EvChat [system_message
               (_build_system_prompt
                  (Scenario.planner (Scenario.down "timeout") None)
                  [EvMemory "user" "hi"])]
       (Some [Terminal.get_schema]);
     EvMemory "assistant" "抱歉，处理请求时出现错误: timeout"]
    = ([] ++ EvMemory "user" "hi" :: run
         ++ [EvMemory "assistant" "抱歉，处理请求时出现错误: timeout"])%list.
Proof.
  destruct (run_writes_memory_twice 10
              (Scenario.planner (Scenario.down "timeout") None) "hi"
              "抱歉，处理请求时出现错误: timeout" []
              [EvMemory "user" "hi";
               EvChat [system_message
                         (_build_system_prompt
                            (Scenario.planner (Scenario.down "timeout") None)
                            [EvMemory "user" "hi"])]
                 (Some [Terminal.get_schema]);
               EvMemory "assistant" "抱歉，处理请求时出现错误: timeout"]
              eq_refl)
    as [run [Hrun _]].
  exists run. exact Hrun.
Defined.

End TraceFacts.

(** ** The cap, and results that cannot be serialized *)

Section CapFacts.

Import Planner.

Lemma unknown_batch (self : ReActPlanner) (tcs : list ToolCall) :
  Forall (fun c => dict_get (tc_name c) (skills self) = None) tcs ->
  forall results w,
    for_tool_calls self tcs results w
      = (Ret (results ++ map (fun c => unknown_skill (tc_name c)) tcs)%list, w).
Proof.
  induction 1 as [|tc tcs Htc _ IH]; intros results w; simpl.
  - now rewrite app_nil_r.
  - unfold tool_call_step. rewrite Htc, IH. now rewrite <- app_assoc.
Qed.

Lemma unknown_results_dumpable (tcs : list ToolCall) :
  forallb dumpable (map (fun c => unknown_skill (tc_name c)) tcs) = true.
Proof. induction tcs as [|tc tcs IH]; simpl; [reflexivity | exact IH]. Qed.

Lemma cap_is_reached (self : ReActPlanner) (tools : list json) :
  (forall w1 messages tools_arg,
     exists response tc tcs,
       chat (brain self) w1 messages tools_arg = Ret response /\
       resp_tool_calls response = Some (tc :: tcs) /\
       Forall (fun c => dict_get (tc_name c) (skills self) = None) (tc :: tcs)) ->
  forall fuel st w,
    iteration st <= MAX_ITERATIONS ->
    MAX_ITERATIONS - iteration st <= fuel ->
    exists st' w',
      react_loop fuel self tools st w = Some (st', w') /\
      iteration st' = MAX_ITERATIONS /\
      count is_chat w' = count is_chat w + (MAX_ITERATIONS - iteration st).
Proof.
  intros Hbrain. induction fuel as [|fuel IH]; intros st w Hle Hfuel;
    cbn [react_loop].
  - destruct (iteration st <? MAX_ITERATIONS)%nat eqn:Hlt.
    + apply Nat.ltb_lt in Hlt. lia.
    + apply Nat.ltb_ge in Hlt. exists st, w. repeat split; lia.
  - destruct (iteration st <? MAX_ITERATIONS)%nat eqn:Hlt.
    2:{ apply Nat.ltb_ge in Hlt. exists st, w. repeat split; lia. }
    apply Nat.ltb_lt in Hlt.
    destruct (Hbrain w (messages st) (tools_argument tools))
      as [response [tc [tcs [Hchat [Htcs Hunknown]]]]].
    destruct (iteration_continues self tools st w
                (w ++ [EvChat (messages st) (tools_argument tools)])%list
                response (tc :: tcs)
                (map (fun c => unknown_skill (tc_name c)) (tc :: tcs)))
      as [tm [Hit _]]; try assumption.
    + discriminate.
    + unfold _execute_tool_calls. now rewrite unknown_batch.
    + apply unknown_results_dumpable.
    + pose proof (react_iteration_counts self tools st w) as Hc.
      rewrite Hit in *. destruct Hc as [_ Hc].
      destruct (IH {| iteration := iteration st + 1;
                      messages := (messages st
                                     ++ assistant_message response (tc :: tcs) :: tm)%list;
                      final_response := final_response st |}
                  (w ++ [EvChat (messages st) (tools_argument tools)])%list)
        as [st' [w' [Hloop [Hi Hn]]]]; cbn [iteration]; try lia.
      exists st', w'. split; [exact Hloop|]. split; [exact Hi|].
      cbn [iteration] in Hn. lia.
Qed.

(** X15.  If the reasoning client answers every call with tool calls that
    all name skills missing from the registry, the run makes exactly
    [MAX_ITERATIONS] reasoning calls and returns the text of the cap. *)
Theorem unknown_tools_hit_cap (fuel : nat) (self : ReActPlanner)
    (user_input : string) (w : trace) :
  (forall w1 messages tools_arg,
     exists response tc tcs,
       chat (brain self) w1 messages tools_arg = Ret response /\
       resp_tool_calls response = Some (tc :: tcs) /\
       Forall (fun c => dict_get (tc_name c) (skills self) = None) (tc :: tcs)) ->
  MAX_ITERATIONS <= fuel ->
  exists w',
    plan_and_execute fuel self user_input w
      = Some ("抱歉，任务过于复杂，无法在限定步骤内完成。", w') /\
    count is_chat w' = count is_chat w + MAX_ITERATIONS.
Proof.
  intros Hbrain Hfuel. unfold plan_and_execute, initial.
  destruct (cap_is_reached self (_get_tools_schema self) Hbrain fuel
              {| iteration := 0;
                 messages :=
                   system_message
                     (_build_system_prompt self (w ++ [EvMemory "user" user_input])%list)
                   :: get_recent_context (memory self)
                        (w ++ [EvMemory "user" user_input])%list;
                 final_response := "" |}
              (w ++ [EvMemory "user" user_input])%list)
    as [st' [w' [Hloop [Hi Hn]]]]; cbn [iteration]; try lia.
  rewrite Hloop. unfold conclude. rewrite Hi, Nat.leb_refl.
  eexists. split; [reflexivity|].
  cbn [iteration] in Hn. rewrite Nat.sub_0_r in Hn.
  rewrite count_app in Hn. rewrite count_app, Hn.
  unfold count. cbn [filter is_chat length]. lia.
Qed.

Lemma unknown_tools_hit_cap_witness :
  exists w',
    plan_and_execute 10
      (Scenario.planner (fun _ => Ret (Scenario.wants [Scenario.unknown_call])) None)
      "hi" []
      = Some ("抱歉，任务过于复杂，无法在限定步骤内完成。", w') /\
    count is_chat w' = 0 + MAX_ITERATIONS.
Proof.
  apply (unknown_tools_hit_cap 10
           (Scenario.planner (fun _ => Ret (Scenario.wants [Scenario.unknown_call])) None)
           "hi" []).
  - intros w1 messages tools_arg.
    exists (Scenario.wants [Scenario.unknown_call]), Scenario.unknown_call, [].
    split; [reflexivity|]. split; [reflexivity|].
    constructor; [reflexivity | constructor].
  - unfold MAX_ITERATIONS. lia.
Defined.

(** The only exception of the encoder. *)
Lemma to_json_raise :
  forall (v : pyval) (e : exn),
    Json.to_json v = Raise e -> e = Json.not_serializable "SkillResult".
Proof.
  fix IH 1. intros v e.
  destruct v as [|b|z|s|l|d|s0 o er|s0 o er nc cm]; simpl; try discriminate.
  - induction l as [|x l IHl]; simpl; [discriminate|].
    destruct (Json.to_json x) as [j|e0] eqn:Hx.
    + revert IHl. match goal with |- context [?items l] =>
        destruct (items l) as [js|e1] end; [discriminate|].
      intros IHl H. apply IHl. exact H.
    + intros [= <-]. exact (IH x e0 Hx).
  - induction d as [|[k x] d IHd]; simpl; [discriminate|].
    destruct (Json.to_json x) as [j|e0] eqn:Hx.
    + revert IHd. match goal with |- context [?items d] =>
        destruct (items d) as [js|e1] end; [discriminate|].
      intros IHd H. apply IHd. exact H.
    + intros [= <-]. exact (IH x e0 Hx).
  - now intros [= <-].
  - now intros [= <-].
Qed.

Lemma dumps_raise (v : pyval) (e : exn) :
  Json.dumps v = Raise e -> e = Json.not_serializable "SkillResult".
Proof.
  unfold Json.dumps. destruct (Json.to_json v) eqn:Hv; [discriminate|].
  intros [= <-]. now apply to_json_raise with v.
Qed.

Lemma append_tool_messages_stops (tcs : list ToolCall) (rs : list pyval)
    (ms : list Message) :
  length rs = length tcs ->
  forallb dumpable rs = false ->
  exists k tool_msgs,
    k < length tcs /\ length tool_msgs = k /\
    forallb dumpable (firstn k rs) = true /\
    (exists r, nth_error rs k = Some r /\ dumpable r = false) /\
    map msg_tool_call_id tool_msgs
      = map (fun c => Some (tc_id c)) (firstn k tcs) /\
    append_tool_messages (combine tcs rs) ms
      = (Some (Json.not_serializable "SkillResult"), (ms ++ tool_msgs)%list).
Proof.
  revert rs ms. induction tcs as [|tc tcs IH]; intros rs ms Hlen Hd.
  - destruct rs; [discriminate | discriminate].
  - destruct rs as [|r rs]; [discriminate|].
    simpl in Hlen, Hd. simpl.
    destruct (Json.dumps r) as [content|e] eqn:Hdump.
    + assert (Hr : dumpable r = true) by (unfold dumpable; now rewrite Hdump).
      rewrite Hr in Hd. simpl in Hd.
      destruct (IH rs (ms ++ [tool_message tc content])%list)
        as [k [tm [Hk [Hlk [Hok [Hbad [Hids Happ]]]]]]]; [lia | exact Hd |].
      exists (S k), (tool_message tc content :: tm).
      rewrite Happ, <- app_assoc. simpl. rewrite Hr, Hok, Hids, Hlk.
      repeat split; try lia. exact Hbad.
    + exists 0, []. rewrite app_nil_r, (dumps_raise r e Hdump). simpl.
      repeat split; try lia.
      exists r. split; [reflexivity|]. unfold dumpable. now rewrite Hdump.
Qed.

(** X16.  When a result of a batch cannot be serialized, the turn ends the
    loop: after the assistant message, tool messages are appended only for
    the calls before the first such result, each with the id of its call,
    and the final response is the apology for [Object of type SkillResult is
    not JSON serializable]. *)
Theorem unserializable_result_ends_loop (self : ReActPlanner) (tools : list json)
    (st : LoopState) (w w' : trace) (response : Response)
    (tcs : list ToolCall) (rs : list pyval) :
  chat (brain self) w (messages st) (tools_argument tools) = Ret response ->
  resp_tool_calls response = Some tcs ->
  tcs <> [] ->
  _execute_tool_calls self tcs
    (w ++ [EvChat (messages st) (tools_argument tools)])%list = (Ret rs, w') ->
  forallb dumpable rs = false ->
  exists k tool_msgs,
    k < length tcs /\ length tool_msgs = k /\
    forallb dumpable (firstn k rs) = true /\
    (exists r, nth_error rs k = Some r /\ dumpable r = false) /\
    map msg_tool_call_id tool_msgs
      = map (fun c => Some (tc_id c)) (firstn k tcs) /\
    react_iteration self tools st w =
      (Break,
       {| iteration := iteration st + 1;
          messages := (messages st ++ assistant_message response tcs :: tool_msgs)%list;
          final_response :=
            "抱歉，处理请求时出现错误: Object of type SkillResult is not JSON serializable" |},
       w').
Proof.
  intros Hchat Htcs Hne Hexec Hd.
  destruct (execute_tool_calls_returns self tcs
              (w ++ [EvChat (messages st) (tools_argument tools)])%list)
    as [rs0 [w0 [H0 [Hlen _]]]].
  rewrite Hexec in H0. injection H0 as <- <-.
  destruct (append_tool_messages_stops tcs rs
              (messages st ++ [assistant_message response tcs])%list Hlen Hd)
    as [k [tm [Hk [Hlk [Hok [Hbad [Hids Happ]]]]]]].
  exists k, tm. repeat split; try assumption.
  unfold react_iteration. cbn [messages iteration final_response].
  rewrite Hchat, Htcs.
  destruct tcs as [|tc tcs]; [contradiction|].
  rewrite Hexec, Happ. unfold set_final, set_messages.
  cbn [messages iteration final_response].
  now rewrite <- app_assoc.
Qed.

Lemma unserializable_result_ends_loop_witness :
  exists k tool_msgs,
    k < 2 /\ length tool_msgs = k /\
    react_iteration
      (Scenario.planner
         (fun _ => Ret (Scenario.wants [Scenario.unknown_call; Scenario.echo_call]))
         None)
      [] {| iteration := 0; messages := []; final_response := "" |} []
    = (Break,
       {| iteration := 0 + 1;
          messages :=
            ([] ++ assistant_message
                     (Scenario.wants [Scenario.unknown_call; Scenario.echo_call])
                     [Scenario.unknown_call; Scenario.echo_call]
                :: tool_msgs)%list;
          final_response :=
            "抱歉，处理请求时出现错误: Object of type SkillResult is not JSON serializable" |},
       [EvChat [] None; EvSkill (Spawn "echo hi" JNull (Some "/bin/bash"))]).
Proof.
  destruct (unserializable_result_ends_loop
              (Scenario.planner
                 (fun _ => Ret (Scenario.wants [Scenario.unknown_call; Scenario.echo_call]))
                 None)
              [] {| iteration := 0; messages := []; final_response := "" |} []
              [EvChat [] None; EvSkill (Spawn "echo hi" JNull (Some "/bin/bash"))]
              (Scenario.wants [Scenario.unknown_call; Scenario.echo_call])
              [Scenario.unknown_call; Scenario.echo_call]
              [unknown_skill "teleport";
               PyDict [("success", PyBool true);
                       ("output",
                        BaseSkillResult true
                          (PyDict [("returncode", PyInt 0); ("stdout", PyStr "hi");
                                   ("stderr", PyStr "")]) None)]]
              eq_refl eq_refl)
    as [k [tm [Hk [Hlk [_ [_ [_ Hit]]]]]]];
    [discriminate | reflexivity | reflexivity |].
  exists k, tm. repeat split; assumption.
Defined.

End CapFacts.

(** ** The system prompt, the plain answer and [to_dict] *)

Section PromptFacts.

Import Planner.





(** X18.  The two entry points treat a failure of the reasoning client
    differently.  When the client raises on every call, [plan_and_execute]
    catches the exception, stores the apology as the answer of the assistant
    and returns it, while [simple_respond] lets the exception through after
    its single call, made without tools, and leaves the request of the user
    in the memory without an answer. *)
Theorem client_failure_two_ways (fuel : nat) (self : ReActPlanner)
    (get_context_with_memory : trace -> string -> list Message)
    (user_input : string) (w : trace) (e : exn) :
  (forall w1 messages tools_arg,
     chat (brain self) w1 messages tools_arg = Raise e) ->
  let w0 := (w ++ [EvMemory "user" user_input])%list in
  (exists messages,
     plan_and_execute (S fuel) self user_input w
       = Some ("抱歉，处理请求时出现错误: " ++ exn_str e,
               (w0 ++ [EvChat messages (tools_argument (_get_tools_schema self));
                       EvMemory "assistant"
                         ("抱歉，处理请求时出现错误: " ++ exn_str e)])%list)) /\
  simple_respond self get_context_with_memory user_input w
    = (Raise e,
       (w0 ++ [EvChat (system_message (get_system_prompt (brain self))
                         :: get_context_with_memory w0 user_input) None])%list).
Proof.
  intros Hdown w0. split.
  - eexists. unfold plan_and_execute, initial. fold w0.
    cbn [react_loop iteration].
    change (0 <? MAX_ITERATIONS)%nat with true. cbv iota.
    unfold react_iteration. cbn [messages iteration final_response].
    rewrite Hdown. unfold conclude, set_final. cbn [iteration final_response].
    change (MAX_ITERATIONS <=? 0 + 1)%nat with false. cbv iota.
    unfold apology. now rewrite <- app_assoc.
  - unfold simple_respond. fold w0. now rewrite Hdown.
Qed.

Lemma client_failure_two_ways_witness :
  simple_respond (Scenario.planner (Scenario.down "timeout") None)
    (fun _ _ => []) "hi" []
  = (Raise (Exception "APIConnectionError" "timeout"),
     ([EvMemory "user" "hi"]
        ++ [EvChat [system_message "You are JARVIS."] None])%list).
Proof.
  apply (client_failure_two_ways 9 (Scenario.planner (Scenario.down "timeout") None)
           (fun _ _ => []) "hi" [] (Exception "APIConnectionError" "timeout")).
  reflexivity.
Defined.

(** X19.  [SkillResult.to_dict] gives a dictionary with the keys [success],
    [output] and [error], in that order, from which the three fields are
    read back; [json.dumps] accepts it exactly when it accepts the output,
    while it never accepts the [SkillResult] itself. *)
Theorem to_dict_round_trip (success : bool) (output : pyval)
    (error : option string) :
  exists d,
    BaseSkill.to_dict (BaseSkill.SkillResult success output error) = Some (PyDict d) /\
    map fst d = ["success"; "output"; "error"] /\
    dict_get "success" d = Some (PyBool success) /\
    dict_get "output" d = Some output /\
    dict_get "error" d
      = Some (match error with Some text => PyStr text | None => PyNone end) /\
    dumpable (PyDict d) = dumpable output /\
    dumpable (BaseSkill.SkillResult success output error) = false.
Proof.
  eexists. split; [reflexivity|]. repeat split.
  unfold dumpable, Json.dumps. simpl.
  destruct (Json.to_json output); destruct error; reflexivity.
Qed.

End PromptFacts.

(** ** The reasoning client *)

Section ClientFacts.

Lemma convert_keeps_calls (loads : string -> outcome kwargs)
    (calls : list LLM.ApiToolCall) (tool_calls : list ToolCall) :
  LLM.convert loads calls = Ret tool_calls ->
  map tc_id tool_calls = map LLM.api_id calls /\
  map tc_name tool_calls = map LLM.api_name calls /\
  map (fun c => Ret (tc_arguments c)) tool_calls
    = map (fun c => loads (LLM.api_arguments c)) calls.
Proof.
  revert tool_calls. induction calls as [|c calls IH]; intros tool_calls; simpl.
  - now intros [= <-].
  - destruct (loads (LLM.api_arguments c)) as [arguments|e] eqn:Hc; [|discriminate].
    destruct (LLM.convert loads calls) as [converted|e]; [|discriminate].
    intros [= <-]. destruct (IH converted eq_refl) as [H1 [H2 H3]].
    simpl. now rewrite H1, H2, H3.
Qed.

(** X20.  A response of [LLMBrain.chat] is made from the first choice alone:
    its content, or the empty text when there is none, and its tool calls in
    their order, each with its id, its name and its arguments parsed; the
    tool calls are [None] when the message has none or an empty list, and
    never an empty list. *)
Theorem chat_keeps_tool_calls (self : LLM.LLMBrain) (messages : list Message)
    (tools : option (list json)) (temperature : option QArith_base.Q)
    (max_tokens : option Z) (w : trace) (response : Response) :
  LLM.chat self messages tools temperature max_tokens w = Ret response ->
  exists choice rest,
    LLM.create self w (LLM.request self messages tools temperature max_tokens)
      = Ret (choice :: rest) /\
    resp_content response
      = match LLM.api_content (LLM.choice_message choice) with
        | Some text => text
        | None => ""
        end /\
    resp_finish_reason response = LLM.choice_finish_reason choice /\
    match resp_tool_calls response with
    | None =>
        LLM.api_tool_calls (LLM.choice_message choice) = None \/
        LLM.api_tool_calls (LLM.choice_message choice) = Some []
    | Some tool_calls =>
        tool_calls <> [] /\
        exists calls,
          LLM.api_tool_calls (LLM.choice_message choice) = Some calls /\
          map tc_id tool_calls = map LLM.api_id calls /\
          map tc_name tool_calls = map LLM.api_name calls /\
          map (fun c => Ret (tc_arguments c)) tool_calls
            = map (fun c => LLM.loads self (LLM.api_arguments c)) calls
    end.
Proof.
  unfold LLM.chat.
  destruct (LLM.create self w _) as [[|choice rest]|e]; try discriminate.
  cbv zeta.
  destruct (LLM.api_tool_calls (LLM.choice_message choice)) as [[|tc tcs]|] eqn:Hcalls.
  - intros [= <-]. exists choice, rest. repeat split. right. exact Hcalls.
  - destruct (LLM.convert (LLM.loads self) (tc :: tcs)) as [tool_calls|e] eqn:Hconv;
      [|discriminate].
    intros [= <-]. exists choice, rest. repeat split.
    + intros ->. apply convert_keeps_calls in Hconv as [H _]. discriminate H.
    + exists (tc :: tcs). split; [exact Hcalls|].
      now apply convert_keeps_calls.
  - intros [= <-]. exists choice, rest. repeat split. left. exact Hcalls.
Qed.

Lemma convert_first_failure (loads : string -> outcome kwargs)
    (pre post : list LLM.ApiToolCall) (bad : LLM.ApiToolCall) (e : exn) :
  Forall (fun c => exists a, loads (LLM.api_arguments c) = Ret a) pre ->
  loads (LLM.api_arguments bad) = Raise e ->
  LLM.convert loads (pre ++ bad :: post) = Raise e.
Proof.
  intros Hpre Hbad. induction Hpre as [|c pre [a Ha] _ IH]; simpl.
  - now rewrite Hbad.
  - now rewrite Ha, IH.
Qed.

(** X21.  One tool call whose arguments [json.loads] rejects makes
    [LLMBrain.chat] raise, whatever the other calls of the response; in the
    planner the turn then ends the loop with the apology for that exception:
    no call of the response is dispatched and no message is appended. *)
Theorem malformed_arguments_discard_response (planner : Planner.ReActPlanner)
    (self : LLM.LLMBrain) (tools : list json) (st : Planner.LoopState)
    (w : trace) (choice : LLM.ApiChoice) (rest : list LLM.ApiChoice)
    (pre post : list LLM.ApiToolCall) (bad : LLM.ApiToolCall) (e : exn) :
  Planner.brain planner = LLM.brain self ->
  LLM.create self w
    (LLM.request self (Planner.messages st) (Planner.tools_argument tools) None None)
    = Ret (choice :: rest) ->
  LLM.api_tool_calls (LLM.choice_message choice) = Some (pre ++ bad :: post)%list ->
  Forall (fun c => exists a, LLM.loads self (LLM.api_arguments c) = Ret a) pre ->
  LLM.loads self (LLM.api_arguments bad) = Raise e ->
  LLM.chat self (Planner.messages st) (Planner.tools_argument tools) None None w
    = Raise e /\
  Planner.react_iteration planner tools st w =
    (Planner.Break,
     {| Planner.iteration := Planner.iteration st + 1;
        Planner.messages := Planner.messages st;
        Planner.final_response := "抱歉，处理请求时出现错误: " ++ exn_str e |},
     (w ++ [EvChat (Planner.messages st) (Planner.tools_argument tools)])%list).
Proof.
  intros Hbrain Hcreate Hcalls Hpre Hbad.
  assert (Hchat : LLM.chat self (Planner.messages st)
                    (Planner.tools_argument tools) None None w = Raise e).
  { unfold LLM.chat. rewrite Hcreate. cbv zeta. rewrite Hcalls.
    pose proof (convert_first_failure (LLM.loads self) pre post bad e Hpre Hbad)
      as Hconv.
    destruct (pre ++ bad :: post)%list as [|tc tcs] eqn:Happ.
    - destruct pre; discriminate.
    - now rewrite Hconv. }
  split; [exact Hchat|].
  unfold Planner.react_iteration.
  cbn [Planner.messages Planner.iteration Planner.final_response].
  rewrite Hbrain. cbn [Planner.chat LLM.brain]. now rewrite Hchat.
Qed.

Lemma chat_keeps_tool_calls_witness :
  exists choice rest,
    LLM.create
      (ClientScenario.answering
         [ClientScenario.choice_with
            [ClientScenario.api_call "call_a" "teleport" "{}"]])
      []
      (LLM.request
         (ClientScenario.answering
            [ClientScenario.choice_with
               [ClientScenario.api_call "call_a" "teleport" "{}"]])
         [] None None None)
    = Ret (choice :: rest).
Proof.
  destruct (chat_keeps_tool_calls
              (ClientScenario.answering
                 [ClientScenario.choice_with
                    [ClientScenario.api_call "call_a" "teleport" "{}"]])
              [] None None None []
              {| resp_content := "";
                 resp_tool_calls :=
                   Some [{| tc_id := "call_a"; tc_name := "teleport";
                            tc_arguments := [] |}];
                 resp_finish_reason := "tool_calls" |}
              eq_refl)
    as [choice [rest [H _]]].
  exists choice, rest. exact H.
Defined.

Lemma malformed_arguments_discard_response_witness :
  Planner.react_iteration
    (ClientScenario.planner_with
       (ClientScenario.answering
          [ClientScenario.choice_with
             [ClientScenario.api_call "call_a" "teleport" "{}";
              ClientScenario.api_call "call_b" "terminal" "{oops"]]))
    [] {| Planner.iteration := 0; Planner.messages := [];
          Planner.final_response := "" |} []
  = (Planner.Break,
     {| Planner.iteration := 0 + 1;
        Planner.messages := [];
        Planner.final_response :=
          "抱歉，处理请求时出现错误: "
            ++ "Expecting value: line 1 column 1 (char 0)" |},
     ([] ++ [EvChat [] None])%list).
Proof.
  apply (malformed_arguments_discard_response
           (ClientScenario.planner_with
              (ClientScenario.answering
                 [ClientScenario.choice_with
                    [ClientScenario.api_call "call_a" "teleport" "{}";
                     ClientScenario.api_call "call_b" "terminal" "{oops"]]))
           (ClientScenario.answering
              [ClientScenario.choice_with
                 [ClientScenario.api_call "call_a" "teleport" "{}";
                  ClientScenario.api_call "call_b" "terminal" "{oops"]])
           [] {| Planner.iteration := 0; Planner.messages := [];
                 Planner.final_response := "" |} []
           (ClientScenario.choice_with
              [ClientScenario.api_call "call_a" "teleport" "{}";
               ClientScenario.api_call "call_b" "terminal" "{oops"])
           []
           [ClientScenario.api_call "call_a" "teleport" "{}"] []
           (ClientScenario.api_call "call_b" "terminal" "{oops")
           (Exception "JSONDecodeError" "Expecting value: line 1 column 1 (char 0)")
           eq_refl eq_refl eq_refl).
  - constructor; [now exists [] | constructor].
  - reflexivity.
Defined.

(** X22.  The request that [chat] sends holds the model of the client and
    the messages as given.  The tools are sent, with [tool_choice] set to
    [auto], exactly when a non-empty list of tools is given; for [None] and
    for the empty list both keys are left out.  A temperature or a number of
    tokens that is missing or zero is replaced by the configured one, any
    other is sent as given, so that a zero is sent only if it is configured.
    This request is the one the client is called with: when the client
    raises on it, so does [chat]. *)
Theorem request_defaults (self : LLM.LLMBrain) (messages : list Message)
    (tools : option (list json)) (temperature : option QArith_base.Q)
    (max_tokens : option Z) :
  let r := LLM.request self messages tools temperature max_tokens in
  let zero := QArith_base.Qmake 0 1 in
  LLM.req_model r = LLM._model self /\
  LLM.req_messages r = messages /\
  (tools = None \/ tools = Some [] ->
   LLM.req_tools r = None /\ LLM.req_tool_choice r = None) /\
  (forall t ts, tools = Some (t :: ts) ->
   LLM.req_tools r = Some (t :: ts) /\ LLM.req_tool_choice r = Some "auto") /\
  (LLM.req_tool_choice r = Some "auto" <-> exists t ts, tools = Some (t :: ts)) /\
  (LLM.req_tools r = None <-> LLM.req_tool_choice r = None) /\
  (max_tokens = None \/ max_tokens = Some 0%Z ->
   LLM.req_max_tokens r = LLM.max_tokens (LLM.config self)) /\
  (forall n, max_tokens = Some n -> n <> 0%Z -> LLM.req_max_tokens r = n) /\
  (LLM.req_max_tokens r = 0%Z -> LLM.max_tokens (LLM.config self) = 0%Z) /\
  (temperature = None ->
   LLM.req_temperature r = LLM.temperature (LLM.config self)) /\
  (forall t, temperature = Some t -> QArith_base.Qeq t zero ->
   LLM.req_temperature r = LLM.temperature (LLM.config self)) /\
  (forall t, temperature = Some t -> ~ QArith_base.Qeq t zero ->
   LLM.req_temperature r = t) /\
  (QArith_base.Qeq (LLM.req_temperature r) zero ->
   QArith_base.Qeq (LLM.temperature (LLM.config self)) zero) /\
  (forall w e,
     LLM.create self w r = Raise e ->
     LLM.chat self messages tools temperature max_tokens w = Raise e).
Proof.
  cbv zeta. unfold LLM.request.
  cbn [LLM.req_tool_choice LLM.req_tools LLM.req_max_tokens LLM.req_temperature
       LLM.req_model LLM.req_messages].
  split; [reflexivity|]. split; [reflexivity|].
  split. { now intros [-> | ->]. }
  split. { now intros t ts ->. }
  split.
  { split.
    - destruct tools as [[|t ts]|]; try discriminate. intros _. now exists t, ts.
    - intros [t [ts ->]]. reflexivity. }
  split.
  { split; destruct tools as [[|t ts]|]; try discriminate; reflexivity. }
  split. { now intros [-> | ->]. }
  split.
  { intros n -> Hn. unfold LLM.max_tokens_or.
    apply Z.eqb_neq in Hn. now rewrite Hn. }
  split.
  { unfold LLM.max_tokens_or. destruct max_tokens as [n|]; [|trivial].
    destruct (n =? 0)%Z eqn:Hn; [trivial|].
    apply Z.eqb_neq in Hn. intros H. contradiction. }
  split. { now intros ->. }
  split.
  { intros t -> Ht. unfold LLM.temperature_or.
    apply QArith_base.Qeq_bool_iff in Ht. now rewrite Ht. }
  split.
  { intros t -> Ht. unfold LLM.temperature_or.
    destruct (QArith_base.Qeq_bool t (QArith_base.Qmake 0 1)) eqn:Hb;
      [|reflexivity].
    apply QArith_base.Qeq_bool_iff in Hb. contradiction. }
  split.
  { unfold LLM.temperature_or. destruct temperature as [t|]; [|trivial].
    destruct (QArith_base.Qeq_bool t (QArith_base.Qmake 0 1)) eqn:Ht; [trivial|].
    intros H. apply QArith_base.Qeq_bool_iff in H. congruence. }
  intros w e He. unfold LLM.chat, LLM.request. now rewrite He.
Qed.

End ClientFacts.

(** ** The web search *)

Section SearchFacts.

(** What [json.loads] gave is what [json.dumps] takes back. *)
Lemma to_json_of_json : forall j : json, Json.to_json (of_json j) = Ret j.
Proof.
  fix IH 1. intros j.
  destruct j as [|b|z|s|l|d]; simpl; try reflexivity.
  - induction l as [|x l IHl]; simpl; [reflexivity|].
    rewrite (IH x). revert IHl.
    match goal with |- context [?items (map of_json l)] =>
      destruct (items (map of_json l)) as [js|e] end;
      [now intros [= ->] | discriminate].
  - induction d as [|[k x] d IHd]; simpl; [reflexivity|].
    rewrite (IH x). revert IHd.
    match goal with |- context [?items (map ?f d)] =>
      destruct (items (map f d)) as [js|e] end;
      [now intros [= ->] | discriminate].
Qed.

Lemma get_or_empty_json (key : string) (r : dict json) :
  exists j, Json.to_json (WebBrowser.get_or_empty key r) = Ret j.
Proof.
  unfold WebBrowser.get_or_empty. destruct (dict_get key r) as [v|].
  - exists v. apply to_json_of_json.
  - now exists (JStr "").
Qed.

Lemma to_json_dict_cons (k : string) (x : pyval) (d : list (string * pyval))
    (j : json) (js : list (string * json)) :
  Json.to_json x = Ret j ->
  Json.to_json (PyDict d) = Ret (JDict js) ->
  Json.to_json (PyDict ((k, x) :: d)) = Ret (JDict ((k, j) :: js)).
Proof.
  intros Hx Hd. simpl in *. rewrite Hx. revert Hd.
  match goal with |- context [?items d] =>
    destruct (items d) as [js0|e] end;
    [now intros [= ->] | discriminate].
Qed.

Lemma to_json_list_cons (x : pyval) (l : list pyval) (j : json) (js : list json) :
  Json.to_json x = Ret j ->
  Json.to_json (PyList l) = Ret (JList js) ->
  Json.to_json (PyList (x :: l)) = Ret (JList (j :: js)).
Proof.
  intros Hx Hl. simpl in *. rewrite Hx. revert Hl.
  match goal with |- context [?items l] =>
    destruct (items l) as [js0|e] end;
    [now intros [= ->] | discriminate].
Qed.

Lemma formatted_json (r : dict json) :
  exists j, Json.to_json (WebBrowser.formatted r) = Ret j.
Proof.
  unfold WebBrowser.formatted.
  destruct (get_or_empty_json "title" r) as [j1 H1].
  destruct (get_or_empty_json "href" r) as [j2 H2].
  destruct (get_or_empty_json "body" r) as [j3 H3].
  eexists.
  apply to_json_dict_cons; [exact H1|].
  apply to_json_dict_cons; [exact H2|].
  apply to_json_dict_cons; [exact H3|].
  reflexivity.
Qed.

Lemma formatted_list_json (results : list (dict json)) :
  exists js, Json.to_json (PyList (map WebBrowser.formatted results)) = Ret (JList js).
Proof.
  induction results as [|r results [js IH]]; [now exists []|].
  destruct (formatted_json r) as [j Hj].
  exists (j :: js). cbn [map]. now apply to_json_list_cons.
Qed.

(** X23.  [_search] never raises, and what it returns is decided by the
    library and by the search.  Without the library the result is a failure
    that says so.  With it, a search that raises gives a failure with the
    text of the exception; a search without results gives a success with the
    message and an empty list; a search with results gives a success that
    carries the query, one entry for each result, in their order, with the
    keys [title], [url] and [snippet] read from [title], [href] and [body]
    (the empty text for a missing one), and a count that is the number of
    results.  In every case the output is JSON data. *)
Theorem search_result (self : WebBrowser.WebBrowserSkill)
    (query max_results : json) (w : trace) :
  let found := WebBrowser.ddgs_text self w query max_results in
  let read (key : string) (r : dict json) : pyval :=
    match dict_get key r with
    | Some v => of_json v
    | None => PyStr ""
    end in
  (WebBrowser.DDGS_AVAILABLE self = false ->
   WebBrowser._search self query max_results w
     = Ret (BaseSkillResult false PyNone
              (Some "搜索功能需要安装 duckduckgo-search 库"))) /\
  (forall e,
     WebBrowser.DDGS_AVAILABLE self = true -> found = Raise e ->
     WebBrowser._search self query max_results w
       = Ret (BaseSkillResult false PyNone (Some ("搜索失败: " ++ exn_str e)))) /\
  (WebBrowser.DDGS_AVAILABLE self = true -> found = Ret [] ->
   WebBrowser._search self query max_results w
     = Ret (BaseSkillResult true
              (PyDict [("message", PyStr "未找到相关结果");
                       ("results", PyList [])])
              None)) /\
  (forall r results,
     WebBrowser.DDGS_AVAILABLE self = true -> found = Ret (r :: results) ->
     WebBrowser._search self query max_results w
       = Ret (BaseSkillResult true
                (PyDict [("query", of_json query);
                         ("count", PyInt (Z.of_nat (length (r :: results))));
                         ("results",
                          PyList (map (fun x =>
                                         PyDict [("title", read "title" x);
                                                 ("url", read "href" x);
                                                 ("snippet", read "body" x)])
                                    (r :: results)))])
                None)) /\
  exists success output error,
    WebBrowser._search self query max_results w
      = Ret (BaseSkillResult success output error) /\
    dumpable output = true /\
    (success = true <->
     WebBrowser.DDGS_AVAILABLE self = true /\ exists results, found = Ret results).
Proof.
  cbv zeta. unfold WebBrowser._search, BaseSkill.SkillResult.
  split. { now intros ->. }
  split. { now intros e -> ->. }
  split. { now intros -> ->. }
  split.
  { intros r results -> ->. cbn [negb]. cbv zeta.
    now rewrite length_map. }
  destruct (WebBrowser.DDGS_AVAILABLE self); cbn [negb].
  2:{ do 3 eexists. split; [reflexivity|]. split; [reflexivity|].
      split; [discriminate | now intros [? _]]. }
  destruct (WebBrowser.ddgs_text self w query max_results) as [[|r results]|e].
  - do 3 eexists. split; [reflexivity|]. split; [reflexivity|].
    split; [intros _; split; [reflexivity | now eexists] | reflexivity].
  - do 3 eexists. split; [reflexivity|]. split.
    + destruct (formatted_list_json (r :: results)) as [js Hjs].
      unfold dumpable, Json.dumps.
      erewrite to_json_dict_cons; [reflexivity | apply to_json_of_json |].
      apply to_json_dict_cons; [reflexivity|].
      apply to_json_dict_cons; [exact Hjs | reflexivity].
    + split; [intros _; split; [reflexivity | now eexists] | reflexivity].
  - do 3 eexists. split; [reflexivity|]. split; [reflexivity|].
    split; [discriminate | now intros [_ [? ?]]].
Qed.

Lemma search_result_witness :
  WebBrowser._search ClientScenario.engine (JStr "rocq") (JInt 5) []
  = Ret (BaseSkillResult true
           (PyDict [("query", PyStr "rocq");
                    ("count", PyInt 2);
                    ("results",
                     PyList [PyDict [("title", PyStr "Rocq");
                                     ("url", PyStr "https://rocq-prover.org");
                                     ("snippet", PyStr "The Rocq Prover")];
                             PyDict [("title", PyStr "News");
                                     ("url", PyStr "https://example.org");
                                     ("snippet", PyStr "")]])])
           None).
Proof.
  exact (proj1 (proj2 (proj2 (proj2
           (search_result ClientScenario.engine (JStr "rocq") (JInt 5) []))))
           [("title", JStr "Rocq"); ("href", JStr "https://rocq-prover.org");
            ("body", JStr "The Rocq Prover")]
           [[("title", JStr "News"); ("href", JStr "https://example.org")]]
           eq_refl eq_refl).
Defined.

End SearchFacts.

(** ** The answers at the prompt *)

Section PromptAnswers.

Lemma isspace_lower (c : ascii) :
  PyStr.isspace (PyStr.lower_char c) = PyStr.isspace c.
Proof. destruct c as [[] [] [] [] [] [] [] []]; reflexivity. Qed.

Lemma lower_char_idem (c : ascii) :
  PyStr.lower_char (PyStr.lower_char c) = PyStr.lower_char c.
Proof. destruct c as [[] [] [] [] [] [] [] []]; reflexivity. Qed.

Lemma is_continuation_lower (c : ascii) :
  PyStr.is_continuation (PyStr.lower_char c) = PyStr.is_continuation c.
Proof. destruct c as [[] [] [] [] [] [] [] []]; reflexivity. Qed.

Lemma lower_idem (s : string) : PyStr.lower (PyStr.lower s) = PyStr.lower s.
Proof. induction s; simpl; [reflexivity|]. now rewrite lower_char_idem, IHs. Qed.

Lemma lstrip_lower (s : string) :
  PyStr.lstrip (PyStr.lower s) = PyStr.lower (PyStr.lstrip s).
Proof.
  induction s as [|c s IH]; simpl; [reflexivity|].
  rewrite isspace_lower. now destruct (PyStr.isspace c).
Qed.

Lemma rstrip_lower (s : string) :
  PyStr.rstrip (PyStr.lower s) = PyStr.lower (PyStr.rstrip s).
Proof.
  induction s as [|c s IH]; simpl; [reflexivity|].
  rewrite IH, isspace_lower.
  destruct (PyStr.rstrip s); simpl; [now destruct (PyStr.isspace c) | reflexivity].
Qed.

Lemma strip_lower (s : string) :
  PyStr.strip (PyStr.lower s) = PyStr.lower (PyStr.strip s).
Proof. unfold PyStr.strip. now rewrite lstrip_lower, rstrip_lower. Qed.

Lemma lstrip_idem (s : string) : PyStr.lstrip (PyStr.lstrip s) = PyStr.lstrip s.
Proof.
  induction s as [|c s IH]; simpl; [reflexivity|].
  destruct (PyStr.isspace c) eqn:Hc; [exact IH|]. simpl. now rewrite Hc.
Qed.

Lemma rstrip_idem (s : string) : PyStr.rstrip (PyStr.rstrip s) = PyStr.rstrip s.
Proof.
  induction s as [|c s IH]; simpl; [reflexivity|].
  destruct (PyStr.rstrip s) as [|d r] eqn:Hr.
  - destruct (PyStr.isspace c) eqn:Hc; simpl; [reflexivity|]. now rewrite Hc.
  - change (PyStr.rstrip (String c (String d r)))
      with (match PyStr.rstrip (String d r) with
            | EmptyString =>
                if PyStr.isspace c then EmptyString else String c EmptyString
            | r0 => String c r0
            end).
    now rewrite IH.
Qed.

Lemma lstrip_rstrip (t : string) :
  PyStr.lstrip t = t -> PyStr.lstrip (PyStr.rstrip t) = PyStr.rstrip t.
Proof.
  destruct t as [|c r]; [reflexivity|]. simpl.
  destruct (PyStr.isspace c) eqn:Hc.
  - intros H. exfalso. pose proof (lstrip_length r) as Hl.
    rewrite H in Hl. simpl in Hl. lia.
  - intros _. destruct (PyStr.rstrip r); simpl; now rewrite Hc.
Qed.

Lemma strip_idem (s : string) : PyStr.strip (PyStr.strip s) = PyStr.strip s.
Proof.
  unfold PyStr.strip.
  rewrite (lstrip_rstrip (PyStr.lstrip s) (lstrip_idem s)).
  apply rstrip_idem.
Qed.

Lemma blank_lstrip (a : string) : PyStr.strip a = "" -> PyStr.lstrip a = "".
Proof.
  unfold PyStr.strip. pose proof (lstrip_idem a) as Hi.
  destruct (PyStr.lstrip a) as [|c r]; [reflexivity|].
  simpl in *. destruct (PyStr.isspace c) eqn:Hc.
  - exfalso. pose proof (lstrip_length r) as Hl. rewrite Hi in Hl. simpl in Hl. lia.
  - destruct (PyStr.rstrip r); discriminate.
Qed.

Lemma lstrip_blank_append (a s : string) :
  PyStr.lstrip a = "" -> PyStr.lstrip (a ++ s) = PyStr.lstrip s.
Proof.
  induction a as [|c a IH]; simpl; [reflexivity|].
  destruct (PyStr.isspace c); [exact IH | discriminate].
Qed.

Lemma blank_rstrip (b : string) : PyStr.lstrip b = "" -> PyStr.rstrip b = "".
Proof.
  induction b as [|c b IH]; simpl; [reflexivity|].
  destruct (PyStr.isspace c); [|discriminate].
  intros H. now rewrite (IH H).
Qed.

Lemma lstrip_append (s b : string) :
  PyStr.lstrip (s ++ b) =
  match PyStr.lstrip s with
  | EmptyString => PyStr.lstrip b
  | t => t ++ b
  end.
Proof.
  induction s as [|c s IH]; simpl.
  - now destruct (PyStr.lstrip b).
  - destruct (PyStr.isspace c); [exact IH | reflexivity].
Qed.

(** White space round a text does not change what [strip] makes of it. *)
Lemma strip_padding (a s b : string) :
  PyStr.strip a = "" -> PyStr.strip b = "" ->
  PyStr.strip (a ++ s ++ b) = PyStr.strip s.
Proof.
  intros Ha Hb. apply blank_lstrip in Ha. apply blank_lstrip in Hb.
  unfold PyStr.strip. rewrite (lstrip_blank_append a _ Ha), lstrip_append.
  destruct (PyStr.lstrip s) as [|c t] eqn:Hs.
  - now rewrite Hb.
  - now rewrite rstrip_append, (blank_rstrip b Hb).
Qed.

(** X24.  The answer to a confirmation is read without regard to white
    space round it or to the case of its letters (both on the ASCII range, as
    the strings are modelled): [y], [yes], [是] and [确认] confirm, in any
    case and with any white space round them, and nothing else does; in
    particular a blank line refuses. *)
Theorem confirmation_answer (a s b : string) :
  PyStr.strip a = "" -> PyStr.strip b = "" ->
  (Main.confirms (a ++ s ++ b) = true <->
   In (PyStr.lower (PyStr.strip s)) ["y"; "yes"; "是"; "确认"]) /\
  (In (PyStr.lower s) ["y"; "yes"; "是"; "确认"] ->
   Main.confirms (a ++ s ++ b) = true) /\
  Main.confirms (a ++ s ++ b) = Main.confirms s /\
  Main.confirms (PyStr.lower s) = Main.confirms s /\
  Main.confirms a = false /\
  Main.confirms (a ++ b) = false.
Proof.
  intros Ha Hb.
  assert (Hiff : Main.confirms (a ++ s ++ b) = true <->
                 In (PyStr.lower (PyStr.strip s)) ["y"; "yes"; "是"; "确认"]).
  { unfold Main.confirms. rewrite (strip_padding a s b Ha Hb). split.
    - intros H. apply existsb_exists in H as [x [Hin Hx]].
      apply String.eqb_eq in Hx. now rewrite Hx.
    - intros H. apply existsb_exists.
      exists (PyStr.lower (PyStr.strip s)). split; [exact H|].
      apply String.eqb_refl. }
  split; [exact Hiff|]. split.
  { intros Hin. apply Hiff. rewrite <- strip_lower.
    destruct Hin as [<- | [<- | [<- | [<- | []]]]]; vm_compute; tauto. }
  unfold Main.confirms.
  rewrite (strip_padding a s b Ha Hb), strip_lower, lower_idem, Ha.
  repeat split.
  pose proof (strip_padding a "" b Ha Hb) as Hab. simpl in Hab.
  now rewrite Hab.
Qed.

Lemma confirmation_answer_witness :
  Main.confirms (" " ++ "YES" ++ Json.char 10) = true.
Proof.
  apply (proj1 (proj2 (confirmation_answer " " "YES" (Json.char 10)
                         eq_refl eq_refl))).
  vm_compute. tauto.
Defined.

Lemma skip_continuation_lower (s : string) :
  Main.skip_continuation (PyStr.lower s) = PyStr.lower (Main.skip_continuation s).
Proof.
  induction s as [|c s IH]; simpl; [reflexivity|].
  rewrite is_continuation_lower. now destruct (PyStr.is_continuation c).
Qed.

Lemma drop_lower (n : nat) (s : string) :
  Main.drop n (PyStr.lower s) = PyStr.lower (Main.drop n s).
Proof.
  revert s. induction n as [|n IH]; intros s; [reflexivity|].
  destruct s as [|c s]; simpl; [reflexivity|].
  now rewrite skip_continuation_lower, IH.
Qed.

(** X25.  The name that [/voice <name>] hands to [set_voice] is always in
    lower case and stripped: the command is lower-cased before the name is
    cut out of it, so a name with (ASCII) capital letters cannot be chosen. *)
Theorem voice_name_is_folded (command voice_name : string) :
  Main._handle_command command = Main.SetVoice voice_name ->
  PyStr.lower voice_name = voice_name /\
  PyStr.strip voice_name = voice_name /\
  PyStr.startswith (PyStr.lower (PyStr.strip (Main.drop 1 command))) "voice " = true.
Proof.
  unfold Main._handle_command. cbv zeta.
  set (cmd := PyStr.lower (PyStr.strip (Main.drop 1 command))).
  assert (Hcmd : PyStr.lower cmd = cmd) by apply lower_idem.
  destruct (String.eqb cmd "help"); [discriminate|].
  destruct (String.eqb cmd "clear"); [discriminate|].
  destruct (String.eqb cmd "status"); [discriminate|].
  destruct (String.eqb cmd "skills"); [discriminate|].
  destruct (PyStr.startswith cmd "voice "); [|discriminate].
  intros H.
  assert (Hv : voice_name = PyStr.strip (Main.drop 6 cmd)) by congruence.
  rewrite Hv. repeat split.
  - now rewrite <- strip_lower, <- drop_lower, Hcmd.
  - apply strip_idem.
Qed.

Lemma voice_name_is_folded_witness :
  PyStr.lower "zh-cn-yunxineural" = "zh-cn-yunxineural".
Proof.
  apply (voice_name_is_folded "/voice zh-CN-YunxiNeural" "zh-cn-yunxineural").
  reflexivity.
Defined.

End PromptAnswers.

(** ** The prompt as the confirmation callback *)

Section ConsoleConsent.

Import Planner.

(** X26.  With [Jarvis._handle_confirmation] installed as the callback, a
    call that needs a confirmation is executed only on one of the four
    words: if the typed line, stripped and in lower case, is none of [y],
    [yes], [是], [确认], the turn records
    [{success: False, error: 用户拒绝执行此操作}] and its only event is the
    request; the skill is not run.  A line of white space is such a line
    (white space and case on the ASCII range, as the strings are modelled).
    If reading the line raises, the exception is recorded instead, and the
    skill is not run either. *)
Theorem typed_line_gates_execution (self : ReActPlanner)
    (input : trace -> outcome string) (tc : ToolCall) (skill : Skill)
    (f : trace -> kwargs -> outcome bool) (results : list pyval) (w : trace) :
  let self' := set_confirmation_callback self (Main._handle_confirmation input) in
  let prompt := confirmation_prompt (tc_name tc) (tc_arguments tc) in
  dict_get (tc_name tc) (skills self) = Some skill ->
  needs_confirmation skill = Some f ->
  f w (tc_arguments tc) = Ret true ->
  (forall line,
     input w = Ret line ->
     (~ In (PyStr.lower (PyStr.strip line)) ["y"; "yes"; "是"; "确认"] \/
      PyStr.strip line = "") ->
     tool_call_step self' tc results w
       = (Ret (results ++ [user_denied])%list, (w ++ [EvConfirm prompt])%list)) /\
  (forall e,
     input w = Raise e ->
     tool_call_step self' tc results w
       = (Ret (results ++ [execution_failed e])%list,
          (w ++ [EvConfirm prompt])%list)) /\
  (forall line r w',
     input w = Ret line ->
     tool_call_step self' tc results w = (Ret r, w') ->
     r <> (results ++ [user_denied])%list ->
     In (PyStr.lower (PyStr.strip line)) ["y"; "yes"; "是"; "确认"]).
Proof.
  intros self' prompt Hskill Hneeds Hf.
  assert (Hstep : forall line,
             input w = Ret line -> Main.confirms line = false ->
             tool_call_step self' tc results w
               = (Ret (results ++ [user_denied])%list,
                  (w ++ [EvConfirm prompt])%list)).
  { intros line Hline Hno.
    unfold tool_call_step, try_tool_call, confirmation_gate.
    cbn [self' set_confirmation_callback skills _confirmation_callback].
    rewrite Hskill, Hneeds, Hf. fold prompt.
    unfold Main._handle_confirmation. now rewrite Hline, Hno. }
  assert (Hwords : forall line,
             Main.confirms line = true ->
             In (PyStr.lower (PyStr.strip line)) ["y"; "yes"; "是"; "确认"]).
  { intros line H. unfold Main.confirms in H.
    apply existsb_exists in H as [x [Hin Hx]].
    apply String.eqb_eq in Hx. now rewrite Hx. }
  repeat split.
  - intros line Hline Hno. apply (Hstep line Hline).
    destruct (Main.confirms line) eqn:Hc; [|reflexivity].
    destruct Hno as [Hno | Hblank].
    + now apply Hwords in Hc.
    + unfold Main.confirms in Hc. rewrite Hblank in Hc. discriminate.
  - intros e He.
    unfold tool_call_step, try_tool_call, confirmation_gate.
    cbn [self' set_confirmation_callback skills _confirmation_callback].
    rewrite Hskill, Hneeds, Hf. fold prompt.
    unfold Main._handle_confirmation. now rewrite He.
  - intros line r w' Hline Hrun Hr.
    destruct (Main.confirms line) eqn:Hc; [now apply Hwords|].
    rewrite (Hstep line Hline Hc) in Hrun. congruence.
Qed.

Lemma typed_line_gates_execution_witness :
  tool_call_step
    (set_confirmation_callback (Scenario.planner Scenario.late_answer None)
       (Main._handle_confirmation (fun _ => Ret "Yes please")))
    Scenario.critical_call [] []
  = (Ret [user_denied], [EvConfirm (confirmation_prompt "critical" [])]).
Proof.
  apply (proj1 (typed_line_gates_execution
                  (Scenario.planner Scenario.late_answer None)
                  (fun _ => Ret "Yes please") Scenario.critical_call
                  Scenario.critical_skill (fun _ _ => Ret true) [] []
                  eq_refl eq_refl eq_refl) "Yes please" eq_refl).
  left. vm_compute. intuition discriminate.
Defined.

End ConsoleConsent.
